(** * FCU drone controller client: the network command/response engine

    A shallow embedding of [control.py] (class [DroneController]) and of its
    plain sibling [drone_controller.py], and the properties of framing,
    response handling, sending and teardown that the design document states
    about them.

    Conventions of the embedding.
    - A Python [str] is a list of Unicode code points ([N]); [bytes] is a list
      of [Byte.byte].
    - [print] appends one line to an output log. Standard output is a UTF-8
      terminal: it accepts every text but one that holds a surrogate code
      point, for which [print] raises UnicodeEncodeError and prints nothing.
      Literals, decoded wire text and text typed at the console hold none;
      a value decoded by [json.loads] can. The first line printed from such
      a value is its echo by [handle_server_message], and that [print] is
      modelled with its failure ([print_encoded]); the lines printed after
      it are made of parts of a value that was echoed, and of the other
      sources, and cannot fail.
    - Library calls whose result is not computed by this repository
      ([json.loads], [json.dumps], [format] on non-string values, the socket
      and the console) are operations of the type classes [PyBuiltins] and
      [Platform].
    - Exceptions are values of [exn]; every [exn] is an instance of Python's
      [Exception]. [SystemExit], raised by [sys.exit], is none and is kept
      apart ([Unwind]).
    - SIGINT is bound to [signal_handler] by [__init__] of both clients; it
      is delivered where the foreground waits, at the prompt of [input].
    - A function is modelled as it runs on its own thread: the receive loop
      and the foreground are not interleaved, so within one call the
      attributes of the controller change only where that call assigns
      them.
    - A loop that may run forever takes a bound on the number of its passes
      (its fuel) and reports whether it returned or is still running. *)

From Stdlib.Strings Require Import String Ascii Byte.
From Stdlib Require Import List NArith ZArith Arith Bool Lia PrimFloat.
Import ListNotations.

Set Implicit Arguments.

(* ===================================================================== *)
(** * Part I: definitions *)
(* ===================================================================== *)

(** ** Python strings *)

Module PyStr.

Definition str := list N.

(** An ASCII literal as a [str]. *)
Definition lit (s : string) : str :=
  map N_of_ascii (list_ascii_of_string s).

Definition NL : N := 10.

Definition eqb (a b : str) : bool :=
  if list_eq_dec N.eq_dec a b then true else false.

(** [not s] on a string is [True] exactly for the empty string. *)
Definition truthy (s : str) : bool :=
  match s with [] => false | _ :: _ => true end.

(** [str.isspace] on one code point: the characters removed by
    [str.strip()] without arguments. *)
Definition isspace (c : N) : bool :=
  (((9 <=? c) && (c <=? 13)) || ((28 <=? c) && (c <=? 32))
   || (c =? 133) || (c =? 160) || (c =? 5760)
   || ((8192 <=? c) && (c <=? 8202))
   || (c =? 8232) || (c =? 8233) || (c =? 8239) || (c =? 8287)
   || (c =? 12288))%N.

Fixpoint lstrip (s : str) : str :=
  match s with
  | [] => []
  | c :: s' => if isspace c then lstrip s' else s
  end.

Definition rstrip (s : str) : str := rev (lstrip (rev s)).

(** [s.strip()] *)
Definition strip (s : str) : str := rstrip (lstrip s).

(** ['\n' in s], and when it holds [s.split('\n', 1)]: the text before the
    first newline and the text after it. [None] when [s] has no newline. *)
Fixpoint partition_nl (s : str) : option (str * str) :=
  match s with
  | [] => None
  | c :: s' =>
      if (c =? NL)%N then Some ([], s')
      else match partition_nl s' with
           | Some (line, rest) => Some (c :: line, rest)
           | None => None
           end
  end.

(** [s.startswith(p)] *)
Fixpoint startswith (p s : str) : bool :=
  match p, s with
  | [], _ => true
  | _ :: _, [] => false
  | a :: p', b :: s' => (a =? b)%N && startswith p' s'
  end.

(** [p in s] for two strings: [p] occurs as a contiguous substring. *)
Fixpoint contains (p s : str) : bool :=
  startswith p s || match s with [] => false | _ :: s' => contains p s' end.

(** [f"{s:<w}"]: pad with spaces on the right up to width [w]. *)
Definition ljust (w : nat) (s : str) : str :=
  s ++ repeat 32%N (w - length s).

(** [c * n] for a one-character string. *)
Definition times (c : N) (n : nat) : str := repeat c n.

(** *** UTF-8 *)

Definition is_cont (b : N) : bool := ((128 <=? b) && (b <=? 191))%N.

Definition between (lo b hi : N) : bool := ((lo <=? b) && (b <=? hi))%N.

(** Allowed range of the second byte after lead byte [b0] of a three- or
    four-byte sequence (excludes overlong forms, surrogates and code
    points above U+10FFFF). *)
Definition second_ok (b0 b1 : N) : bool :=
  (if b0 =? 224 then between 160 b1 191
   else if b0 =? 237 then between 128 b1 159
   else if b0 =? 240 then between 144 b1 191
   else if b0 =? 244 then between 128 b1 143
   else is_cont b1)%N.

(** [bytes.decode('utf-8')] on byte values; [None] is UnicodeDecodeError. *)
Fixpoint decode_values (bs : list N) : option str :=
  match bs with
  | [] => Some []
  | b0 :: r0 =>
      if (b0 <? 128)%N then option_map (cons b0) (decode_values r0)
      else if between 194 b0 223 then
        match r0 with
        | b1 :: r1 =>
            if is_cont b1
            then option_map (cons ((b0 - 192) * 64 + (b1 - 128))%N)
                            (decode_values r1)
            else None
        | _ => None
        end
      else if between 224 b0 239 then
        match r0 with
        | b1 :: b2 :: r2 =>
            if second_ok b0 b1 && is_cont b2
            then option_map
                   (cons ((b0 - 224) * 4096 + (b1 - 128) * 64 + (b2 - 128))%N)
                   (decode_values r2)
            else None
        | _ => None
        end
      else if between 240 b0 244 then
        match r0 with
        | b1 :: b2 :: b3 :: r3 =>
            if second_ok b0 b1 && is_cont b2 && is_cont b3
            then option_map
                   (cons ((b0 - 240) * 262144 + (b1 - 128) * 4096
                          + (b2 - 128) * 64 + (b3 - 128))%N)
                   (decode_values r3)
            else None
        | _ => None
        end
      else None
  end.

Definition utf8_decode (bs : list byte) : option str :=
  decode_values (map Byte.to_N bs).

(** The first character of a byte sequence and the bytes after it: one step
    of [decode_values]. *)
Definition decode_one (bs : list N) : option (N * list N) :=
  match bs with
  | [] => None
  | b0 :: r0 =>
      if (b0 <? 128)%N then Some (b0, r0)
      else if between 194 b0 223 then
        match r0 with
        | b1 :: r1 =>
            if is_cont b1
            then Some ((b0 - 192) * 64 + (b1 - 128), r1)%N
            else None
        | _ => None
        end
      else if between 224 b0 239 then
        match r0 with
        | b1 :: b2 :: r2 =>
            if second_ok b0 b1 && is_cont b2
            then Some ((b0 - 224) * 4096 + (b1 - 128) * 64 + (b2 - 128), r2)%N
            else None
        | _ => None
        end
      else if between 240 b0 244 then
        match r0 with
        | b1 :: b2 :: b3 :: r3 =>
            if second_ok b0 b1 && is_cont b2 && is_cont b3
            then Some ((b0 - 240) * 262144 + (b1 - 128) * 4096
                       + (b2 - 128) * 64 + (b3 - 128), r3)%N
            else None
        | _ => None
        end
      else None
  end.

Definition is_surrogate (c : N) : bool := between 55296 c 57343.

(** The UTF-8 bytes of one code point; [None] for a surrogate or a value
    above U+10FFFF (UnicodeEncodeError). *)
Definition encode_point (c : N) : option (list N) :=
  (if c <? 128 then Some [c]
   else if c <? 2048 then Some [192 + c / 64; 128 + c mod 64]
   else if is_surrogate c then None
   else if c <? 65536
        then Some [224 + c / 4096; 128 + (c / 64) mod 64; 128 + c mod 64]
   else if c <? 1114112
        then Some [240 + c / 262144; 128 + (c / 4096) mod 64;
                   128 + (c / 64) mod 64; 128 + c mod 64]
   else None)%N.

Fixpoint encode_values (s : str) : option (list N) :=
  match s with
  | [] => Some []
  | c :: s' =>
      match encode_point c, encode_values s' with
      | Some bs, Some r => Some (bs ++ r)
      | _, _ => None
      end
  end.

Fixpoint bytes_of_values (vs : list N) : option (list byte) :=
  match vs with
  | [] => Some []
  | v :: vs' =>
      match Byte.of_N v, bytes_of_values vs' with
      | Some b, Some r => Some (b :: r)
      | _, _ => None
      end
  end.

(** [s.encode('utf-8')] *)
Definition utf8_encode (s : str) : option (list byte) :=
  match encode_values s with
  | Some vs => bytes_of_values vs
  | None => None
  end.

(** [str(n)] for a non-negative integer: its decimal digits. *)
Fixpoint digits (fuel : nat) (n : N) (acc : str) : str :=
  match fuel with
  | O => acc
  | S fuel' =>
      let acc' := (48 + n mod 10)%N :: acc in
      if (n <? 10)%N then acc' else digits fuel' (n / 10)%N acc'
  end.

Definition of_nat (n : nat) : str := digits (S n) (N.of_nat n) [].

(** [str(z)] for an integer. *)
Definition of_Z (z : Z) : str :=
  if (z <? 0)%Z then 45%N :: of_nat (Z.abs_nat z) else of_nat (Z.abs_nat z).

End PyStr.
Import PyStr.

(** ** Exceptions and the output monad *)

Inductive ExnClass : Type :=
| JSONDecodeError | AttributeError | TypeError | KeyError | ValueError
| UnicodeError | SocketTimeout | OSError | OtherException.

(** A raised exception: its class and [str(e)]. *)
Record exn : Type := Exn { exn_class : ExnClass; exn_text : str }.

Definition is_class (c : ExnClass) (e : exn) : bool :=
  match c, exn_class e with
  | JSONDecodeError, JSONDecodeError | AttributeError, AttributeError
  | TypeError, TypeError | KeyError, KeyError | ValueError, ValueError
  | UnicodeError, UnicodeError | SocketTimeout, SocketTimeout
  | OSError, OSError | OtherException, OtherException => true
  | _, _ => false
  end.

(** A computation that prints lines and then returns or raises. *)
Definition Out (A : Type) : Type := list str * (exn + A).

Module OutMonad.

Definition ret {A} (a : A) : Out A := ([], inr a).

Definition lift {A} (r : exn + A) : Out A := ([], r).

Definition bind {A B} (m : Out A) (f : A -> Out B) : Out B :=
  match m with
  | (o, inl e) => (o, inl e)
  | (o, inr a) => let (o', r) := f a in (o ++ o', r)
  end.

(** [print(s)] *)
Definition print (s : str) : Out unit := ([s], inr tt).

(** [try: body  except Exception as e: handler(e)] *)
Definition try_except {A} (body : Out A) (handler : exn -> Out A) : Out A :=
  match body with
  | (o, inl e) => let (o', r) := handler e in (o ++ o', r)
  | (o, inr a) => (o, inr a)
  end.

(** [for x in xs: body(x)] *)
Fixpoint for_each {A} (body : A -> Out unit) (xs : list A) : Out unit :=
  match xs with
  | [] => ret tt
  | x :: xs' => bind (body x) (fun _ => for_each body xs')
  end.

End OutMonad.
Import OutMonad.

Declare Scope out_scope.
Delimit Scope out_scope with out.
Notation "x <- m ;; k" := (bind m (fun x => k))
  (at level 61, m at next level, right associativity) : out_scope.
Notation "m ;; k" := (bind m (fun _ => k))
  (at level 61, right associativity) : out_scope.
Open Scope out_scope.

(** ** JSON values and the Python operations the handler applies to them *)

#[warnings="-register-all"]
Inductive json : Type :=
| JNull
| JBool (b : bool)
| JInt (z : Z)
| JFloat (f : PrimFloat.float)
| JStr (s : str)
| JList (l : list json)
| JDict (d : list (str * json)).

Inductive FormatSpec : Type :=
| FmtLeft (width : nat)      (* [:<w]  *)
| FmtFixed (prec : nat).     (* [:.pf] *)

(** Library functions the client calls. *)
Class PyBuiltins : Type := {
  (** [json.loads(s)] *)
  json_loads : str -> exn + json;
  (** [json.dumps(v, indent=2, ensure_ascii=False)] *)
  json_dumps : json -> str;
  (** [str(v)] for a value that is not a string *)
  py_str : json -> str;
  (** [format(v, spec)] for a value that is not a string *)
  format_spec : json -> FormatSpec -> exn + str;
  (** [s.lower()] *)
  str_lower : str -> str;
  (** the interpreter's message for an error of the given class *)
  wording : ExnClass -> str
}.

Module Py.
Section WithBuiltins.
Context {B : PyBuiltins}.

Definition error {A} (c : ExnClass) : exn + A := inl (Exn c (wording c)).

Fixpoint assoc (k : str) (d : list (str * json)) : option json :=
  match d with
  | [] => None
  | (k', v) :: d' => if PyStr.eqb k k' then Some v else assoc k d'
  end.

(** [v.get(k, dflt)] *)
Definition get (v : json) (k : str) (dflt : json) : exn + json :=
  match v with
  | JDict d => inr (match assoc k d with Some x => x | None => dflt end)
  | _ => error AttributeError
  end.

(** [k in v] for a string [k] *)
Definition contains (k : str) (v : json) : exn + bool :=
  match v with
  | JDict d => inr (match assoc k d with Some _ => true | None => false end)
  | JList l =>
      inr (existsb (fun x => match x with
                             | JStr s => PyStr.eqb k s
                             | _ => false
                             end) l)
  | JStr s => inr (PyStr.contains k s)
  | _ => error TypeError
  end.

(** [v[k]] for a string [k] *)
Definition getitem (v : json) (k : str) : exn + json :=
  match v with
  | JDict d => match assoc k d with
               | Some x => inr x
               | None => error KeyError
               end
  | _ => error TypeError
  end.

(** [v.items()] *)
Definition items (v : json) : exn + list (str * json) :=
  match v with
  | JDict d => inr d
  | _ => error AttributeError
  end.

(** [len(v)] *)
Definition len (v : json) : exn + nat :=
  match v with
  | JDict d => inr (length d)
  | JList l => inr (length l)
  | JStr s => inr (length s)
  | _ => error TypeError
  end.

(** the elements [for x in v] visits *)
Definition iter (v : json) : exn + list json :=
  match v with
  | JList l => inr l
  | JDict d => inr (map (fun kv => JStr (fst kv)) d)
  | JStr s => inr (map (fun c => JStr [c]) s)
  | _ => error TypeError
  end.

(** [v == s] for a string literal [s] *)
Definition eq_str (v : json) (s : str) : bool :=
  match v with
  | JStr t => PyStr.eqb t s
  | _ => false
  end.

(** [f"{v}"] *)
Definition text (v : json) : str :=
  match v with
  | JStr s => s
  | _ => py_str v
  end.

(** [f"{v:spec}"] *)
Definition format (v : json) (spec : FormatSpec) : exn + str :=
  match v with
  | JStr s => match spec with
              | FmtLeft w => inr (ljust w s)
              | FmtFixed _ => error ValueError
              end
  | _ => format_spec v spec
  end.

End WithBuiltins.
End Py.

(** ** The controller object *)

(** ANSI colour codes ([class Colors]). *)
Module Colors.
Definition esc (code : string) : str := 27%N :: lit code.
Definition RED : str := esc "[91m".
Definition GREEN : str := esc "[92m".
Definition YELLOW : str := esc "[93m".
Definition BLUE : str := esc "[94m".
Definition MAGENTA : str := esc "[95m".
Definition CYAN : str := esc "[96m".
Definition WHITE : str := esc "[97m".
Definition BOLD : str := esc "[1m".
Definition UNDERLINE : str := esc "[4m".
Definition END : str := esc "[0m".
Definition colorize (text color : str) : str := color ++ text ++ END.

(** The glyphs the messages use. *)
Definition CHECK : str := [10003%N].      (* U+2713 *)
Definition CROSS : str := [10007%N].      (* U+2717 *)
Definition INFO : str := [8505%N].        (* U+2139 *)
Definition SQUARED : str := [178%N].      (* U+00B2 *)
Definition RULE : N := 9472%N.            (* U+2500 *)
End Colors.

(** An entry of the command mapping of [control.py]. *)
Record CmdInfo : Type := { name : str; description : str }.

(** [self.socket]: [None] or a socket object. *)
Inductive PySocket : Type := SocketObject.

(** The attributes of a [DroneController]; [Desc] is the type of the values
    of the command mapping. *)
Record Controller (Desc : Type) : Type := {
  host : str;
  port : Z;
  socket : option PySocket;
  connected : bool;
  running : bool;
  commands : list (str * Desc)
}.

Arguments host {Desc} _.
Arguments port {Desc} _.
Arguments socket {Desc} _.
Arguments connected {Desc} _.
Arguments running {Desc} _.
Arguments commands {Desc} _.

Definition set_connected {Desc} (b : bool) (c : Controller Desc)
  : Controller Desc :=
  {| host := host c; port := port c; socket := socket c; connected := b;
     running := running c; commands := commands c |}.

Definition set_socket {Desc} (s : option PySocket) (c : Controller Desc)
  : Controller Desc :=
  {| host := host c; port := port c; socket := s; connected := connected c;
     running := running c; commands := commands c |}.

(** [cmd in self.commands] *)
Definition known {Desc} (cmd : str) (table : list (str * Desc)) : bool :=
  existsb (fun kv => PyStr.eqb cmd (fst kv)) table.

(** [self.commands[cmd]] *)
Fixpoint lookup {Desc} (cmd : str) (table : list (str * Desc)) : option Desc :=
  match table with
  | [] => None
  | (k, v) :: table' => if PyStr.eqb cmd k then Some v else lookup cmd table'
  end.

Close Scope out_scope.

(** ** The session: controller, outside world and event log *)

(** What the program does to the outside world, in order. *)
Inductive Event : Type :=
| EvPrint (line : str)              (* print(line) *)
| EvConnect (h : str) (p : Z)       (* socket(); settimeout(10.0); connect *)
| EvSpawn                           (* receive_thread.start() *)
| EvSend (data : list byte)         (* self.socket.send(data) *)
| EvClose                           (* self.socket.close() *)
| EvRecv (bufsize : nat)            (* self.socket.recv(bufsize) *)
| EvSleep                           (* time.sleep(0.1) *)
| EvInput (prompt : str)            (* input(prompt) *)
| EvClear.                          (* os.system('clear') *)

(** What [input(prompt)] does: it returns the line typed, it raises, or
    SIGINT arrives while it waits and the handler bound to the signal
    runs. With [signal_handler] bound, SIGINT raises no KeyboardInterrupt;
    that outcome is kept for the [except] clause the loops have for it. *)
Inductive InputOutcome : Type :=
| InputLine (text : str)
| InputInterrupt                    (* KeyboardInterrupt *)
| InputEOF                          (* EOFError *)
| InputError (e : exn)              (* another exception, as UnicodeDecodeError *)
| InputSignal.                      (* SIGINT: the signal handler is called *)

(** What leaves a function that no [except] clause of it has caught: an
    exception, or the [SystemExit] of [sys.exit(status)], which is no
    instance of [Exception]. *)
Inductive Unwind : Type :=
| Uncaught (e : exn)
| SystemExit (status : Z).

(** The socket, the thread library and the console: each call returns or
    raises, and moves the outside world on. *)
Class Platform (World : Type) : Type := {
  sock_connect : str -> Z -> World -> (exn + unit) * World;
  thread_start : World -> (exn + unit) * World;
  sock_send : list byte -> World -> (exn + unit) * World;
  sock_close : World -> (exn + unit) * World;
  sock_recv : nat -> World -> (exn + list byte) * World;
  console_input : str -> World -> InputOutcome * World
}.

Record Session (World Desc : Type) : Type := {
  self : Controller Desc;
  world : World;
  log : list Event
}.

Arguments self {World Desc} _.
Arguments world {World Desc} _.
Arguments log {World Desc} _.

Definition M (World Desc A : Type) : Type :=
  Session World Desc -> Session World Desc * (exn + A).

Module SessionMonad.
Section Ops.
Context {World Desc : Type} {P : Platform World} {B : PyBuiltins}.

Local Abbreviation Sess := (Session World Desc).
Local Abbreviation Act := (M World Desc).

Definition pure {A} (a : A) : Act A := fun s => (s, inr a).

Definition chain {A C} (m : Act A) (f : A -> Act C) : Act C :=
  fun s => match m s with
           | (s', inl e) => (s', inl e)
           | (s', inr a) => f a s'
           end.

(** [try: body  except: handler] with a handler for every exception. *)
Definition catch {A} (body : Act A) (handler : exn -> Act A) : Act A :=
  fun s => match body s with
           | (s', inl e) => handler e s'
           | (s', inr a) => (s', inr a)
           end.

Definition record (ev : Event) (s : Sess) : Sess :=
  {| self := self s; world := world s; log := log s ++ [ev] |}.

Definition with_world (w : World) (s : Sess) : Sess :=
  {| self := self s; world := w; log := log s |}.

Definition with_self (c : Controller Desc) (s : Sess) : Sess :=
  {| self := c; world := world s; log := log s |}.

Definition get_self : Act (Controller Desc) := fun s => (s, inr (self s)).

Definition update_self (f : Controller Desc -> Controller Desc) : Act unit :=
  fun s => (with_self (f (self s)) s, inr tt).

(** [print(line)] *)
Definition say (line : str) : Act unit := fun s => (record (EvPrint line) s, inr tt).

Definition say_all (lines : list str) (s : Sess) : Sess :=
  fold_left (fun acc line => record (EvPrint line) acc) lines s.

(** Several [print] calls in a row. *)
Definition say_lines (lines : list str) : Act unit :=
  fun s => (say_all lines s, inr tt).

(** Run a printing computation inside the session. *)
Definition emit {A} (m : Out A) : Act A :=
  fun s => (say_all (fst m) s, snd m).

(** A call into the outside world, recorded in the log. *)
Definition external {A} (ev : Event) (op : World -> (exn + A) * World)
  : Act A :=
  fun s => let (r, w) := op (world s) in (with_world w (record ev s), r).

(** A method call on [self.socket]: AttributeError when it is [None]. *)
Definition on_socket {A} (call : Act A) : Act A :=
  fun s => match socket (self s) with
           | Some _ => call s
           | None => (s, Py.error AttributeError)
           end.

(** [self.socket.send(data)] *)
Definition socket_send (data : list byte) : Act unit :=
  on_socket (external (EvSend data) (sock_send data)).

(** [self.socket.close()] *)
Definition socket_close : Act unit :=
  on_socket (external EvClose sock_close).

(** [self.socket.recv(bufsize)] *)
Definition socket_recv (bufsize : nat) : Act (list byte) :=
  on_socket (external (EvRecv bufsize) (sock_recv bufsize)).

(** [input(prompt)] *)
Definition read_input (prompt : str) (s : Sess) : Sess * InputOutcome :=
  let (r, w) := console_input prompt (world s) in
  (with_world w (record (EvInput prompt) s), r).

(** The result of a call as its caller sees it when the caller has no
    [except] clause for it. *)
Definition uncaught {A} (r : Sess * (exn + A)) : Sess * (Unwind + A) :=
  match r with
  | (s, inl e) => (s, inl (Uncaught e))
  | (s, inr a) => (s, inr a)
  end.

(** [data.decode('utf-8')] *)
Definition decode (data : list byte) : Act str :=
  fun s => match utf8_decode data with
           | Some text => (s, inr text)
           | None => (s, Py.error UnicodeError)
           end.

(** [text.encode('utf-8')] *)
Definition encode (text : str) : Act (list byte) :=
  fun s => match utf8_encode text with
           | Some data => (s, inr data)
           | None => (s, Py.error UnicodeError)
           end.

End Ops.
End SessionMonad.
Import SessionMonad.

Declare Scope session_scope.
Delimit Scope session_scope with session.
Notation "x <- m ;; k" := (chain m (fun x => k))
  (at level 61, m at next level, right associativity) : session_scope.
Notation "m ;; k" := (chain m (fun _ => k))
  (at level 61, right associativity) : session_scope.

(** ** The code shared by both clients

    [disconnect] and [receive_messages] are the same in [control.py] and
    [drone_controller.py] up to the text of the lines they print and the
    message handler the loop calls; these are the section's variables. *)

(** How a run of a loop with bounded fuel ended. *)
Inductive LoopStatus : Type :=
| Returned                          (* the loop was left *)
| Polling (buffer : str).           (* fuel used up, the loop is still running *)

(** How one pass through the body of the interactive loop ended. *)
Inductive Flow : Type := Continue | Break.

(** Whether a call with bounded fuel came to its end. *)
Inductive Progress : Type := Finished | Unfinished.

(** How one pass through the [try] block of [receive_messages] ended; an
    exception carries the value [buffer] had when it was raised. *)
Inductive TryResult : Type :=
| Completed (buffer : str)
| Broke
| Raised (e : exn) (buffer : str).

Module Engine.
Section Shared.
Local Open Scope session_scope.
Context {World Desc : Type} {P : Platform World} {B : PyBuiltins}.

Variable handle_server_message : Controller Desc -> str -> Out unit.
Variable disconnected_notice : str.
Variable receive_error_notice : exn -> str.

Local Abbreviation Sess := (Session World Desc).
Local Abbreviation Act := (M World Desc).

(** [self.connected and self.socket] *)
Definition has_connection (c : Controller Desc) : bool :=
  connected c && match socket c with Some _ => true | None => false end.

Definition quit_line : list byte := [x71; x75; x69; x74; x0a].

(** [disconnect(self)] *)
Definition disconnect : Act unit :=
  c <- get_self ;;
  if has_connection c then
    catch (socket_send quit_line ;; socket_close) (fun _ => pure tt) ;;
    update_self (set_connected false) ;;
    say disconnected_notice
  else pure tt.

(** The session after [disconnect] has written the quit line (leaving the
    world in [w1]) and called [close] (leaving it in [w2]). *)
Definition closed_state (w1 w2 : World) (s : Sess) : Sess :=
  record (EvPrint disconnected_notice)
    (with_self (set_connected false (self s))
       (with_world w2 (record EvClose
          (with_world w1 (record (EvSend quit_line) s))))).

(** The session after [disconnect] has failed to write the quit line. *)
Definition unclosed_state (w1 : World) (s : Sess) : Sess :=
  record (EvPrint disconnected_notice)
    (with_self (set_connected false (self s))
       (with_world w1 (record (EvSend quit_line) s))).

(** The inner loop [while '\n' in buffer: ...]; [fuel] bounds the number of
    passes and [length buffer] always suffices. Returns the exception a
    handler call raised, if any, and the value of [buffer]. *)
Fixpoint drain (fuel : nat) (buffer : str) (s : Sess)
  : Sess * option exn * str :=
  match fuel with
  | O => (s, None, buffer)
  | S fuel' =>
      match partition_nl buffer with
      | None => (s, None, buffer)
      | Some (line, rest) =>
          if truthy (strip line) then
            match emit (handle_server_message (self s) (strip line)) s with
            | (s', inl e) => (s', Some e, rest)
            | (s', inr _) => drain fuel' rest s'
            end
          else drain fuel' rest s
      end
  end.

(** The statements after [data] has been received and decoded. *)
Definition feed (buffer data : str) (s : Sess) : Sess * TryResult :=
  if negb (truthy data) then (s, Broke)
  else
    let buffer' := buffer ++ data in
    match drain (length buffer') buffer' s with
    | (s', None, b) => (s', Completed b)
    | (s', Some e, b) => (s', Raised e b)
    end.

(** The [try] block of [receive_messages]. *)
Definition receive_try (buffer : str) (s : Sess) : Sess * TryResult :=
  match (raw <- socket_recv 1024 ;; decode raw) s with
  | (s', inl e) => (s', Raised e buffer)
  | (s', inr data) => feed buffer data s'
  end.

(** The [except] clauses, and what the loop does next. *)
Definition receive_except (e : exn) (s : Sess) : Sess * bool :=
  if is_class SocketTimeout e then (s, true)        (* continue *)
  else
    (if connected (self s) then record (EvPrint (receive_error_notice e)) s
     else s, false).                                 (* break *)

(** [while self.connected and self.running: ...] with [buffer] as the
    loop's local variable; every pass uses one unit of [fuel]. *)
Fixpoint receive_loop (fuel : nat) (buffer : str) (s : Sess)
  : Sess * LoopStatus :=
  match fuel with
  | O => (s, Polling buffer)
  | S fuel' =>
      if connected (self s) && running (self s) then
        match receive_try buffer s with
        | (s', Completed b) => receive_loop fuel' b s'
        | (s', Broke) => (s', Returned)
        | (s', Raised e b) =>
            match receive_except e s' with
            | (s'', true) => receive_loop fuel' b s''
            | (s'', false) => (s'', Returned)
            end
        end
      else (s, Returned)
  end.

(** [receive_messages(self)] *)
Definition receive_messages (fuel : nat) (s : Sess) : Sess * LoopStatus :=
  receive_loop fuel [] s.

End Shared.
End Engine.

(** ** [control.py]: rendering of server messages *)

Module Control.
Import Colors.
Section Rendering.
Context {B : PyBuiltins}.
Local Open Scope out_scope.

Definition DroneController : Type := Controller CmdInfo.

Definition entry (key nm descr : string) : str * CmdInfo :=
  (lit key, {| name := lit nm; description := lit descr |}).

(** The command mapping set up by [__init__]. *)
Definition default_commands : list (str * CmdInfo) :=
  [ entry "a" "Unlock" "Unlock the drone";
    entry "d" "Lock" "Lock the drone";
    entry "t" "Takeoff" "Take off the drone";
    entry "l" "Land" "Land the drone";
    entry "r" "Run" "Start mission";
    entry "s" "Stop" "Stop mission";
    entry "1" "Position 1" "Go to position 1";
    entry "2" "Position 2" "Go to position 2";
    entry "3" "Position 3" "Go to position 3";
    entry "4" "Position 4" "Go to position 4";
    entry "p" "Position Info" "Get current position and orientation";
    entry "i" "Topic Info" "List all ROS topics";
    entry "h" "Help" "Show this help";
    entry "q" "Quit" "Exit the program" ].

(** [__init__(host, port)] *)
Definition init (h : str) (p : Z) : DroneController :=
  {| host := h; port := p; socket := None; connected := false;
     running := true; commands := default_commands |}.

(** The body of the loop of [print_commands] for one item. The membership
    test [cmd in self.commands] and the lookup [self.commands[cmd]] are one
    [lookup]. *)
Definition print_command_entry (self : DroneController)
    (item : str * json) : Out unit :=
  let cmd := fst item in
  match lookup cmd (commands self) with
  | Some cmd_info =>
      print (lit "  " ++ CYAN ++ ljust 3 cmd ++ END ++ lit " - "
             ++ GREEN ++ name cmd_info ++ END) ;;
      print (lit "      " ++ WHITE ++ description cmd_info ++ END)
  | None => ret tt
  end.

Definition print_commands (self : DroneController) (commands_data : json)
  : Out unit :=
  print ([NL] ++ BOLD ++ lit "Available Commands:" ++ END) ;;
  print (times 61 50) ;;
  its <- lift (Py.items commands_data) ;;
  for_each (print_command_entry self) its ;;
  print (times 61 50).

(** One line [f"{label}{CYAN}{obj.get(key, 'N/A'):.{prec}f}{END}{unit}"]. *)
Definition print_fixed (label : string) (obj : json) (key : string)
    (prec : nat) (unit_text : str) : Out unit :=
  v <- lift (Py.get obj (lit key) (JStr (lit "N/A"))) ;;
  t <- lift (Py.format v (FmtFixed prec)) ;;
  print (lit label ++ CYAN ++ t ++ END ++ unit_text).

Definition heading (title : str) : Out unit :=
  print (lit "  " ++ BOLD ++ title ++ END).

Definition print_xyz (obj : json) (unit_text : str) : Out unit :=
  print_fixed "    X: " obj "x" 3 unit_text ;;
  print_fixed "    Y: " obj "y" 3 unit_text ;;
  print_fixed "    Z: " obj "z" 3 unit_text.

Definition print_topic (topic : json) : Out unit :=
  nm <- lift (Py.get topic (lit "name") (JStr (lit "Unknown"))) ;;
  msg_type <- lift (Py.get topic (lit "type") (JStr (lit "Unknown"))) ;;
  padded <- lift (Py.format nm (FmtLeft 30)) ;;
  print (lit "    " ++ CYAN ++ padded ++ END ++ lit " "
         ++ WHITE ++ Py.text msg_type ++ END).

(** [if key in data: body(data[key])] *)
Definition if_present (key : string) (data : json)
    (body : json -> Out unit) : Out unit :=
  has <- lift (Py.contains (lit key) data) ;;
  if has : bool then (v <- lift (Py.getitem data (lit key)) ;; body v)
  else ret tt.

Definition print_debug_data (data : json) : Out unit :=
  if_present "world_position" data (fun pos =>
    heading (lit "World Position:") ;;
    print_xyz pos []) ;;
  if_present "orientation" data (fun orient =>
    heading (lit "Orientation:") ;;
    print_fixed "    Roll:  " orient "roll" 3 (lit " rad") ;;
    print_fixed "    Pitch: " orient "pitch" 3 (lit " rad") ;;
    print_fixed "    Yaw:   " orient "yaw" 3 (lit " rad")) ;;
  if_present "velocity" data (fun vel =>
    if_present "linear" vel (fun lin_vel =>
      heading (lit "Linear Velocity:") ;;
      print_xyz lin_vel (lit " m/s"))) ;;
  if_present "imu" data (fun imu =>
    if_present "linear_acceleration" imu (fun acc =>
      heading (lit "IMU Acceleration:") ;;
      print_xyz acc (lit " m/s" ++ SQUARED))) ;;
  if_present "gnss" data (fun gnss =>
    heading (lit "GNSS:") ;;
    print_fixed "    Latitude:  " gnss "latitude" 6 [] ;;
    print_fixed "    Longitude: " gnss "longitude" 6 [] ;;
    print_fixed "    Altitude:  " gnss "altitude" 3 (lit " m")) ;;
  if_present "topics" data (fun topics =>
    n <- lift (Py.len topics) ;;
    heading (lit "ROS Topics (" ++ of_nat n ++ lit " total):") ;;
    ts <- lift (Py.iter topics) ;;
    for_each print_topic ts).

(** [print(text)] for a text made from a decoded value: standard output
    cannot encode a surrogate, and [print] then raises UnicodeEncodeError
    without printing. *)
Definition print_encoded (text : str) : Out unit :=
  match utf8_encode text with
  | Some _ => print text
  | None => lift (Py.error UnicodeError)
  end.

(** The three lines printed for every decoded object before dispatch. *)
Definition print_json_response (data : json) : Out unit :=
  print (WHITE ++ lit "JSON Response:" ++ END) ;;
  print_encoded (lit "  " ++ json_dumps data) ;;
  print [].

(** The [if]/[elif] chain on [msg_type]. *)
Definition dispatch (self : DroneController)
    (data msg_type msg_text msg_data : json) : Out unit :=
  if Py.eq_str msg_type (lit "welcome") then
    print (GREEN ++ CHECK ++ END ++ lit " " ++ BOLD ++ Py.text msg_text
           ++ END) ;;
    if_present "data" data (print_commands self)
  else if Py.eq_str msg_type (lit "command") then
    print (GREEN ++ CHECK ++ END ++ lit " Command executed: " ++ BOLD
           ++ Py.text msg_text ++ END) ;;
    if_present "command_id" msg_data (fun command_id =>
      print (lit "  Command ID: " ++ CYAN ++ Py.text command_id ++ END))
  else if Py.eq_str msg_type (lit "status") then
    print (YELLOW ++ INFO ++ END ++ lit " Status: " ++ Py.text msg_text)
  else if Py.eq_str msg_type (lit "debug") then
    print (MAGENTA ++ INFO ++ END ++ lit " Debug info: " ++ BOLD
           ++ Py.text msg_text ++ END) ;;
    print_debug_data msg_data
  else if Py.eq_str msg_type (lit "help") then
    print (CYAN ++ INFO ++ END ++ lit " Help: " ++ BOLD ++ Py.text msg_text
           ++ END) ;;
    if_present "commands" msg_data (print_commands self)
  else if Py.eq_str msg_type (lit "error") then
    print (RED ++ CROSS ++ END ++ lit " Error: " ++ Py.text msg_text)
  else if Py.eq_str msg_type (lit "goodbye") then
    print (YELLOW ++ INFO ++ END ++ lit " " ++ Py.text msg_text)
  else
    print (WHITE ++ INFO ++ END ++ lit " " ++ Py.text msg_text).

(** The [try] block of [handle_server_message]. *)
Definition handle_body (self : DroneController) (message : str)
  : Out unit :=
  data <- lift (json_loads message) ;;
  msg_type <- lift (Py.get data (lit "type") (JStr (lit "unknown"))) ;;
  msg_text <- lift (Py.get data (lit "message") (JStr [])) ;;
  timestamp <- lift (Py.get data (lit "timestamp") (JInt 0)) ;;
  msg_data <- lift (Py.get data (lit "data") (JDict [])) ;;
  print_json_response data ;;
  dispatch self data msg_type msg_text msg_data.

(** The two [except] clauses, tried in order. *)
Definition handle_except (message : str) (e : exn) : Out unit :=
  if is_class JSONDecodeError e then
    print (WHITE ++ lit "Raw Response:" ++ END) ;;
    print (lit "  " ++ message)
  else
    print (RED ++ CROSS ++ END ++ lit " Failed to parse message: "
           ++ exn_text e) ;;
    print (lit "Raw message: " ++ message).

Definition handle_server_message (self : DroneController) (message : str)
  : Out unit :=
  try_except (handle_body self message) (handle_except message).


(** *** Notions used in the statements about the handler *)

(** [d.get(k, dflt)] on the items of a decoded object. *)
Definition field (d : list (str * json)) (k : string) (dflt : json) : json :=
  match Py.assoc (lit k) d with Some x => x | None => dflt end.

(** The lines printed for every decoded object before dispatch. *)
Definition echo (data : json) : list str :=
  [ WHITE ++ lit "JSON Response:" ++ END; lit "  " ++ json_dumps data; [] ].

(** Standard output can encode the echo of [data]. *)
Definition echo_printable (data : json) : Prop :=
  utf8_encode (lit "  " ++ json_dumps data) <> None.

(** What a part of the [try] block prints, with the lines of the [except]
    clause when it raises. *)
Definition guarded (message : str) (body : Out unit) : list str :=
  fst (try_except body (handle_except message)).

(** The values of [type] that have a branch of their own. *)
Definition recognized : list string :=
  [ "welcome"; "command"; "status"; "debug"; "help"; "error"; "goodbye" ]%string.

End Rendering.

Section Client.
Context {World : Type} {P : Platform World} {B : PyBuiltins}.
Local Open Scope session_scope.
Local Abbreviation Sess := (Session World CmdInfo).
Local Abbreviation Act := (M World CmdInfo).

(** [connect(self)] *)
Definition connect : Act bool :=
  catch
    (update_self (set_socket (Some SocketObject)) ;;
     c <- get_self ;;
     external (EvConnect (host c) (port c)) (sock_connect (host c) (port c)) ;;
     update_self (set_connected true) ;;
     external EvSpawn thread_start ;;
     say (GREEN ++ CHECK ++ END ++ lit " Connected to FCU server at " ++ CYAN
          ++ host c ++ lit ":" ++ of_Z (port c) ++ END) ;;
     say (GREEN ++ CHECK ++ END ++ lit " Ready for commands!") ;;
     pure true)
    (fun e =>
       say (RED ++ CROSS ++ END ++ lit " Failed to connect: " ++ exn_text e) ;;
       pure false).

Definition disconnected_notice : str :=
  YELLOW ++ INFO ++ END ++ lit " Disconnected from server".

(** [disconnect(self)] *)
Definition disconnect : Act unit := Engine.disconnect disconnected_notice.

Definition receive_error_notice (e : exn) : str :=
  RED ++ CROSS ++ END ++ lit " Receive error: " ++ exn_text e.

(** [receive_messages(self)], run for at most [fuel] passes of its loop *)
Definition receive_messages (fuel : nat) (s : Sess) : Sess * LoopStatus :=
  Engine.receive_messages handle_server_message receive_error_notice fuel s.

(** [send_command(self, command)] *)
Definition send_command (command : str) : Act bool :=
  c <- get_self ;;
  if negb (connected c) then
    say (RED ++ CROSS ++ END ++ lit " Not connected to server") ;;
    pure false
  else
    catch
      (say (CYAN ++ lit "$ " ++ END ++ lit "Sending command: " ++ BOLD
            ++ lit "'" ++ command ++ lit "'" ++ END) ;;
       on_socket (data <- encode (command ++ [NL]) ;;
                  external (EvSend data) (sock_send data)) ;;
       (fun s => (record EvSleep s, inr tt)) ;;
       pure true)
      (fun e =>
         say (RED ++ CROSS ++ END ++ lit " Failed to send command: "
              ++ exn_text e) ;;
         pure false).

(** One line of [show_help], printed when [cmd] is in the mapping. *)
Definition help_entry (self : DroneController) (cmd : string) : list str :=
  match lookup (lit cmd) (commands self) with
  | Some info =>
      [ lit "  " ++ CYAN ++ lit cmd ++ END ++ lit "  " ++ GREEN
        ++ ljust 12 (name info) ++ END ++ lit " " ++ WHITE
        ++ description info ++ END ]
  | None => []
  end.

Definition help_group (self : DroneController) (cmds : list string)
  : list str :=
  flat_map (help_entry self) cmds.

Definition help_lines (self : DroneController) : list str :=
  [ [NL] ++ BOLD ++ lit "Available Commands:" ++ END; times RULE 60 ]
  ++ [ BOLD ++ lit "Flight Control:" ++ END ]
  ++ help_group self ["a"; "d"; "t"; "l"]%string
  ++ [ [NL] ++ BOLD ++ lit "Mission Control:" ++ END ]
  ++ help_group self ["r"; "s"; "1"; "2"; "3"; "4"]%string
  ++ [ [NL] ++ BOLD ++ lit "Information:" ++ END ]
  ++ help_group self ["p"; "i"]%string
  ++ [ [NL] ++ BOLD ++ lit "System:" ++ END ]
  ++ help_group self ["h"; "q"]%string
  ++ [ times RULE 60;
       lit "Also try: " ++ CYAN ++ lit "clear" ++ END ++ lit ", " ++ CYAN
       ++ lit "ls" ++ END ++ lit ", " ++ CYAN ++ lit "help" ++ END
       ++ lit ", " ++ CYAN ++ lit "quit" ++ END ].

(** [show_help(self)] *)
Definition show_help : Act unit :=
  c <- get_self ;; say_lines (help_lines c).

Definition is_word (command : str) (w : string) : bool :=
  PyStr.eqb command (lit w).

(** The single-character commands of the mapping:
    [len(command) == 1 and command in self.commands], with the entry
    [self.commands[command]] when it holds. *)
Definition single_command (self : DroneController) (command : str)
  : option CmdInfo :=
  if (length command =? 1)%nat then lookup command (commands self) else None.

(** The two lines printed for a command that is not found. *)
Definition not_found_lines (command : str) : list str :=
  [ RED ++ CROSS ++ END ++ lit " Command not found: " ++ BOLD
    ++ lit "'" ++ command ++ lit "'" ++ END;
    lit "  Type " ++ CYAN ++ lit "'h'" ++ END
    ++ lit " for available commands" ].

(** The words the loop of [interactive_mode] handles itself. *)
Definition console_words : list string :=
  [ "q"; "quit"; "exit"; "h"; "help"; "clear"; "ls"; "commands" ]%string.

(** What the loop of [interactive_mode] does with the stripped input. *)
Definition interactive_command (command : str) : Act Flow :=
  if negb (truthy command) then pure Continue
  else if is_word command "q" || is_word command "quit"
          || is_word command "exit" then
    say (YELLOW ++ lit "Exiting..." ++ END) ;; pure Break
  else if is_word command "h" || is_word command "help" then
    show_help ;; pure Continue
  else if is_word command "clear" then
    (fun s => (record EvClear s, inr Continue))
  else if is_word command "ls" || is_word command "commands" then
    show_help ;; pure Continue
  else
    c <- get_self ;;
    match single_command c command with
    | Some cmd_info =>
        say (CYAN ++ lit "> " ++ END ++ lit "Executing: " ++ BOLD
             ++ name cmd_info ++ END ++ lit " - " ++ description cmd_info) ;;
        sent <- send_command command ;;
        (if sent : bool then pure tt
         else say (RED ++ CROSS ++ END ++ lit " Failed to send command")) ;;
        pure Continue
    | None =>
        say_lines (not_found_lines command) ;;
        pure Continue
    end.

Definition prompt : str := BOLD ++ GREEN ++ lit "> " ++ END.

(** [signal_handler(self, signum, frame)]; the result is the status passed
    to [sys.exit]. *)
Definition signal_handler : Act Z :=
  say ([NL] ++ YELLOW ++ lit "Shutting down..." ++ END) ;;
  disconnect ;;
  pure 0%Z.

(** SIGINT while [input] waits: [signal_handler] runs, and the [SystemExit]
    its [sys.exit] raises comes out of the [input] call. *)
Definition interrupted {A} (s : Sess) : Sess * (Unwind + A) :=
  match signal_handler s with
  | (s', inl e) => (s', inl (Uncaught e))
  | (s', inr status) => (s', inl (SystemExit status))
  end.

(** One pass through the body of the loop of [interactive_mode]. The two
    [except] clauses catch KeyboardInterrupt and EOFError; every other
    exception and [SystemExit] leave the loop. *)
Definition interactive_pass (s : Sess) : Sess * (Unwind + Flow) :=
  match read_input prompt s with
  | (s', InputLine text) => uncaught (interactive_command (strip text) s')
  | (s', InputInterrupt) =>
      uncaught ((say ([NL] ++ YELLOW ++ lit "Use 'q' to quit" ++ END) ;;
                 pure Continue) s')
  | (s', InputEOF) => (s', inr Break)
  | (s', InputError e) => (s', inl (Uncaught e))
  | (s', InputSignal) => interrupted s'
  end.

Fixpoint interactive_loop (fuel : nat) (s : Sess)
  : Sess * (Unwind + Progress) :=
  match fuel with
  | O => (s, inr Unfinished)
  | S fuel' =>
      if connected (self s) && running (self s) then
        match interactive_pass s with
        | (s', inr Continue) => interactive_loop fuel' s'
        | (s', inr Break) => (s', inr Finished)
        | (s', inl u) => (s', inl u)
        end
      else (s, inr Finished)
  end.

(** The lines [interactive_mode] prints before its loop. *)
Definition greeting : list str :=
  [ [NL] ++ GREEN ++ lit "Interactive Mode Started!" ++ END;
    lit "Type " ++ CYAN ++ lit "'h'" ++ END ++ lit " for help, " ++ CYAN
    ++ lit "'q'" ++ END ++ lit " to quit";
    lit "Use " ++ YELLOW ++ lit "TAB" ++ END
    ++ lit " for command autocomplete";
    lit "Commands: " ++ CYAN ++ lit "a" ++ END ++ lit "d" ++ CYAN
    ++ lit "t" ++ END ++ lit "l" ++ CYAN ++ lit "r" ++ END ++ lit "s"
    ++ CYAN ++ lit "1234" ++ END ++ lit "p" ++ CYAN ++ lit "i" ++ END
    ++ lit "h" ++ CYAN ++ lit "q" ++ END;
    [] ].

(** [interactive_mode(self)], for at most [fuel] passes of its loop *)
Definition interactive_mode (fuel : nat) (s : Sess)
  : Sess * (Unwind + Progress) :=
  interactive_loop fuel (say_all greeting s).

(** The lines [run] prints first. *)
Definition title : list str :=
  [ BOLD ++ BLUE ++ lit "FCU Drone Controller Client" ++ END; times 61 40 ].

(** [run(self)]: the [finally] clause runs [disconnect] when the
    interactive loop has returned or has been left by an exception or by
    [SystemExit], which then goes on to the caller; while the loop is
    [Unfinished] the clause has not been reached. *)
Definition run (fuel : nat) (s : Sess) : Sess * (Unwind + Progress) :=
  match connect (say_all title s) with
  | (s1, inl e) => (s1, inl (Uncaught e))
  | (s1, inr false) => (s1, inr Finished)
  | (s1, inr true) =>
      match interactive_mode fuel s1 with
      | (s2, inr Unfinished) => (s2, inr Unfinished)
      | (s2, r) =>
          match disconnect s2 with
          | (s3, inl e) => (s3, inl (Uncaught e))
          | (s3, inr _) => (s3, r)
          end
      end
  end.

End Client.

Section Completion.
Context {B : PyBuiltins}.

(** [l[i]] on a Python list: a negative index counts from the end, and an
    index outside the list raises IndexError (an [OtherException] here). *)
Definition list_index {A} (l : list A) (i : Z) : exn + A :=
  let n := Z.of_nat (length l) in
  let j := if (i <? 0)%Z then (n + i)%Z else i in
  if ((0 <=? j) && (j <? n))%Z then
    match nth_error l (Z.to_nat j) with
    | Some x => inr x
    | None => Py.error OtherException
    end
  else Py.error OtherException.

(** [options] of [completer]: the keys of the mapping that start with
    [text], in the order of the mapping. *)
Definition completions (self : DroneController) (text : str) : list str :=
  filter (fun cmd => startswith text cmd) (map fst (commands self)).

(** [completer(self, text, state)] *)
Definition completer (self : DroneController) (text : str) (state : Z)
  : exn + option str :=
  let options := completions self text in
  if (state <? Z.of_nat (length options))%Z then
    match list_index options state with
    | inl e => inl e
    | inr cmd => inr (Some cmd)
    end
  else inr None.

End Completion.
End Control.


(** ** [drone_controller.py]: rendering of server messages *)

Module Plain.
Section Rendering.
Local Open Scope out_scope.

Definition DroneController : Type := Controller str.

Definition entry (key descr : string) : str * str := (lit key, lit descr).

Definition default_commands : list (str * str) :=
  [ entry "a" "Unlock"; entry "d" "Lock"; entry "t" "Takeoff";
    entry "l" "Land"; entry "r" "Run"; entry "s" "Stop";
    entry "1" "Position 1"; entry "2" "Position 2";
    entry "3" "Position 3"; entry "4" "Position 4";
    entry "h" "Help"; entry "q" "Quit" ].

Definition init (h : str) (p : Z) : DroneController :=
  {| host := h; port := p; socket := None; connected := false;
     running := true; commands := default_commands |}.

Definition handle_server_message (self : DroneController) (message : str)
  : Out unit :=
  if startswith (lit "FCU Command Server Connected!") message then
    print (lit "[SERVER] " ++ message)
  else if startswith (lit "Command:") message then
    print (lit "[CMD] " ++ message)
  else if startswith (lit "STATUS:") message then
    print (lit "[STATUS] " ++ skipn 7 message)
  else if startswith (lit "Commands:") message then
    print (lit "[HELP] " ++ message)
  else
    print (lit "[MSG] " ++ message).

End Rendering.

Section Client.
Context {World : Type} {P : Platform World} {B : PyBuiltins}.
Local Open Scope session_scope.
Local Abbreviation Sess := (Session World str).
Local Abbreviation Act := (M World str).

(** [connect(self)] *)
Definition connect : Act bool :=
  catch
    (update_self (set_socket (Some SocketObject)) ;;
     c <- get_self ;;
     external (EvConnect (host c) (port c)) (sock_connect (host c) (port c)) ;;
     update_self (set_connected true) ;;
     external EvSpawn thread_start ;;
     say (lit "[OK] Connected to FCU server at " ++ host c ++ lit ":"
          ++ of_Z (port c)) ;;
     pure true)
    (fun e =>
       say (lit "[ERROR] Failed to connect: " ++ exn_text e) ;;
       pure false).

Definition disconnected_notice : str := lit "[INFO] Disconnected from server".

(** [disconnect(self)] *)
Definition disconnect : Act unit := Engine.disconnect disconnected_notice.

Definition receive_error_notice (e : exn) : str :=
  lit "[ERROR] Receive error: " ++ exn_text e.

(** [receive_messages(self)], run for at most [fuel] passes of its loop *)
Definition receive_messages (fuel : nat) (s : Sess) : Sess * LoopStatus :=
  Engine.receive_messages handle_server_message receive_error_notice fuel s.

(** [send_command(self, command)] *)
Definition send_command (command : str) : Act bool :=
  c <- get_self ;;
  if negb (connected c) then
    say (lit "[ERROR] Not connected to server") ;;
    pure false
  else
    catch
      (on_socket (data <- encode (command ++ [NL]) ;;
                  external (EvSend data) (sock_send data)) ;;
       pure true)
      (fun e =>
         say (lit "[ERROR] Failed to send command: " ++ exn_text e) ;;
         pure false).

(** The line of [show_help] for one item of the mapping. *)
Definition help_entry (item : str * str) : list str :=
  let (cmd, desc) := item in
  if PyStr.eqb cmd (lit "h") || PyStr.eqb cmd (lit "q") then []
  else [ lit "  " ++ ljust 3 cmd ++ lit " - " ++ desc ].

(** [show_help(self)] *)
Definition show_help : Act unit :=
  c <- get_self ;;
  say_lines
    ([ [NL] ++ lit "FCU Drone Controller Commands:"; times 61 50 ]
     ++ flat_map help_entry (commands c)
     ++ [ lit "  h    - Show this help"; lit "  q    - Quit";
          times 61 50 ]).

(** What the loop of [interactive_mode] does with the stripped and
    lower-cased input. *)
Definition interactive_command (command : str) : Act Flow :=
  if negb (truthy command) then pure Continue
  else if PyStr.eqb command (lit "q") then pure Break
  else if PyStr.eqb command (lit "h") then show_help ;; pure Continue
  else
    c <- get_self ;;
    match lookup command (commands c) with
    | Some desc =>
        sent <- send_command command ;;
        (if sent : bool then say (lit "[SENT] Command: " ++ desc)
         else pure tt) ;;
        pure Continue
    | None =>
        say (lit "[ERROR] Invalid command. Type 'h' for help.") ;;
        pure Continue
    end.

Definition prompt : str := [NL] ++ lit "FCU> ".

(** [signal_handler(self, signum, frame)]; the result is the status passed
    to [sys.exit]. *)
Definition signal_handler : Act Z :=
  say ([NL] ++ lit "Shutting down...") ;;
  disconnect ;;
  pure 0%Z.

(** SIGINT while [input] waits: [signal_handler] runs, and the [SystemExit]
    its [sys.exit] raises comes out of the [input] call. *)
Definition interrupted {A} (s : Sess) : Sess * (Unwind + A) :=
  match signal_handler s with
  | (s', inl e) => (s', inl (Uncaught e))
  | (s', inr status) => (s', inl (SystemExit status))
  end.

(** One pass through the body of the loop of [interactive_mode]. The two
    [except] clauses catch KeyboardInterrupt and EOFError; every other
    exception and [SystemExit] leave the loop. *)
Definition interactive_pass (s : Sess) : Sess * (Unwind + Flow) :=
  match read_input prompt s with
  | (s', InputLine text) =>
      uncaught (interactive_command (str_lower (strip text)) s')
  | (s', InputInterrupt) => (s', inr Break)
  | (s', InputEOF) => (s', inr Break)
  | (s', InputError e) => (s', inl (Uncaught e))
  | (s', InputSignal) => interrupted s'
  end.

Fixpoint interactive_loop (fuel : nat) (s : Sess)
  : Sess * (Unwind + Progress) :=
  match fuel with
  | O => (s, inr Unfinished)
  | S fuel' =>
      if connected (self s) && running (self s) then
        match interactive_pass s with
        | (s', inr Continue) => interactive_loop fuel' s'
        | (s', inr Break) => (s', inr Finished)
        | (s', inl u) => (s', inl u)
        end
      else (s, inr Finished)
  end.

(** The lines [interactive_mode] prints before its loop. *)
Definition greeting : list str :=
  [ [NL] ++ lit "Interactive Mode Started!";
    lit "Type 'h' for help, 'q' to quit" ].

(** [interactive_mode(self)], for at most [fuel] passes of its loop *)
Definition interactive_mode (fuel : nat) (s : Sess)
  : Sess * (Unwind + Progress) :=
  interactive_loop fuel (say_all greeting s).

(** The lines [run] prints first. *)
Definition title : list str :=
  [ lit "FCU Drone Controller Client"; times 61 40 ].

(** [run(self)]: the [finally] clause runs [disconnect] when the
    interactive loop has returned or has been left by an exception or by
    [SystemExit], which then goes on to the caller; while the loop is
    [Unfinished] the clause has not been reached. *)
Definition run (fuel : nat) (s : Sess) : Sess * (Unwind + Progress) :=
  match connect (say_all title s) with
  | (s1, inl e) => (s1, inl (Uncaught e))
  | (s1, inr false) => (s1, inr Finished)
  | (s1, inr true) =>
      match interactive_mode fuel s1 with
      | (s2, inr Unfinished) => (s2, inr Unfinished)
      | (s2, r) =>
          match disconnect s2 with
          | (s3, inl e) => (s3, inl (Uncaught e))
          | (s3, inr _) => (s3, r)
          end
      end
  end.

End Client.
End Plain.


(** ** Notions used in the statements *)

Module Framing.

(** A string made of whitespace characters only. *)
Definition all_space (s : str) : Prop := forallb isspace s = true.

(** A string neither starts nor ends with a whitespace character. *)
Definition trimmed (s : str) : Prop :=
  match s with [] => True | c :: _ => isspace c = false end
  /\ match rev s with [] => True | c :: _ => isspace c = false end.

Definition newline_free (s : str) : Prop := ~ In NL s.

(** The complete segments of a text and the partial line after the last
    newline (what repeated [split('\n', 1)] cuts off, and what it leaves). *)
Fixpoint split_lines (s : str) : list str * str :=
  match s with
  | [] => ([], [])
  | c :: s' =>
      let (ls, r) := split_lines s' in
      if (c =? NL)%N then ([] :: ls, r)
      else match ls with
           | [] => ([], c :: r)
           | l :: ls' => ((c :: l) :: ls', r)
           end
  end.

(** Segments put back on the wire: each followed by a newline. *)
Definition rejoin (segs : list str) : str :=
  concat (map (fun l => l ++ [NL]) segs).

(** The segments that reach the handler, as they reach it. *)
Definition deliveries (segs : list str) : list str :=
  map strip (filter (fun l => truthy (strip l)) segs).

(** What a handler prints for a list of messages. *)
Definition outputs {Desc} (h : Controller Desc -> str -> Out unit)
    (c : Controller Desc) (msgs : list str) : list str :=
  flat_map (fun m => fst (h c m)) msgs.

(** A handler that prints the message it was given and nothing else. *)
Definition recorder {Desc} (_ : Controller Desc) (m : str) : Out unit :=
  OutMonad.print m.

(** The lines printed so far. *)
Definition printed_lines (evs : list Event) : list str :=
  flat_map (fun ev => match ev with EvPrint l => [l] | _ => [] end) evs.

(** Successive passes of the loop body of [receive_messages] over the
    decoded chunks the socket returned, starting from [buffer]. *)
Fixpoint feed_chunks {World Desc}
    (h : Controller Desc -> str -> Out unit)
    (buffer : str) (chunks : list str) (s : Session World Desc)
  : Session World Desc * TryResult :=
  match chunks with
  | [] => (s, Completed buffer)
  | data :: chunks' =>
      match Engine.feed h buffer data s with
      | (s', Completed b) => feed_chunks h b chunks' s'
      | other => other
      end
  end.

End Framing.

(** ** A scripted outside world

    The socket and the console answer from lists fixed in advance; a list
    that has run out answers with a timeout (reads), with success (writes) or
    with end of input (console). A thread can always be started, except in
    the world [Exhausted]. *)

Module Script.

Record World : Type := {
  connects : list (exn + unit);
  sends : list (exn + unit);
  closes : list (exn + unit);
  recvs : list (exn + list byte);
  inputs : list InputOutcome
}.

Definition quiet : World :=
  {| connects := []; sends := []; closes := []; recvs := []; inputs := [] |}.

Definition timeout : exn := Exn SocketTimeout (lit "timed out").
Definition broken_pipe : exn := Exn OSError (lit "[Errno 32] Broken pipe").
Definition reset : exn :=
  Exn OSError (lit "[Errno 104] Connection reset by peer").

(** A world in which the next write to the socket fails. *)
Definition write_fails : World :=
  {| connects := []; sends := [inl broken_pipe]; closes := []; recvs := [];
     inputs := [] |}.

(** A world in which the next read finds the stream closed by the peer. *)
Definition stream_ended : World :=
  {| connects := []; sends := []; closes := []; recvs := [inr []];
     inputs := [] |}.

(** A world in which the next read fails with a connection reset. *)
Definition read_fails : World :=
  {| connects := []; sends := []; closes := []; recvs := [inl reset];
     inputs := [] |}.

Definition next {A} (dflt : A) (l : list A) : A * list A :=
  match l with
  | [] => (dflt, [])
  | x :: l' => (x, l')
  end.

#[global] Instance platform : Platform World := {
  sock_connect _ _ w :=
    let (r, l) := next (inr tt) (connects w) in
    (r, {| connects := l; sends := sends w; closes := closes w;
           recvs := recvs w; inputs := inputs w |});
  thread_start w := (inr tt, w);
  sock_send _ w :=
    let (r, l) := next (inr tt) (sends w) in
    (r, {| connects := connects w; sends := l; closes := closes w;
           recvs := recvs w; inputs := inputs w |});
  sock_close w :=
    let (r, l) := next (inr tt) (closes w) in
    (r, {| connects := connects w; sends := sends w; closes := l;
           recvs := recvs w; inputs := inputs w |});
  sock_recv _ w :=
    let (r, l) := next (inl timeout) (recvs w) in
    (r, {| connects := connects w; sends := sends w; closes := closes w;
           recvs := l; inputs := inputs w |});
  console_input _ w :=
    let (r, l) := next InputEOF (inputs w) in
    (r, {| connects := connects w; sends := sends w; closes := closes w;
           recvs := recvs w; inputs := l |})
}.

(** The scripted world on a system that cannot start another thread:
    [start] raises RuntimeError (an [OtherException] here). *)
Record Exhausted : Type := { base : World }.

Definition cannot_start : exn :=
  Exn OtherException (lit "can't start new thread").

Definition under {A} (r : A * World) : A * Exhausted :=
  (fst r, {| base := snd r |}).

#[global] Instance exhausted : Platform Exhausted := {
  sock_connect h p w := under (sock_connect h p (base w));
  thread_start w := (inl cannot_start, w);
  sock_send data w := under (sock_send data (base w));
  sock_close w := under (sock_close (base w));
  sock_recv n w := under (sock_recv n (base w));
  console_input p w := under (console_input p (base w))
}.

(** ASCII lower-casing. *)
Definition ascii_lower (s : str) : str :=
  map (fun c => if ((65 <=? c) && (c <=? 90))%N then (c + 32)%N else c) s.

(** Builtins with a [json.loads] that knows the texts of [table] and
    rejects every other text as malformed. *)
Definition builtins (table : list (str * json)) : PyBuiltins := {|
  json_loads s :=
    match lookup s table with
    | Some v => inr v
    | None => inl (Exn JSONDecodeError (lit "Expecting value"))
    end;
  json_dumps _ := lit "{...}";
  py_str _ := lit "<value>";
  format_spec _ _ := inl (Exn TypeError (lit "unsupported format string"));
  str_lower := ascii_lower;
  wording _ := lit "error"
|}.

(** A session of [control.py] in the given world. *)
Definition session (is_connected : bool) (sock : option PySocket)
    (w : World) : Session World CmdInfo :=
  {| self := {| host := lit "localhost"; port := 8888; socket := sock;
                connected := is_connected; running := true;
                commands := Control.default_commands |};
     world := w; log := [] |}.

(** A session of [drone_controller.py] in the given world. *)
Definition plain_session (is_connected : bool) (sock : option PySocket)
    (w : World) : Session World str :=
  {| self := {| host := lit "localhost"; port := 8888; socket := sock;
                connected := is_connected; running := true;
                commands := Plain.default_commands |};
     world := w; log := [] |}.

(** A welcome message as the server sends it (an object with the keys
    type, message and data, the last one mapping a to Unlock), and the
    value it decodes to. *)
Definition quoted (s : string) : str := 34%N :: lit s ++ [34%N].

Definition welcome_line : str :=
  lit "{" ++ quoted "type" ++ lit ":" ++ quoted "welcome" ++ lit ","
  ++ quoted "message" ++ lit ":" ++ quoted "hi" ++ lit ","
  ++ quoted "data" ++ lit ":{" ++ quoted "a" ++ lit ":" ++ quoted "Unlock"
  ++ lit "}}".

Definition welcome_value : json :=
  JDict [ (lit "type", JStr (lit "welcome"));
          (lit "message", JStr (lit "hi"));
          (lit "data", JDict [ (lit "a", JStr (lit "Unlock")) ]) ].

(** A status message whose text is the escape of the lone surrogate U+D800
    (an object with the keys type and message, in ASCII on the wire), the
    value [json.loads] decodes it to, and the text [json.dumps] with
    [indent=2] and [ensure_ascii=False] makes of that value: the surrogate
    itself stands between the quotes. *)
Definition surrogate_line : str :=
  lit "{" ++ quoted "type" ++ lit ":" ++ quoted "status" ++ lit ","
  ++ quoted "message" ++ lit ":" ++ quoted "\ud800" ++ lit "}".

Definition surrogate_value : json :=
  JDict [ (lit "type", JStr (lit "status"));
          (lit "message", JStr [55296%N]) ].

Definition surrogate_dump : str :=
  lit "{" ++ [NL] ++ lit "  " ++ quoted "type" ++ lit ": " ++ quoted "status"
  ++ lit "," ++ [NL] ++ lit "  " ++ quoted "message" ++ lit ": "
  ++ [34%N; 55296%N; 34%N] ++ [NL] ++ lit "}".

(** Builtins that know this message and word the failure of [print] as the
    interpreter does. *)
Definition surrogate_builtins : PyBuiltins := {|
  json_loads s :=
    if PyStr.eqb s surrogate_line then inr surrogate_value
    else inl (Exn JSONDecodeError (lit "Expecting value"));
  json_dumps _ := surrogate_dump;
  py_str _ := lit "<value>";
  format_spec _ _ := inl (Exn TypeError (lit "unsupported format string"));
  str_lower := ascii_lower;
  wording c :=
    match c with
    | UnicodeError =>
        lit "'utf-8' codec can't encode character '\ud800' in position 38: surrogates not allowed"
    | _ => lit "error"
    end
|}.

End Script.

(** ** Reading the event log *)

Module Trace.

(** The data of the socket writes among some events, in order. *)
Definition writes (evs : list Event) : list (list byte) :=
  flat_map (fun ev => match ev with EvSend data => [data] | _ => [] end) evs.

(** An event that neither writes to the socket, nor closes it, nor connects
    it: a printed line or a read. *)
Definition passive (ev : Event) : bool :=
  match ev with
  | EvPrint _ | EvRecv _ => true
  | _ => false
  end.

(** From [s] to [s'] the controller is unchanged and the log has grown by
    [evs]. *)
Definition grows {World Desc} (s s' : Session World Desc)
    (evs : list Event) : Prop :=
  self s' = self s /\ log s' = log s ++ evs.

(** From [s] to [s'] the controller is unchanged and the log has grown by
    reads and printed lines only. *)
Definition quiet_step {World Desc} (s s' : Session World Desc) : Prop :=
  exists evs, grows s s' evs /\ forallb passive evs = true.

(** A write of the interactive loop of [control.py]: the encoding of a
    one-character key of the mapping, not a console word, and a newline. *)
Definition control_write (c : Control.DroneController) (data : list byte)
  : Prop :=
  exists key : str,
    length key = 1
    /\ known key (commands c) = true
    /\ existsb (Control.is_word key) Control.console_words = false
    /\ utf8_encode (key ++ [NL]) = Some data.

(** A write of the interactive loop of [drone_controller.py]: the encoding
    of a key of the mapping other than [q] and [h], and a newline. *)
Definition plain_write (c : Plain.DroneController) (data : list byte)
  : Prop :=
  exists key : str,
    known key (commands c) = true
    /\ key <> lit "q" /\ key <> lit "h"
    /\ utf8_encode (key ++ [NL]) = Some data.

(** What [signal_handler] leaves of a controller: it is marked as not
    connected where [disconnect] found a connection. *)
Definition shut_down {Desc} (c : Controller Desc) : Controller Desc :=
  if Engine.has_connection c then set_connected false c else c.

(** What [signal_handler] writes to the socket of a controller: the quit
    line, where [disconnect] finds a connection. *)
Definition farewell {Desc} (c : Controller Desc) : list (list byte) :=
  if Engine.has_connection c then [Engine.quit_line] else [].

(** How a run of an interactive loop that went from the session [s] to
    the session [s'] and ended with [r] relates the two, where [valid]
    tells the data the loop may write for a typed command. Left by
    [SystemExit], the loop has run [signal_handler] last; in every other
    case the controller is as it was. *)
Definition prompt_outcome {World Desc A} (valid : list byte -> Prop)
    (s s' : Session World Desc) (r : Unwind + A) : Prop :=
  exists evs,
    log s' = log s ++ evs
    /\ match r with
       | inl (SystemExit status) =>
           status = 0%Z
           /\ self s' = shut_down (self s)
           /\ exists ws, writes evs = ws ++ farewell (self s)
                         /\ Forall valid ws
       | _ => self s' = self s /\ Forall valid (writes evs)
       end.

(** An exception that has left an interactive loop is one that a call of
    [input] raised. *)
Definition raised_by_input {World A} {P : Platform World} (prompt : str)
    (r : Unwind + A) : Prop :=
  match r with
  | inl (Uncaught e) =>
      exists w w', console_input prompt w = (InputError e, w')
  | _ => True
  end.

(** The keys of [data] that [print_debug_data] renders. *)
Definition debug_sections : list string :=
  [ "world_position"; "orientation"; "velocity"; "imu"; "gnss"; "topics" ]%string.

(** None of the keys in [keys] occurs among the items [d]. *)
Definition lacks (d : list (str * json)) (keys : list string) : bool :=
  forallb (fun k => match lookup (lit k) d with
                    | Some _ => false
                    | None => true
                    end) keys.

(** The prefixes the handler of [drone_controller.py] tests for. *)
Definition plain_prefixes : list string :=
  [ "FCU Command Server Connected!"; "Command:"; "STATUS:";
    "Commands:" ]%string.

(** A decoded JSON value that is not an object. *)
Definition not_object (v : json) : Prop :=
  match v with JDict _ => False | _ => True end.

End Trace.

(* ===================================================================== *)
(** * Part II: properties *)
(* ===================================================================== *)

(** ** Stripping *)

Section StripFacts.
Import Framing.

Lemma lstrip_split (s : str) :
  exists a, s = a ++ lstrip s /\ all_space a.
Proof.
  induction s as [|c s IH]; simpl.
  - exists []. split; reflexivity.
  - destruct (isspace c) eqn:Hc.
    + destruct IH as (a & Ha & Hs). exists (c :: a). split.
      * simpl. now rewrite <- Ha.
      * unfold all_space. simpl. now rewrite Hc.
    + exists []. split; reflexivity.
Qed.

Lemma lstrip_head (s : str) :
  match lstrip s with [] => True | c :: _ => isspace c = false end.
Proof.
  induction s as [|c s IH]; simpl; [exact I|].
  destruct (isspace c) eqn:Hc; [exact IH | exact Hc].
Qed.

Lemma all_space_rev (s : str) : all_space s -> all_space (rev s).
Proof.
  unfold all_space. rewrite !forallb_forall. intros H x Hx.
  apply H. now apply in_rev.
Qed.

Lemma strip_split (s : str) :
  exists a b, s = a ++ strip s ++ b /\ all_space a /\ all_space b.
Proof.
  destruct (lstrip_split s) as (a & Ha & Hsa).
  destruct (lstrip_split (rev (lstrip s))) as (b & Hb & Hsb).
  exists a, (rev b). repeat split; auto using all_space_rev.
  unfold strip, rstrip. rewrite <- rev_app_distr, <- Hb, rev_involutive.
  exact Ha.
Qed.

Lemma strip_trimmed (s : str) : trimmed (strip s).
Proof.
  split.
  - destruct (lstrip_split (rev (lstrip s))) as (b & Hb & _).
    pose proof (lstrip_head s) as Hh.
    assert (Ht : lstrip s = strip s ++ rev b).
    { unfold strip, rstrip.
      rewrite <- rev_app_distr, <- Hb. now rewrite rev_involutive. }
    destruct (strip s) as [|c t]; [exact I|].
    rewrite Ht in Hh. exact Hh.
  - unfold strip, rstrip. rewrite rev_involutive. apply lstrip_head.
Qed.

Lemma strip_blank (s : str) : truthy (strip s) = false -> all_space s.
Proof.
  intros H. destruct (strip_split s) as (a & b & Hs & Ha & Hb).
  destruct (strip s); [|discriminate].
  rewrite Hs. unfold all_space in *. simpl.
  rewrite forallb_app, Ha, Hb. reflexivity.
Qed.

End StripFacts.

(** ** Splitting at newlines *)

Section SplitFacts.
Import Framing.

Lemma partition_nl_none (s : str) :
  partition_nl s = None -> split_lines s = ([], s) /\ newline_free s.
Proof.
  unfold newline_free.
  induction s as [|c s IH]; simpl; intros H.
  - split; [reflexivity | tauto].
  - destruct (N.eqb_spec c NL) as [->|Hc]; [discriminate|].
    destruct (partition_nl s) as [[l r]|]; [discriminate|].
    destruct (IH eq_refl) as [-> Hn].
    split; [reflexivity|]. intros [E|E]; [congruence | tauto].
Qed.

Lemma partition_nl_some (s line rest : str) :
  partition_nl s = Some (line, rest) ->
  split_lines s = (line :: fst (split_lines rest), snd (split_lines rest))
  /\ s = line ++ NL :: rest
  /\ newline_free line
  /\ length rest < length s.
Proof.
  unfold newline_free.
  revert line. induction s as [|c s IH]; simpl; intros line H;
    [discriminate|].
  destruct (N.eqb_spec c NL) as [->|Hc].
  - injection H as <- <-. destruct (split_lines s) as [ls r]. simpl.
    repeat split; auto.
  - destruct (partition_nl s) as [[l r]|] eqn:Hp; [|discriminate].
    injection H as <- <-.
    destruct (IH l eq_refl) as (Hs & He & Hn & Hl).
    rewrite Hs. simpl. repeat split.
    + now rewrite He.
    + intros [E|E]; [congruence | tauto].
    + lia.
Qed.

Lemma split_lines_rejoin (s : str) :
  rejoin (fst (split_lines s)) ++ snd (split_lines s) = s.
Proof.
  unfold rejoin.
  induction s as [|c s IH]; simpl; [reflexivity|].
  destruct (split_lines s) as [ls r]. simpl in IH.
  destruct (N.eqb_spec c NL) as [->|Hc]; simpl.
  - now rewrite IH.
  - destruct ls as [|l ls]; simpl in *; now rewrite IH.
Qed.

Lemma split_lines_newline_free (s : str) :
  Forall newline_free (fst (split_lines s))
  /\ newline_free (snd (split_lines s)).
Proof.
  unfold newline_free.
  induction s as [|c s IH]; simpl.
  - split; [constructor | tauto].
  - destruct (split_lines s) as [ls r]. simpl in IH. destruct IH as [Hl Hr].
    destruct (N.eqb_spec c NL) as [->|Hc]; simpl.
    + split; [constructor; [tauto | exact Hl] | exact Hr].
    + destruct ls as [|l ls]; simpl.
      * split; [constructor|]. intros [E|E]; [congruence | tauto].
      * inversion Hl as [|? ? Hl1 Hl2]; subst. split; [|exact Hr].
        constructor; [|exact Hl2].
        intros [E|E]; [congruence | tauto].
Qed.

Lemma split_lines_app (a b : str) :
  split_lines (a ++ b)
  = (fst (split_lines a) ++ fst (split_lines (snd (split_lines a) ++ b)),
     snd (split_lines (snd (split_lines a) ++ b))).
Proof.
  induction a as [|c a IH]; simpl.
  - now destruct (split_lines b).
  - rewrite IH. destruct (split_lines a) as [la ra]. simpl.
    destruct (split_lines (ra ++ b)) as [lb rb] eqn:Hb. simpl.
    destruct (N.eqb_spec c NL) as [->|Hc]; simpl.
    + now rewrite Hb.
    + destruct la as [|l la]; simpl.
      * destruct (N.eqb_spec c NL) as [->|_]; [congruence|].
        rewrite Hb. now destruct lb.
      * now rewrite Hb.
Qed.

(** The decomposition into newline-free segments and a newline-free rest
    is unique. *)
Lemma rejoin_unique (segs : list str) (rest : str) :
  Forall newline_free segs -> newline_free rest ->
  split_lines (rejoin segs ++ rest) = (segs, rest).
Proof.
  intros Hs Hr. induction Hs as [|l segs Hl _ IH].
  - simpl. destruct (partition_nl rest) as [[x y]|] eqn:Hp.
    + destruct (partition_nl_some _ Hp) as (_ & E & _).
      exfalso. apply Hr. rewrite E. apply in_or_app. right. now left.
    + now destruct (partition_nl_none _ Hp).
  - unfold rejoin in *. simpl. rewrite <- !app_assoc. simpl.
    set (t := concat (map (fun l0 => l0 ++ [NL]) segs) ++ rest) in *.
    clearbody t. induction l as [|c l IHl]; simpl.
    + rewrite IH. reflexivity.
    + assert (Hc : c <> NL) by (intros ->; apply Hl; now left).
      rewrite IHl by (intros E; apply Hl; now right).
      destruct (N.eqb_spec c NL); [congruence | reflexivity].
Qed.

End SplitFacts.

(** ** The inner loop of [receive_messages] *)

Section DrainFacts.
Import Framing.
Context {World Desc : Type}.
Variable h : Controller Desc -> str -> Out unit.

Local Abbreviation Sess := (Session World Desc).

Lemma say_all_app (a b : list str) (s : Sess) :
  say_all (a ++ b) s = say_all b (say_all a s).
Proof. unfold say_all. apply fold_left_app. Qed.

Lemma self_say_all (l : list str) (s : Sess) : self (say_all l s) = self s.
Proof.
  unfold say_all. revert s.
  induction l as [|x l IH]; intros s; cbn [fold_left]; [reflexivity|].
  now rewrite IH.
Qed.

Lemma world_say_all (l : list str) (s : Sess) :
  world (say_all l s) = world s.
Proof.
  unfold say_all. revert s.
  induction l as [|x l IH]; intros s; cbn [fold_left]; [reflexivity|].
  now rewrite IH.
Qed.

Lemma log_say_all (l : list str) (s : Sess) :
  log (say_all l s) = log s ++ map EvPrint l.
Proof.
  unfold say_all. revert s.
  induction l as [|x l IH]; intros s; cbn [fold_left map].
  - now rewrite app_nil_r.
  - rewrite IH. cbn [record log]. now rewrite <- app_assoc.
Qed.

Lemma deliveries_cons (l : str) (segs : list str) :
  deliveries (l :: segs)
  = if truthy (strip l) then strip l :: deliveries segs else deliveries segs.
Proof. unfold deliveries. simpl. now destruct (truthy (strip l)). Qed.

Lemma deliveries_app (a b : list str) :
  deliveries (a ++ b) = deliveries a ++ deliveries b.
Proof. unfold deliveries. now rewrite filter_app, map_app. Qed.

Lemma deliveries_nonempty (segs : list str) (m : str) :
  In m (deliveries segs) -> m <> [].
Proof.
  unfold deliveries. rewrite in_map_iff.
  intros (l & <- & Hl). apply filter_In in Hl. destruct Hl as [_ Ht].
  now destruct (strip l).
Qed.

(** The inner loop calls the handler on the deliveries of the buffer's
    segments, in order, until a call raises. *)
Lemma drain_for_each (fuel : nat) :
  forall (buffer : str) (s : Sess),
    length buffer <= fuel ->
    let '(s', r, b) := Engine.drain h fuel buffer s in
    emit (for_each (h (self s)) (deliveries (fst (split_lines buffer)))) s
    = (s', match r with Some e => inl e | None => inr tt end)
    /\ (r = None -> b = snd (split_lines buffer)).
Proof.
  induction fuel as [|fuel IH]; intros buffer s Hlen.
  - destruct buffer; [|simpl in Hlen; lia]. simpl. split; reflexivity.
  - simpl. destruct (partition_nl buffer) as [[line rest]|] eqn:Hp.
    + destruct (partition_nl_some _ Hp) as (Hs & _ & _ & Hl).
      rewrite Hs. simpl fst. simpl snd. rewrite deliveries_cons.
      destruct (truthy (strip line)).
      * unfold emit at 1. simpl for_each.
        destruct (h (self s) (strip line)) as [o [e|u]] eqn:Hh.
        { simpl. unfold emit, OutMonad.bind. simpl.
          split; [reflexivity | discriminate]. }
        { simpl. specialize (IH rest (say_all o s)).
          destruct (Engine.drain h fuel rest (say_all o s)) as [[s' r] b].
          destruct IH as [IH1 IH2]; [lia|].
          rewrite self_say_all in IH1. split; [|exact IH2].
          rewrite <- IH1. unfold emit, OutMonad.bind.
          destruct (for_each (h (self s)) _) as [o' r']. simpl.
          now rewrite say_all_app. }
      * specialize (IH rest s).
        destruct (Engine.drain h fuel rest s) as [[s' r] b].
        apply IH. lia.
    + destruct (partition_nl_none _ Hp) as [Hs _]. rewrite Hs. simpl.
      split; reflexivity.
Qed.

Hypothesis h_returns : forall c m, snd (h c m) = inr tt.

Lemma for_each_outputs (c : Controller Desc) (msgs : list str) :
  for_each (h c) msgs = (outputs h c msgs, inr tt).
Proof.
  unfold outputs. induction msgs as [|m msgs IH]; simpl; [reflexivity|].
  rewrite IH. unfold OutMonad.bind. specialize (h_returns c m).
  destruct (h c m) as [o r]. simpl in *. now subst r.
Qed.

Lemma drain_outputs (fuel : nat) (buffer : str) (s : Sess) :
  length buffer <= fuel ->
  Engine.drain h fuel buffer s
  = (say_all (outputs h (self s) (deliveries (fst (split_lines buffer)))) s,
     None, snd (split_lines buffer)).
Proof.
  intros Hlen. pose proof (@drain_for_each fuel buffer s Hlen) as H.
  destruct (Engine.drain h fuel buffer s) as [[s' r] b].
  destruct H as [H1 H2]. rewrite for_each_outputs in H1.
  unfold emit in H1. simpl in H1. injection H1 as <- Hr.
  destruct r; [discriminate|]. now rewrite H2.
Qed.

Lemma newline_free_split (s : str) :
  newline_free s -> split_lines s = ([], s).
Proof.
  intros H. pose proof (@rejoin_unique [] s (Forall_nil _) H) as E.
  exact E.
Qed.

Lemma feed_chunks_outputs (chunks : list str) :
  Forall (fun c => c <> []) chunks ->
  forall (buffer : str) (s : Sess),
    newline_free buffer ->
    feed_chunks h buffer chunks s
    = (say_all (outputs h (self s)
                  (deliveries (fst (split_lines (buffer ++ concat chunks)))))
               s,
       Completed (snd (split_lines (buffer ++ concat chunks)))).
Proof.
  induction 1 as [|c chunks Hc _ IH]; intros buffer s Hb.
  - simpl. rewrite app_nil_r, (newline_free_split Hb). reflexivity.
  - simpl. unfold Engine.feed. destruct c as [|x c]; [congruence|].
    cbn [truthy negb]. rewrite drain_outputs by lia.
    rewrite IH by apply split_lines_newline_free.
    rewrite self_say_all, <- say_all_app.
    rewrite (app_assoc buffer), (split_lines_app (buffer ++ x :: c)).
    simpl fst. simpl snd. rewrite deliveries_app.
    unfold outputs. now rewrite flat_map_app.
Qed.

End DrainFacts.

(** ** Framing (C1, C10) *)

(** C10. Every complete line the receive loop cuts off its buffer reaches the
    handler with all leading and trailing whitespace removed, and a line that
    is empty after this removal is not delivered at all: the inner loop is a
    run of the handler over the stripped non-blank segments, in order (up to
    the first call that raises), where the segments are the newline-free
    pieces of the buffer that a newline ends; a stripped line differs from
    the line by whitespace at both ends only, and has none left there. *)
Theorem delivered_lines_are_stripped :
  forall (World Desc : Type) (h : Controller Desc -> str -> Out unit)
         (buffer : str) (s : Session World Desc),
    let segs := fst (Framing.split_lines buffer) in
    let delivered := map strip (filter (fun l => truthy (strip l)) segs) in
    Framing.rejoin segs ++ snd (Framing.split_lines buffer) = buffer
    /\ Forall Framing.newline_free segs
    /\ (let '(s', r, _) := Engine.drain h (length buffer) buffer s in
        emit (for_each (h (self s)) delivered) s
        = (s', match r with Some e => inl e | None => inr tt end))
    /\ (forall l : str,
           exists a b, l = a ++ strip l ++ b
                       /\ Framing.all_space a /\ Framing.all_space b
                       /\ Framing.trimmed (strip l))
    /\ (forall m, In m delivered -> m <> []).
Proof.
  intros World Desc h buffer s segs delivered.
  split; [apply split_lines_rejoin|].
  split; [apply split_lines_newline_free|].
  split.
  - pose proof (@drain_for_each World Desc h (length buffer) buffer s
                  (le_n _)) as H.
    destruct (Engine.drain h (length buffer) buffer s) as [[s' r] b].
    exact (proj1 H).
  - split.
    + intros l. destruct (strip_split l) as (a & b & E & Ha & Hb).
      exists a, b. repeat split; auto; apply strip_trimmed.
    + intros m. apply deliveries_nonempty.
Qed.

(** C1, as the claim states it, fails: the lines that come out of the framing
    loop are stripped and blank ones are dropped, so putting a newline back
    after each does not give the input back. *)
Lemma framing_loses_whitespace :
  let input := lit "  a " ++ [NL] ++ [NL] ++ lit "b" in
  let run := Framing.feed_chunks Framing.recorder [] [input]
               (Script.plain_session true (Some SocketObject) Script.quiet) in
  ~ (forall rest, snd run = Completed rest ->
       Framing.rejoin (Framing.printed_lines (log (fst run))) ++ rest = input).
Proof.
  intros input run H. specialize (H (lit "b") eq_refl).
  vm_compute in H. discriminate H.
Qed.

(** C1, amended. For decoded, non-empty chunks and a handler that returns:
    the newline-free segments cut off by the loop, each followed by a
    newline, and then the newline-free text kept in the buffer, are the
    concatenation of the chunks; what the handler receives are these
    segments stripped, without the blank ones; and neither the handler calls
    nor the buffer depend on where the chunk boundaries fall. *)
Theorem framing_chunking_invariant :
  forall (World Desc : Type) (h : Controller Desc -> str -> Out unit)
         (chunks : list str) (s : Session World Desc),
    (forall c m, snd (h c m) = inr tt) ->
    Forall (fun c => c <> []) chunks ->
    exists (segs : list str) (rest : str),
      Framing.rejoin segs ++ rest = concat chunks
      /\ Forall Framing.newline_free segs
      /\ Framing.newline_free rest
      /\ Framing.feed_chunks h [] chunks s
         = (say_all (Framing.outputs h (self s) (Framing.deliveries segs)) s,
            Completed rest)
      /\ (forall chunks' : list str,
             Forall (fun c => c <> []) chunks' ->
             concat chunks' = concat chunks ->
             Framing.feed_chunks h [] chunks' s
             = Framing.feed_chunks h [] chunks s).
Proof.
  intros World Desc h chunks s Hh Hc.
  assert (Hnil : Framing.newline_free []) by (intros []).
  exists (fst (Framing.split_lines (concat chunks))),
         (snd (Framing.split_lines (concat chunks))).
  split; [apply split_lines_rejoin|].
  split; [apply split_lines_newline_free|].
  split; [apply split_lines_newline_free|].
  split.
  - now rewrite (@feed_chunks_outputs World Desc h Hh chunks Hc [] s Hnil).
  - intros chunks' Hc' E.
    rewrite (@feed_chunks_outputs World Desc h Hh chunks' Hc' [] s Hnil),
            (@feed_chunks_outputs World Desc h Hh chunks Hc [] s Hnil).
    simpl. now rewrite E.
Qed.

Lemma framing_chunking_invariant_witness :
  let h := @Framing.recorder str in
  let chunks := [lit "  a"; lit " " ++ [NL] ++ lit "b"] in
  let s := Script.plain_session true (Some SocketObject) Script.quiet in
  (forall c m, snd (h c m) = inr tt)
  /\ Forall (fun c : str => c <> []) chunks
  /\ exists (segs : list str) (rest : str),
      Framing.rejoin segs ++ rest = concat chunks
      /\ Forall Framing.newline_free segs
      /\ Framing.newline_free rest
      /\ Framing.feed_chunks h [] chunks s
         = (say_all (Framing.outputs h (self s) (Framing.deliveries segs)) s,
            Completed rest)
      /\ (forall chunks' : list str,
             Forall (fun c => c <> []) chunks' ->
             concat chunks' = concat chunks ->
             Framing.feed_chunks h [] chunks' s
             = Framing.feed_chunks h [] chunks s).
Proof.
  intros h chunks s.
  assert (H1 : forall (c : Controller str) (m : str), snd (h c m) = inr tt)
    by reflexivity.
  assert (H2 : Forall (fun c : str => c <> []) chunks)
    by (repeat constructor; discriminate).
  split; [exact H1|]. split; [exact H2|].
  exact (@framing_chunking_invariant Script.World str h chunks s H1 H2).
Defined.

(** ** The message handler of [control.py] (C2, C3) *)

Section OutFacts.

Lemma bind_lift_inr {A C} (a : A) (f : A -> Out C) :
  OutMonad.bind (lift (inr a)) f = f a.
Proof. unfold OutMonad.bind, lift. now destruct (f a). Qed.

Lemma bind_lift_inl {A C} (e : exn) (f : A -> Out C) :
  OutMonad.bind (lift (inl e)) f = ([], inl e).
Proof. reflexivity. Qed.

Lemma try_except_prefix {A C} (o : list str) (a : A) (f : A -> Out C)
    (hd : exn -> Out C) :
  try_except (OutMonad.bind (o, inr a) f) hd
  = (o ++ fst (try_except (f a) hd), snd (try_except (f a) hd)).
Proof.
  unfold OutMonad.bind, try_except.
  destruct (f a) as [o' [e|x]]; simpl; [|reflexivity].
  destruct (hd e). simpl. now rewrite app_assoc.
Qed.

End OutFacts.

Section HandlerFacts.
Import Colors Control.
Context {B : PyBuiltins}.
Variable self : DroneController.
Local Open Scope out_scope.

Lemma handle_except_returns (message : str) (e : exn) :
  snd (handle_except message e) = inr tt.
Proof. unfold handle_except. now destruct (is_class JSONDecodeError e). Qed.

Lemma handle_returns (message : str) :
  snd (handle_server_message self message) = inr tt.
Proof.
  unfold handle_server_message, try_except.
  destruct (handle_body self message) as [o [e|[]]]; [|reflexivity].
  pose proof (handle_except_returns message e) as H.
  destruct (handle_except message e) as [o' r]. exact H.
Qed.

Lemma handle_undecodable (message : str) (e : exn) :
  json_loads message = inl e ->
  handle_server_message self message = ([], inr tt) ;; handle_except message e.
Proof.
  intros H. unfold handle_server_message, handle_body. rewrite H.
  rewrite bind_lift_inl. unfold try_except, OutMonad.bind.
  now destruct (handle_except message e).
Qed.

Lemma echo_printed (data : json) :
  echo_printable data ->
  print_json_response data = (echo data, inr tt).
Proof.
  unfold echo_printable, print_json_response, print_encoded. intros H.
  destruct (utf8_encode (lit "  " ++ json_dumps data)); [reflexivity|].
  now destruct H.
Qed.

Lemma echo_refused (data : json) :
  ~ echo_printable data ->
  print_json_response data
  = ([WHITE ++ lit "JSON Response:" ++ END], Py.error UnicodeError).
Proof.
  unfold echo_printable, print_json_response, print_encoded. intros H.
  destruct (utf8_encode (lit "  " ++ json_dumps data)); [|reflexivity].
  destruct H. discriminate.
Qed.

Lemma handle_decoded (message : str) (d : list (str * json)) :
  json_loads message = inr (JDict d) ->
  echo_printable (JDict d) ->
  handle_server_message self message
  = try_except
      ((echo (JDict d), inr tt) ;;
       dispatch self (JDict d)
         (field d "type" (JStr (lit "unknown")))
         (field d "message" (JStr []))
         (field d "data" (JDict [])))
      (handle_except message).
Proof.
  intros H Hp. unfold handle_server_message, handle_body. rewrite H.
  rewrite bind_lift_inr. unfold Py.get. rewrite !bind_lift_inr.
  rewrite (echo_printed Hp). reflexivity.
Qed.

Lemma handle_unprintable (message : str) (d : list (str * json)) :
  json_loads message = inr (JDict d) ->
  ~ echo_printable (JDict d) ->
  handle_server_message self message
  = ([ WHITE ++ lit "JSON Response:" ++ END;
       RED ++ CROSS ++ END ++ lit " Failed to parse message: "
       ++ wording UnicodeError;
       lit "Raw message: " ++ message ], inr tt).
Proof.
  intros H Hp. unfold handle_server_message, handle_body. rewrite H.
  rewrite bind_lift_inr. unfold Py.get. rewrite !bind_lift_inr.
  rewrite (echo_refused Hp). reflexivity.
Qed.

Lemma if_present_dict (k : string) (d : list (str * json))
    (body : json -> Out unit) :
  if_present k (JDict d) body
  = match Py.assoc (lit k) d with
    | Some v => body v
    | None => ret tt
    end.
Proof.
  unfold if_present, Py.contains, Py.getitem.
  rewrite bind_lift_inr.
  destruct (Py.assoc (lit k) d); [|reflexivity].
  now rewrite bind_lift_inr.
Qed.

(** A branch that prints one line and goes on with [more]. *)
Lemma handle_branch (message : str) (d : list (str * json))
    (banner : str) (more : Out unit) :
  json_loads message = inr (JDict d) ->
  echo_printable (JDict d) ->
  dispatch self (JDict d)
    (field d "type" (JStr (lit "unknown")))
    (field d "message" (JStr []))
    (field d "data" (JDict []))
  = (print banner ;; more) ->
  handle_server_message self message
  = (echo (JDict d) ++ banner :: guarded message more,
     snd (try_except more (handle_except message))).
Proof.
  intros H Hp E. rewrite (handle_decoded _ H Hp), E.
  rewrite try_except_prefix. unfold print. rewrite try_except_prefix.
  reflexivity.
Qed.

(** A branch that prints one line and is done. *)
Lemma handle_leaf (message : str) (d : list (str * json)) (banner : str) :
  json_loads message = inr (JDict d) ->
  echo_printable (JDict d) ->
  dispatch self (JDict d)
    (field d "type" (JStr (lit "unknown")))
    (field d "message" (JStr []))
    (field d "data" (JDict []))
  = print banner ->
  handle_server_message self message
  = (echo (JDict d) ++ [banner], inr tt).
Proof.
  intros H Hp E. rewrite (handle_decoded _ H Hp), E.
  rewrite try_except_prefix. reflexivity.
Qed.

Lemma dispatch_generic (data msg_type msg_text msg_data : json) :
  forallb (fun t => negb (Py.eq_str msg_type (lit t))) recognized = true ->
  dispatch self data msg_type msg_text msg_data
  = print (WHITE ++ INFO ++ END ++ lit " " ++ Py.text msg_text).
Proof.
  unfold recognized. cbn [forallb]. rewrite !andb_true_iff, !negb_true_iff.
  intros (H1 & H2 & H3 & H4 & H5 & H6 & H7 & _).
  unfold dispatch. now rewrite H1, H2, H3, H4, H5, H6, H7.
Qed.

End HandlerFacts.

(** C2. A line that [json.loads] rejects as malformed is printed back as a
    raw response, with the text of the line unchanged, and the handler
    returns normally; when [json.loads] fails in another way the line is
    printed back unchanged as well, after a line that names the failure; and
    for every line whatsoever the handler returns normally: no exception
    reaches its caller. *)
Theorem undecodable_line_is_raw :
  forall (B : PyBuiltins) (self : Control.DroneController) (line : str),
    (forall e : exn,
        json_loads line = inl e ->
        is_class JSONDecodeError e = true ->
        Control.handle_server_message self line
        = ([ Colors.WHITE ++ lit "Raw Response:" ++ Colors.END;
             lit "  " ++ line ], inr tt))
    /\ (forall e : exn,
           json_loads line = inl e ->
           is_class JSONDecodeError e = false ->
           Control.handle_server_message self line
           = ([ Colors.RED ++ Colors.CROSS ++ Colors.END
                ++ lit " Failed to parse message: " ++ exn_text e;
                lit "Raw message: " ++ line ], inr tt))
    /\ snd (Control.handle_server_message self line) = inr tt.
Proof.
  intros B self line. split; [|split; [|apply handle_returns]].
  - intros e H Hc. rewrite (handle_undecodable self _ H).
    unfold Control.handle_except. rewrite Hc. reflexivity.
  - intros e H Hc. rewrite (handle_undecodable self _ H).
    unfold Control.handle_except. rewrite Hc. reflexivity.
Qed.

Lemma undecodable_line_is_raw_witness :
  let B := Script.builtins [] in
  let self := Control.init (lit "localhost") 8888 in
  let line := lit "FCU ready" in
  let e := Exn JSONDecodeError (lit "Expecting value") in
  json_loads line = inl e
  /\ is_class JSONDecodeError e = true
  /\ Control.handle_server_message self line
     = ([ Colors.WHITE ++ lit "Raw Response:" ++ Colors.END;
          lit "  " ++ line ], inr tt)
  /\ snd (Control.handle_server_message self line) = inr tt.
Proof.
  intros B self line e.
  assert (H1 : json_loads line = inl e) by reflexivity.
  assert (H2 : is_class JSONDecodeError e = true) by reflexivity.
  split; [exact H1|]. split; [exact H2|].
  split.
  - exact (proj1 (@undecodable_line_is_raw B self line) e H1 H2).
  - exact (proj2 (proj2 (@undecodable_line_is_raw B self line))).
Defined.

(** C3. The status message whose text is the escape of a lone surrogate is
    a valid JSON object with a recognized type, and [json.loads] decodes it;
    yet the handler never reaches the branch of its type. The line that
    echoes the decoded object cannot be printed, [print] raises inside the
    [try] block, and the handler reports the message as one it failed to
    parse: the heading of the echo, the failure and the raw line are all it
    prints, and the status line with the text of the message is not among
    them. *)
Theorem unprintable_status_is_not_dispatched :
  let B := Script.surrogate_builtins in
  let self := Control.init (lit "localhost") 8888 in
  let line := Script.surrogate_line in
  let out := Control.handle_server_message self line in
  json_loads line = inr Script.surrogate_value
  /\ json_dumps Script.surrogate_value = Script.surrogate_dump
  /\ out
     = ([ Colors.WHITE ++ lit "JSON Response:" ++ Colors.END;
          Colors.RED ++ Colors.CROSS ++ Colors.END
          ++ lit " Failed to parse message: " ++ wording UnicodeError;
          lit "Raw message: " ++ line ], inr tt)
  /\ ~ In (Colors.YELLOW ++ Colors.INFO ++ Colors.END ++ lit " Status: "
           ++ [55296%N]) (fst out).
Proof.
  intros B self line out.
  assert (Hout : out
                 = ([ Colors.WHITE ++ lit "JSON Response:" ++ Colors.END;
                      Colors.RED ++ Colors.CROSS ++ Colors.END
                      ++ lit " Failed to parse message: "
                      ++ wording UnicodeError;
                      lit "Raw message: " ++ line ], inr tt))
    by (vm_compute; reflexivity).
  split; [reflexivity|]. split; [reflexivity|]. split; [exact Hout|].
  rewrite Hout. cbn [fst In]. intros [H|[H|[H|[]]]]; vm_compute in H;
    discriminate H.
Qed.

(** ** Sending and teardown (C4, C5, C7) *)

Section TeardownFacts.
Context {World Desc : Type} {P : Platform World} {B : PyBuiltins}.
Variable notice : str.

Local Abbreviation Sess := (Session World Desc).

Lemma has_connection_socket (c : Controller Desc) :
  Engine.has_connection c = true ->
  connected c = true /\ socket c = Some SocketObject.
Proof.
  unfold Engine.has_connection. destruct (connected c); [|discriminate].
  destruct (socket c) as [[]|]; [auto | discriminate].
Qed.

Lemma disconnect_idle (s : Sess) :
  Engine.has_connection (self s) = false ->
  Engine.disconnect notice s = (s, inr tt).
Proof.
  intros H. unfold Engine.disconnect, chain, get_self. now rewrite H.
Qed.

Lemma disconnect_sent (s : Sess) (w1 w2 : World) (r : exn + unit) :
  Engine.has_connection (self s) = true ->
  sock_send Engine.quit_line (world s) = (inr tt, w1) ->
  sock_close w1 = (r, w2) ->
  Engine.disconnect notice s = (Engine.closed_state notice w1 w2 s, inr tt).
Proof.
  intros H Hs Hc. destruct (has_connection_socket _ H) as [_ Hk].
  unfold Engine.disconnect, chain, get_self. rewrite H.
  unfold catch, chain, socket_send, socket_close, on_socket, external.
  rewrite Hk, Hs. cbn [self with_world record]. rewrite Hk.
  cbn [world with_world record]. rewrite Hc.
  destruct r as [e|[]]; reflexivity.
Qed.

Lemma disconnect_send_fails (s : Sess) (w1 : World) (e : exn) :
  Engine.has_connection (self s) = true ->
  sock_send Engine.quit_line (world s) = (inl e, w1) ->
  Engine.disconnect notice s = (Engine.unclosed_state notice w1 s, inr tt).
Proof.
  intros H Hs. destruct (has_connection_socket _ H) as [_ Hk].
  unfold Engine.disconnect, chain, get_self. rewrite H.
  unfold catch, chain, socket_send, socket_close, on_socket, external.
  rewrite Hk, Hs. reflexivity.
Qed.

Lemma disconnect_settles (s : Sess) :
  exists s1, Engine.disconnect notice s = (s1, inr tt)
             /\ Engine.has_connection (self s1) = false.
Proof.
  destruct (Engine.has_connection (self s)) eqn:H.
  - destruct (sock_send Engine.quit_line (world s)) as [[e|[]] w1] eqn:Hs.
    + exists (Engine.unclosed_state notice w1 s). split; [|reflexivity].
      now apply disconnect_send_fails with (e := e).
    + destruct (sock_close w1) as [r w2] eqn:Hc.
      exists (Engine.closed_state notice w1 w2 s). split; [|reflexivity].
      now apply disconnect_sent with (r := r).
  - exists s. split; [now apply disconnect_idle | exact H].
Qed.

Lemma disconnect_idempotent (s : Sess) :
  exists s1, Engine.disconnect notice s = (s1, inr tt)
             /\ Engine.disconnect notice s1 = (s1, inr tt).
Proof.
  destruct (disconnect_settles s) as (s1 & H1 & H2).
  exists s1. split; [exact H1 | now apply disconnect_idle].
Qed.

End TeardownFacts.

(** C4. While the controller is not connected, [send_command] prints that it
    is not connected and returns [False]; the only change to the session is
    this printed line: nothing is written to the socket and the outside
    world stays as it was. This holds for both clients. *)
Theorem send_while_disconnected :
  forall (World : Type) (P : Platform World) (B : PyBuiltins) (command : str)
         (s : Session World CmdInfo) (t : Session World str),
    connected (self s) = false ->
    connected (self t) = false ->
    Control.send_command command s
    = (record (EvPrint (Colors.RED ++ Colors.CROSS ++ Colors.END
                        ++ lit " Not connected to server")) s,
       inr false)
    /\ Plain.send_command command t
       = (record (EvPrint (lit "[ERROR] Not connected to server")) t,
          inr false).
Proof.
  intros World P B command s t Hs Ht. split.
  - unfold Control.send_command, chain, get_self. now rewrite Hs.
  - unfold Plain.send_command, chain, get_self. now rewrite Ht.
Qed.

Lemma send_while_disconnected_witness :
  let B := Script.builtins [] in
  let s := Script.session false None Script.quiet in
  let t := Script.plain_session false (Some SocketObject) Script.quiet in
  connected (self s) = false
  /\ connected (self t) = false
  /\ Control.send_command (lit "t") s
     = (record (EvPrint (Colors.RED ++ Colors.CROSS ++ Colors.END
                         ++ lit " Not connected to server")) s,
        inr false)
  /\ Plain.send_command (lit "t") t
     = (record (EvPrint (lit "[ERROR] Not connected to server")) t,
        inr false).
Proof.
  intros B s t.
  assert (Hs : connected (self s) = false) by reflexivity.
  assert (Ht : connected (self t) = false) by reflexivity.
  split; [exact Hs|]. split; [exact Ht|].
  exact (@send_while_disconnected Script.World Script.platform B (lit "t")
           s t Hs Ht).
Defined.

(** C5, evaluated where the code departs from it. When writing the quit line
    fails, [disconnect] prints its notice and marks the controller as
    disconnected without ever calling [close] on the socket, in both clients;
    the interrupt handler, which tears down through [disconnect], then exits
    without a call of [close] as well. *)
Theorem failed_quit_skips_close :
  let B := Script.builtins [] in
  let s := Script.session true (Some SocketObject) Script.write_fails in
  let t := Script.plain_session true (Some SocketObject) Script.write_fails in
  Control.disconnect s
  = (Engine.unclosed_state Control.disconnected_notice Script.quiet s, inr tt)
  /\ log (fst (Control.disconnect s))
     = [ EvSend Engine.quit_line; EvPrint Control.disconnected_notice ]
  /\ ~ In EvClose (log (fst (Control.disconnect s)))
  /\ ~ In EvClose (log (fst (Control.signal_handler s)))
  /\ snd (Control.signal_handler s) = inr 0%Z
  /\ ~ In EvClose (log (fst (Plain.disconnect t)))
  /\ ~ In EvClose (log (fst (Plain.signal_handler t))).
Proof.
  intros B s t.
  repeat match goal with |- _ /\ _ => split end;
    try reflexivity;
    vm_compute; intros H;
    repeat match goal with
           | H : _ \/ _ |- _ => destruct H as [H|H]
           end; try discriminate H; exact H.
Qed.

(** C7. In every state of the session a call of [disconnect] returns
    normally, and a second call right after it returns normally and leaves
    the session (controller, outside world and event log) exactly as the
    first call left it, in both clients. *)
Theorem disconnect_twice_is_noop :
  forall (World : Type) (P : Platform World) (B : PyBuiltins)
         (s : Session World CmdInfo) (t : Session World str),
    (exists s1, Control.disconnect s = (s1, inr tt)
                /\ Control.disconnect s1 = (s1, inr tt))
    /\ (exists t1, Plain.disconnect t = (t1, inr tt)
                   /\ Plain.disconnect t1 = (t1, inr tt)).
Proof.
  intros World P B s t. split.
  - apply disconnect_idempotent.
  - apply disconnect_idempotent.
Qed.

(** ** The receive loop (C6, C9) *)

Section ReceiveFacts.
Context {World Desc : Type} {P : Platform World} {B : PyBuiltins}.
Variable h : Controller Desc -> str -> Out unit.
Variable notice : exn -> str.

Local Abbreviation Sess := (Session World Desc).

Lemma recv_step (s : Sess) (r : exn + list byte) (w : World) :
  socket (self s) = Some SocketObject ->
  sock_recv 1024 (world s) = (r, w) ->
  socket_recv 1024 s = (with_world w (record (EvRecv 1024) s), r).
Proof.
  intros Hk Hr. unfold socket_recv, on_socket, external.
  now rewrite Hk, Hr.
Qed.

Lemma receive_try_raises (buffer : str) (s : Sess) (e : exn) (w : World) :
  socket (self s) = Some SocketObject ->
  sock_recv 1024 (world s) = (inl e, w) ->
  Engine.receive_try h buffer s
  = (with_world w (record (EvRecv 1024) s), Raised e buffer).
Proof.
  intros Hk Hr. unfold Engine.receive_try, chain.
  now rewrite (recv_step s Hk Hr).
Qed.

Lemma receive_try_eof (buffer : str) (s : Sess) (w : World) :
  socket (self s) = Some SocketObject ->
  sock_recv 1024 (world s) = (inr [], w) ->
  Engine.receive_try h buffer s
  = (with_world w (record (EvRecv 1024) s), Broke).
Proof.
  intros Hk Hr. unfold Engine.receive_try, chain.
  now rewrite (recv_step s Hk Hr).
Qed.

End ReceiveFacts.

(** C6, as the claim states it, fails: after the peer has closed the stream,
    and likewise after a connection reset, the loop has returned and the
    controller still counts as connected. *)
Lemma dropped_connection_stays_connected :
  let B := Script.builtins [] in
  let ended := Script.session true (Some SocketObject) Script.stream_ended in
  let failed := Script.session true (Some SocketObject) Script.read_fails in
  ~ (snd (Control.receive_messages 3 ended) = Returned ->
     connected (self (fst (Control.receive_messages 3 ended))) = false)
  /\ ~ (snd (Control.receive_messages 3 failed) = Returned ->
        connected (self (fst (Control.receive_messages 3 failed))) = false).
Proof.
  intros B ended failed. split; intros H; specialize (H eq_refl);
    vm_compute in H; discriminate H.
Qed.

(** C6, amended. When a read finds the stream ended, or fails with an error
    that is not a timeout, the loop returns in that pass; in the second case
    it first prints a receive-error line. The controller is left as it was:
    it still counts as connected, nothing is closed and no teardown is
    started. This is the loop of both clients. *)
Theorem dropped_connection_ends_loop :
  forall (World Desc : Type) (P : Platform World) (B : PyBuiltins)
         (h : Controller Desc -> str -> Out unit) (notice : exn -> str)
         (fuel : nat) (buffer : str) (s : Session World Desc) (w : World),
    connected (self s) && running (self s) = true ->
    socket (self s) = Some SocketObject ->
    (sock_recv 1024 (world s) = (inr [], w) ->
     exists s', Engine.receive_loop h notice (S fuel) buffer s = (s', Returned)
                /\ self s' = self s /\ connected (self s') = true
                /\ world s' = w
                /\ log s' = log s ++ [EvRecv 1024])
    /\ (forall e : exn,
           sock_recv 1024 (world s) = (inl e, w) ->
           is_class SocketTimeout e = false ->
           exists s', Engine.receive_loop h notice (S fuel) buffer s
                      = (s', Returned)
                      /\ self s' = self s /\ connected (self s') = true
                      /\ world s' = w
                      /\ log s' = log s ++ [EvRecv 1024; EvPrint (notice e)]).
Proof.
  intros World Desc P B h notice fuel buffer s w Hc Hk.
  assert (Hconn : connected (self s) = true)
    by (now destruct (connected (self s))).
  split.
  - intros Hr. eexists. cbn [Engine.receive_loop]. rewrite Hc.
    rewrite (receive_try_eof h buffer s Hk Hr).
    repeat split; auto.
  - intros e Hr He. eexists. cbn [Engine.receive_loop]. rewrite Hc.
    rewrite (receive_try_raises h buffer s Hk Hr).
    unfold Engine.receive_except. rewrite He.
    cbn [self with_world record]. rewrite Hconn.
    repeat split; auto.
    cbn [log record with_world]. now rewrite <- app_assoc.
Qed.

Lemma dropped_connection_ends_loop_witness :
  let B := Script.builtins [] in
  let s := Script.session true (Some SocketObject) Script.stream_ended in
  connected (self s) && running (self s) = true
  /\ socket (self s) = Some SocketObject
  /\ sock_recv 1024 (world s) = (inr [], Script.quiet)
  /\ exists s',
       Engine.receive_loop Control.handle_server_message
         Control.receive_error_notice 1 [] s = (s', Returned)
       /\ self s' = self s /\ connected (self s') = true
       /\ world s' = Script.quiet
       /\ log s' = log s ++ [EvRecv 1024].
Proof.
  intros B s.
  assert (H1 : connected (self s) && running (self s) = true) by reflexivity.
  assert (H2 : socket (self s) = Some SocketObject) by reflexivity.
  assert (H3 : sock_recv 1024 (world s) = (inr [], Script.quiet))
    by reflexivity.
  split; [exact H1|]. split; [exact H2|]. split; [exact H3|].
  exact (proj1 (@dropped_connection_ends_loop Script.World CmdInfo
                  Script.platform B Control.handle_server_message
                  Control.receive_error_notice 0 [] s Script.quiet H1 H2) H3).
Defined.

(** C9. When a read times out, the loop prints nothing and does not return:
    it goes on to its next pass with the buffer it had, so with no fuel left
    it is still polling; the controller is unchanged and still counts as
    connected, and the only trace of the pass is the read itself. This is
    the loop of both clients. *)
Theorem read_timeout_is_benign :
  forall (World Desc : Type) (P : Platform World) (B : PyBuiltins)
         (h : Controller Desc -> str -> Out unit) (notice : exn -> str)
         (fuel : nat) (buffer : str) (s : Session World Desc)
         (e : exn) (w : World),
    connected (self s) && running (self s) = true ->
    socket (self s) = Some SocketObject ->
    sock_recv 1024 (world s) = (inl e, w) ->
    is_class SocketTimeout e = true ->
    let s1 := with_world w (record (EvRecv 1024) s) in
    Engine.receive_loop h notice (S fuel) buffer s
    = Engine.receive_loop h notice fuel buffer s1
    /\ Engine.receive_loop h notice 1 buffer s = (s1, Polling buffer)
    /\ self s1 = self s
    /\ connected (self s1) = true
    /\ log s1 = log s ++ [EvRecv 1024].
Proof.
  intros World Desc P B h notice fuel buffer s e w Hc Hk Hr He s1.
  assert (Hstep : forall n,
             Engine.receive_loop h notice (S n) buffer s
             = Engine.receive_loop h notice n buffer s1).
  { intros n. cbn [Engine.receive_loop]. rewrite Hc.
    rewrite (receive_try_raises h buffer s Hk Hr).
    unfold Engine.receive_except. now rewrite He. }
  split; [apply Hstep|]. split; [now rewrite Hstep|].
  split; [reflexivity|]. split; [|reflexivity].
  change (connected (self s) = true). now destruct (connected (self s)).
Qed.

Lemma read_timeout_is_benign_witness :
  let B := Script.builtins [] in
  let s := Script.session true (Some SocketObject) Script.quiet in
  let s1 := with_world Script.quiet (record (EvRecv 1024) s) in
  connected (self s) && running (self s) = true
  /\ socket (self s) = Some SocketObject
  /\ sock_recv 1024 (world s) = (inl Script.timeout, Script.quiet)
  /\ is_class SocketTimeout Script.timeout = true
  /\ Engine.receive_loop Control.handle_server_message
       Control.receive_error_notice 3 [] s
     = Engine.receive_loop Control.handle_server_message
         Control.receive_error_notice 2 [] s1
  /\ Engine.receive_loop Control.handle_server_message
       Control.receive_error_notice 1 [] s = (s1, Polling [])
  /\ self s1 = self s
  /\ connected (self s1) = true
  /\ log s1 = log s ++ [EvRecv 1024].
Proof.
  intros B s s1.
  assert (H1 : connected (self s) && running (self s) = true) by reflexivity.
  assert (H2 : socket (self s) = Some SocketObject) by reflexivity.
  assert (H3 : sock_recv 1024 (world s) = (inl Script.timeout, Script.quiet))
    by reflexivity.
  assert (H4 : is_class SocketTimeout Script.timeout = true) by reflexivity.
  split; [exact H1|]. split; [exact H2|]. split; [exact H3|].
  split; [exact H4|].
  exact (@read_timeout_is_benign Script.World CmdInfo Script.platform B
           Control.handle_server_message Control.receive_error_notice
           2 [] s Script.timeout Script.quiet H1 H2 H3 H4).
Defined.

(** ** The interactive loop (C8) *)

Section InteractiveFacts.
Context {Desc : Type}.

Lemma known_lookup (cmd : str) (table : list (str * Desc)) :
  known cmd table = false -> lookup cmd table = None.
Proof.
  unfold known. induction table as [|[k v] table IH]; simpl;
    [reflexivity|].
  destruct (PyStr.eqb cmd k); [discriminate | exact IH].
Qed.

End InteractiveFacts.

(** C8, as the claim states it, fails: [quit] is not a key of the mapping,
    yet the loop does not answer it with the command-not-found lines; it
    leaves the loop. *)
Lemma quit_word_is_not_rejected :
  let B := Script.builtins [] in
  let s := Script.session true (Some SocketObject) Script.quiet in
  ~ (known (lit "quit") (commands (self s)) = false ->
     Control.interactive_command (lit "quit") s
     = (say_all (Control.not_found_lines (lit "quit")) s, inr Continue)).
Proof.
  intros B s H. specialize (H eq_refl). vm_compute in H. discriminate H.
Qed.

(** C8, amended. A non-empty command that is not a key of the mapping and is
    not one of the words the loop handles itself (q, quit, exit, h, help,
    clear, ls, commands) is answered with the two command-not-found lines
    and the loop goes on; the session changes by these two printed lines
    only, so nothing is sent: the mapping is consulted in the interactive
    loop, before [send_command] is reached. *)
Theorem unknown_command_is_not_sent :
  forall (World : Type) (P : Platform World) (B : PyBuiltins)
         (command : str) (s : Session World CmdInfo),
    truthy command = true ->
    existsb (Control.is_word command) Control.console_words = false ->
    known command (commands (self s)) = false ->
    Control.interactive_command command s
    = (say_all (Control.not_found_lines command) s, inr Continue)
    /\ world (say_all (Control.not_found_lines command) s) = world s
    /\ self (say_all (Control.not_found_lines command) s) = self s
    /\ log (say_all (Control.not_found_lines command) s)
       = log s ++ map EvPrint (Control.not_found_lines command).
Proof.
  intros World P B command s Ht Hw Hk.
  split; [|split; [apply world_say_all
                  | split; [apply self_say_all | apply log_say_all]]].
  unfold Control.console_words in Hw. cbn [existsb] in Hw.
  rewrite !orb_false_iff in Hw.
  destruct Hw as (Hq & Hquit & Hexit & Hh & Hhelp & Hclear & Hls & Hcmds & _).
  unfold Control.interactive_command.
  rewrite Ht, Hq, Hquit, Hexit, Hh, Hhelp, Hclear, Hls, Hcmds.
  cbn [negb orb]. unfold chain, get_self.
  assert (Hn : Control.single_command (self s) command = None).
  { unfold Control.single_command.
    destruct (length command =? 1); [now apply known_lookup | reflexivity]. }
  rewrite Hn. reflexivity.
Qed.

Lemma unknown_command_is_not_sent_witness :
  let B := Script.builtins [] in
  let s := Script.session true (Some SocketObject) Script.quiet in
  let command := lit "z" in
  truthy command = true
  /\ existsb (Control.is_word command) Control.console_words = false
  /\ known command (commands (self s)) = false
  /\ Control.interactive_command command s
     = (say_all (Control.not_found_lines command) s, inr Continue)
  /\ world (say_all (Control.not_found_lines command) s) = world s
  /\ self (say_all (Control.not_found_lines command) s) = self s
  /\ log (say_all (Control.not_found_lines command) s)
     = log s ++ map EvPrint (Control.not_found_lines command).
Proof.
  intros B s command.
  assert (H1 : truthy command = true) by reflexivity.
  assert (H2 : existsb (Control.is_word command) Control.console_words
               = false) by reflexivity.
  assert (H3 : known command (commands (self s)) = false) by reflexivity.
  split; [exact H1|]. split; [exact H2|]. split; [exact H3|].
  exact (@unknown_command_is_not_sent Script.World Script.platform B
           command s H1 H2 H3).
Defined.

(** ** Chunk boundaries inside a character *)

(** Each chunk is decoded on its own. A two-byte character that arrives in
    two reads makes the first decode fail: the loop prints a receive error
    and returns, and the line is never delivered, while the same bytes in
    one read are delivered. *)
Lemma split_character_ends_loop :
  let B := Script.builtins [] in
  let world_of reads :=
    {| Script.connects := []; Script.sends := []; Script.closes := [];
       Script.recvs := reads; Script.inputs := [] |} in
  let whole :=
    Script.plain_session true (Some SocketObject)
      (world_of [inr [xc3; xa9; x0a]]) in
  let halved :=
    Script.plain_session true (Some SocketObject)
      (world_of [inr [xc3]; inr [xa9; x0a]]) in
  Framing.printed_lines (log (fst (Plain.receive_messages 2 whole)))
  = [ lit "[MSG] " ++ [233%N] ]
  /\ snd (Plain.receive_messages 2 whole) = Polling []
  /\ Framing.printed_lines (log (fst (Plain.receive_messages 2 halved)))
     = [ lit "[ERROR] Receive error: error" ]
  /\ snd (Plain.receive_messages 2 halved) = Returned.
Proof. repeat split. Qed.

(** ** Decoding chunk by chunk

    When every chunk decodes, the decoded chunks put together are the
    decoding of the whole byte sequence: the text the framing loop works on
    is the text of the input. *)

Section Utf8Facts.

Lemma decode_values_step (bs : list N) :
  decode_values bs
  = match bs with
    | [] => Some []
    | _ :: _ =>
        match decode_one bs with
        | Some (c, rest) => option_map (cons c) (decode_values rest)
        | None => None
        end
    end.
Proof.
  destruct bs as [|b0 r0]; [reflexivity|].
  cbn [decode_values decode_one].
  destruct (b0 <? 128)%N; [reflexivity|].
  destruct (between 194 b0 223).
  { destruct r0 as [|b1 r1]; [reflexivity|].
    destruct (is_cont b1); reflexivity. }
  destruct (between 224 b0 239).
  { destruct r0 as [|b1 [|b2 r2]]; try reflexivity.
    destruct (second_ok b0 b1 && is_cont b2); reflexivity. }
  destruct (between 240 b0 244); [|reflexivity].
  destruct r0 as [|b1 [|b2 [|b3 r3]]]; try reflexivity.
  destruct (second_ok b0 b1 && is_cont b2 && is_cont b3); reflexivity.
Qed.

Lemma decode_one_app (a b : list N) (c : N) (rest : list N) :
  decode_one a = Some (c, rest) ->
  decode_one (a ++ b) = Some (c, rest ++ b) /\ length rest < length a.
Proof.
  destruct a as [|b0 r0]; [discriminate|].
  cbn [decode_one app].
  destruct (b0 <? 128)%N.
  { intros H. injection H as <- <-. split; [reflexivity | simpl; lia]. }
  destruct (between 194 b0 223).
  { destruct r0 as [|b1 r1]; [discriminate|]. cbn [app].
    destruct (is_cont b1); [|discriminate].
    intros H. injection H as <- <-. split; [reflexivity | simpl; lia]. }
  destruct (between 224 b0 239).
  { destruct r0 as [|b1 [|b2 r2]]; try discriminate. cbn [app].
    destruct (second_ok b0 b1 && is_cont b2); [|discriminate].
    intros H. injection H as <- <-. split; [reflexivity | simpl; lia]. }
  destruct (between 240 b0 244); [|discriminate].
  destruct r0 as [|b1 [|b2 [|b3 r3]]]; try discriminate. cbn [app].
  destruct (second_ok b0 b1 && is_cont b2 && is_cont b3); [|discriminate].
  intros H. injection H as <- <-. split; [reflexivity | simpl; lia].
Qed.

Lemma decode_values_app (n : nat) :
  forall (a : list N) (x : str),
    length a <= n ->
    decode_values a = Some x ->
    forall b, decode_values (a ++ b) = option_map (app x) (decode_values b).
Proof.
  induction n as [|n IH]; intros a x Hn Ha b.
  - destruct a; [|simpl in Hn; lia]. injection Ha as <-. simpl.
    now destruct (decode_values b).
  - destruct a as [|b0 r0].
    + injection Ha as <-. simpl. now destruct (decode_values b).
    + rewrite decode_values_step in Ha.
      destruct (decode_one (b0 :: r0)) as [[c rest]|] eqn:Hone;
        [|discriminate].
      destruct (decode_one_app _ b Hone) as [Happ Hlen].
      destruct (decode_values rest) as [x'|] eqn:Hrest; [|discriminate].
      simpl in Ha. injection Ha as <-.
      rewrite decode_values_step. cbn [app]. cbn [app] in Happ.
      rewrite Happ. rewrite (IH rest x') by (simpl in *; lia || assumption).
      now destruct (decode_values b).
Qed.

Lemma utf8_decode_app (a b : list byte) (x y : str) :
  utf8_decode a = Some x ->
  utf8_decode b = Some y ->
  utf8_decode (a ++ b) = Some (x ++ y).
Proof.
  unfold utf8_decode. intros Ha Hb. rewrite map_app.
  rewrite (@decode_values_app _ _ x (le_n _) Ha), Hb. reflexivity.
Qed.

Lemma chunks_decode_to_input (raws : list (list byte)) (chunks : list str) :
  Forall2 (fun raw c => utf8_decode raw = Some c) raws chunks ->
  utf8_decode (concat raws) = Some (concat chunks).
Proof.
  induction 1 as [|raw c raws chunks H _ IH]; [reflexivity|].
  simpl. now apply utf8_decode_app.
Qed.

(** Encoding and then decoding gives the text back. The arithmetic is on
    quotients and remainders by powers of 64, which [lia] handles once they
    are turned into their defining equations. *)

#[local] Ltac Zify.zify_post_hook ::= Z.to_euclidean_division_equations.








End Utf8Facts.

(** ** Both handlers return *)

Lemma handlers_return :
  (forall (B : PyBuiltins) (c : Control.DroneController) (m : str),
      snd (Control.handle_server_message c m) = inr tt)
  /\ (forall (c : Plain.DroneController) (m : str),
         snd (Plain.handle_server_message c m) = inr tt).
Proof.
  split.
  - intros B c m. apply handle_returns.
  - intros c m. unfold Plain.handle_server_message.
    repeat match goal with
           | |- context [if ?b then _ else _] => destruct b
           end; reflexivity.
Qed.

(** ** Scenarios *)

(** A line that arrives in two reads, cut in the middle: nothing is handed
    on after the first read, and the whole line exactly once after the
    second. *)
Example line_split_across_reads :
  let s := Script.plain_session true (Some SocketObject) Script.quiet in
  let first := Engine.feed Framing.recorder [] (lit "STATUS: arm") s in
  let second :=
    Engine.feed Framing.recorder (lit "STATUS: arm") (lit "ed" ++ [NL])
      (fst first) in
  first = (s, Completed (lit "STATUS: arm"))
  /\ Framing.printed_lines (log (fst second)) = [ lit "STATUS: armed" ]
  /\ snd second = Completed [].
Proof. repeat split. Qed.

(** Sending [t] while connected writes exactly the bytes of [t] and a
    newline, in both clients. *)
Example takeoff_on_the_wire :
  let B := Script.builtins [] in
  let s := Script.session true (Some SocketObject) Script.quiet in
  let t := Script.plain_session true (Some SocketObject) Script.quiet in
  snd (Control.send_command (lit "t") s) = inr true
  /\ log (fst (Control.send_command (lit "t") s))
     = [ EvPrint (Colors.CYAN ++ lit "$ " ++ Colors.END
                  ++ lit "Sending command: " ++ Colors.BOLD ++ lit "'t'"
                  ++ Colors.END);
         EvSend [x74; x0a];
         EvSleep ]
  /\ Plain.send_command (lit "t") t
     = (record (EvSend [x74; x0a]) t, inr true).
Proof. repeat split. Qed.

(** A regular teardown: the quit line, then the close, then the notice. *)
Example regular_disconnect :
  let B := Script.builtins [] in
  let s := Script.session true (Some SocketObject) Script.quiet in
  log (fst (Control.disconnect s))
  = [ EvSend Engine.quit_line; EvClose;
      EvPrint Control.disconnected_notice ]
  /\ connected (self (fst (Control.disconnect s))) = false.
Proof. repeat split. Qed.

(* ===================================================================== *)
(** * Part III: further properties of the two clients *)
(* ===================================================================== *)

(** ** Tools *)

Section TraceFacts.
Import Trace.
Context {World Desc : Type}.

Local Abbreviation Sess := (Session World Desc).

Lemma eqb_eq (a b : str) : PyStr.eqb a b = true <-> a = b.
Proof.
  unfold PyStr.eqb. destruct (list_eq_dec N.eq_dec a b); split; auto;
    discriminate.
Qed.

Lemma known_in (cmd : str) (table : list (str * Desc)) :
  known cmd table = true <-> In cmd (map fst table).
Proof.
  unfold known. rewrite existsb_exists, in_map_iff. split.
  - intros ([k v] & Hin & He). apply eqb_eq in He. simpl in He. subst k.
    now exists (cmd, v).
  - intros ([k v] & He & Hin). simpl in He. subst k.
    exists (cmd, v). split; [exact Hin | now apply eqb_eq].
Qed.

Lemma lookup_known (cmd : str) (table : list (str * Desc)) :
  lookup cmd table <> None <-> known cmd table = true.
Proof.
  unfold known. induction table as [|[k v] table IH]; simpl.
  - split; [congruence | discriminate].
  - destruct (PyStr.eqb cmd k); simpl; [|exact IH].
    split; [reflexivity | discriminate].
Qed.

Lemma writes_app (a b : list Event) : writes (a ++ b) = writes a ++ writes b.
Proof. unfold writes. apply flat_map_app. Qed.

Lemma writes_prints (lines : list str) : writes (map EvPrint lines) = [].
Proof. induction lines as [|l lines IH]; [reflexivity | exact IH]. Qed.

Lemma printed_lines_app (a b : list Event) :
  Framing.printed_lines (a ++ b)
  = Framing.printed_lines a ++ Framing.printed_lines b.
Proof. unfold Framing.printed_lines. apply flat_map_app. Qed.

Lemma printed_lines_prints (lines : list str) :
  Framing.printed_lines (map EvPrint lines) = lines.
Proof.
  induction lines as [|l lines IH]; [reflexivity|]. simpl. now rewrite IH.
Qed.

Lemma grows_refl (s : Sess) : grows s s [].
Proof. split; [reflexivity | now rewrite app_nil_r]. Qed.

Lemma grows_trans (s1 s2 s3 : Sess) (a b : list Event) :
  grows s1 s2 a -> grows s2 s3 b -> grows s1 s3 (a ++ b).
Proof.
  intros [H1 H2] [H3 H4]. split; [congruence|].
  now rewrite H4, H2, app_assoc.
Qed.

Lemma grows_record (s : Sess) (ev : Event) : grows s (record ev s) [ev].
Proof. split; reflexivity. Qed.

Lemma grows_say_all (s : Sess) (lines : list str) :
  grows s (say_all lines s) (map EvPrint lines).
Proof. split; [apply self_say_all | apply log_say_all]. Qed.

Lemma grows_world (s s' : Sess) (evs : list Event) (w : World) :
  grows s s' evs -> grows s (with_world w s') evs.
Proof. intros [H1 H2]. split; assumption. Qed.

End TraceFacts.

(** ** Tab completion ([completer]) *)

Section CompletionFacts.
Context {B : PyBuiltins}.
Variable self : Control.DroneController.
Variable text : str.

Lemma completions_spec (cmd : str) :
  In cmd (Control.completions self text)
  <-> known cmd (commands self) = true /\ startswith text cmd = true.
Proof.
  unfold Control.completions. rewrite filter_In, known_in. tauto.
Qed.

Lemma list_index_nonneg {A} (l : list A) (i : Z) :
  (0 <= i < Z.of_nat (length l))%Z ->
  exists x, nth_error l (Z.to_nat i) = Some x
            /\ Control.list_index l i = inr x.
Proof.
  intros Hi. unfold Control.list_index.
  destruct (Z.ltb_spec i 0); [lia|].
  destruct (Z.leb_spec 0 i); [|lia].
  destruct (Z.ltb_spec i (Z.of_nat (length l))); [|lia]. cbn [andb].
  destruct (nth_error l (Z.to_nat i)) as [x|] eqn:Hn.
  - now exists x.
  - apply nth_error_None in Hn. lia.
Qed.

Lemma list_index_in {A} (l : list A) (i : Z) (x : A) :
  Control.list_index l i = inr x -> In x l.
Proof.
  unfold Control.list_index.
  destruct ((0 <=? _) && _)%Z; [|discriminate].
  destruct (nth_error l _) as [y|] eqn:Hn; [|discriminate].
  intros H. injection H as <-. eapply nth_error_In, Hn.
Qed.

End CompletionFacts.

(** X1. Tab completion is sound and complete for the mapping. Called with
    the states 0, 1, 2, ... it returns, one by one and in the order of the
    mapping, the keys that start with the typed text, and [None] from the
    number of such keys on; whatever the state, an option it returns is a
    key of the mapping that starts with the text; and every such key is
    returned for some state. *)
Theorem completer_enumerates_matching_keys :
  forall (B : PyBuiltins) (self : Control.DroneController) (text : str),
    (forall state : Z,
        (0 <= state)%Z ->
        Control.completer self text state
        = inr (nth_error (Control.completions self text) (Z.to_nat state)))
    /\ (forall state : Z,
           (Z.of_nat (length (Control.completions self text)) <= state)%Z ->
           Control.completer self text state = inr None)
    /\ (forall (state : Z) (cmd : str),
           Control.completer self text state = inr (Some cmd) ->
           known cmd (commands self) = true /\ startswith text cmd = true)
    /\ (forall key : str,
           known key (commands self) = true ->
           startswith text key = true ->
           exists state : Z,
             (0 <= state)%Z
             /\ Control.completer self text state = inr (Some key)).
Proof.
  intros B self text.
  assert (Hnn : forall state : Z,
             (0 <= state)%Z ->
             Control.completer self text state
             = inr (nth_error (Control.completions self text)
                      (Z.to_nat state))).
  { intros state Hs. unfold Control.completer.
    destruct (Z.ltb_spec state
                (Z.of_nat (length (Control.completions self text))))
      as [Hlt|Hge].
    - destruct (@list_index_nonneg B _ (Control.completions self text) state)
        as (x & Hx & Hi); [lia|].
      now rewrite Hi, Hx.
    - symmetry. f_equal. apply nth_error_None. lia. }
  split; [exact Hnn|]. split; [|split].
  - intros state Hs. rewrite Hnn by lia. f_equal.
    apply nth_error_None. lia.
  - intros state cmd. unfold Control.completer.
    destruct (state <? _)%Z; [|discriminate].
    destruct (Control.list_index _ state) as [e|x] eqn:Hi; [discriminate|].
    intros H. injection H as <-.
    apply completions_spec. eapply list_index_in, Hi.
  - intros key Hk Hs.
    assert (Hin : In key (Control.completions self text))
      by (now apply completions_spec).
    destruct (In_nth_error _ _ Hin) as [n Hn].
    exists (Z.of_nat n). split; [lia|].
    rewrite Hnn by lia. now rewrite Nat2Z.id, Hn.
Qed.

(** ** Sending a command ([send_command]) *)

Section SendFacts.
Import Trace.
Context {World : Type} {P : Platform World} {B : PyBuiltins}.

(** What a call of [send_command] may leave in the log: at most one write,
    and then of the encoded command line. *)
Lemma control_send_cases (command : str) (s : Session World CmdInfo) :
  exists s' b evs,
    Control.send_command command s = (s', inr b)
    /\ grows s s' evs
    /\ (writes evs = []
        \/ exists data, utf8_encode (command ++ [NL]) = Some data
                        /\ writes evs = [data])
    /\ (b = true -> writes evs <> []).
Proof.
  unfold Control.send_command, chain, get_self.
  destruct (connected (self s)); cbn [negb].
  2:{ do 3 eexists. split; [reflexivity|].
      split; [apply grows_record|]. split; [now left | discriminate]. }
  unfold catch, chain, say, on_socket, encode, external, pure.
  cbn [self record].
  destruct (socket (self s)) as [k|].
  2:{ do 3 eexists. split; [reflexivity|]. split.
      - eapply grows_trans; apply grows_record.
      - split; [now left | discriminate]. }
  destruct (utf8_encode (command ++ [NL])) as [data|] eqn:He.
  2:{ do 3 eexists. split; [reflexivity|]. split.
      - eapply grows_trans; apply grows_record.
      - split; [now left | discriminate]. }
  cbn [world record].
  destruct (sock_send data (world s)) as [[e|[]] w].
  - do 3 eexists. split; [reflexivity|]. split.
    + eapply grows_trans; [|apply grows_record].
      apply grows_world. eapply grows_trans; apply grows_record.
    + split; [|discriminate]. right. exists data. now split.
  - do 3 eexists. split; [reflexivity|]. split.
    + eapply grows_trans; [|apply grows_record].
      apply grows_world. eapply grows_trans; apply grows_record.
    + split; [|discriminate]. right. exists data. now split.
Qed.

Lemma plain_send_cases (command : str) (s : Session World str) :
  exists s' b evs,
    Plain.send_command command s = (s', inr b)
    /\ grows s s' evs
    /\ (writes evs = []
        \/ exists data, utf8_encode (command ++ [NL]) = Some data
                        /\ writes evs = [data])
    /\ (b = true -> writes evs <> []).
Proof.
  unfold Plain.send_command, chain, get_self.
  destruct (connected (self s)); cbn [negb].
  2:{ do 3 eexists. split; [reflexivity|].
      split; [apply grows_record|]. split; [now left | discriminate]. }
  unfold catch, chain, say, on_socket, encode, external, pure.
  destruct (socket (self s)) as [k|].
  2:{ do 3 eexists. split; [reflexivity|]. split.
      - apply grows_record.
      - split; [now left | discriminate]. }
  destruct (utf8_encode (command ++ [NL])) as [data|] eqn:He.
  2:{ do 3 eexists. split; [reflexivity|]. split.
      - apply grows_record.
      - split; [now left | discriminate]. }
  destruct (sock_send data (world s)) as [[e|[]] w].
  - do 3 eexists. split; [reflexivity|]. split.
    + eapply grows_trans; [|apply grows_record].
      apply grows_world. apply grows_record.
    + split; [|discriminate]. right. exists data. now split.
  - do 3 eexists. split; [reflexivity|]. split.
    + apply grows_world. apply grows_record.
    + split; [|discriminate]. right. exists data. now split.
Qed.

End SendFacts.




(** ** The interactive loops ([interactive_mode]) *)

Section ControlLoopFacts.
Import Trace.
Context {World : Type} {P : Platform World} {B : PyBuiltins}.

Local Abbreviation Sess := (Session World CmdInfo).

Lemma single_command_known (c : Control.DroneController) (command : str) :
  Control.single_command c command <> None ->
  length command = 1 /\ known command (commands c) = true.
Proof.
  unfold Control.single_command.
  destruct (Nat.eqb_spec (length command) 1) as [E|E]; [|congruence].
  intros H. split; [exact E | now apply lookup_known].
Qed.

Lemma control_show_help (s : Sess) :
  Control.show_help s = (say_all (Control.help_lines (self s)) s, inr tt).
Proof. reflexivity. Qed.

Lemma control_command_cases (command : str) (s : Sess) :
  exists s' flow evs,
    Control.interactive_command command s = (s', inr flow)
    /\ grows s s' evs
    /\ (forall data,
           In data (writes evs) ->
           utf8_encode (command ++ [NL]) = Some data
           /\ Control.single_command (self s) command <> None
           /\ existsb (Control.is_word command) Control.console_words = false)
    /\ (flow = Break
        <-> Control.is_word command "q" || Control.is_word command "quit"
            || Control.is_word command "exit" = true).
Proof.
  unfold Control.interactive_command.
  destruct command as [|c0 cs]; cbn [truthy negb].
  { exists s, Continue, []. split; [reflexivity|].
    split; [apply grows_refl|]. split; [intros ? []|].
    split; [discriminate|]. intros H. vm_compute in H. discriminate H. }
  set (command := c0 :: cs).
  destruct (Control.is_word command "q" || Control.is_word command "quit"
            || Control.is_word command "exit") eqn:Hq.
  { do 3 eexists. split; [reflexivity|].
    split; [apply grows_record|]. split; [intros ? []|].
    split; reflexivity. }
  destruct (Control.is_word command "h" || Control.is_word command "help")
    eqn:Hh.
  { unfold chain. rewrite control_show_help. do 3 eexists.
    split; [reflexivity|]. split; [apply grows_say_all|].
    rewrite writes_prints. split; [intros ? []|].
    split; discriminate. }
  destruct (Control.is_word command "clear") eqn:Hc.
  { do 3 eexists. split; [reflexivity|].
    split; [apply grows_record|]. split; [intros ? []|].
    split; discriminate. }
  destruct (Control.is_word command "ls"
            || Control.is_word command "commands") eqn:Hl.
  { unfold chain. rewrite control_show_help. do 3 eexists.
    split; [reflexivity|]. split; [apply grows_say_all|].
    rewrite writes_prints. split; [intros ? []|].
    split; discriminate. }
  assert (Hwords : existsb (Control.is_word command) Control.console_words
                   = false).
  { unfold Control.console_words. cbn [existsb].
    apply orb_false_iff in Hq. destruct Hq as [Hq Hq3].
    apply orb_false_iff in Hq. destruct Hq as [Hq1 Hq2].
    apply orb_false_iff in Hh. destruct Hh as [Hh1 Hh2].
    apply orb_false_iff in Hl. destruct Hl as [Hl1 Hl2].
    now rewrite Hq1, Hq2, Hq3, Hh1, Hh2, Hc, Hl1, Hl2. }
  unfold chain at 1. unfold get_self.
  destruct (Control.single_command (self s) command) as [info|] eqn:Hs.
  - unfold chain at 1. unfold say.
    set (s1 := record _ s).
    destruct (control_send_cases command s1)
      as (s2 & b & evs & Hsend & Hg & Hw & _).
    unfold chain at 1. rewrite Hsend.
    assert (Hwr : forall data,
               In data (writes ([EvPrint
                 (Colors.CYAN ++ lit "> " ++ Colors.END ++ lit "Executing: "
                  ++ Colors.BOLD ++ name info ++ Colors.END ++ lit " - "
                  ++ description info)] ++ evs)) ->
               utf8_encode (command ++ [NL]) = Some data
               /\ Some info <> None
               /\ existsb (Control.is_word command) Control.console_words
                  = false).
    { intros data Hin. rewrite writes_app in Hin. cbn [writes flat_map app]
        in Hin. fold (writes evs) in Hin.
      destruct Hw as [Hw|(d & He & Hw)]; rewrite Hw in Hin.
      - destruct Hin.
      - destruct Hin as [<-|[]]. repeat split; auto. discriminate. }
    destruct b.
    + exists s2, Continue. eexists. split; [reflexivity|].
      split; [eapply grows_trans; [apply grows_record | exact Hg]|].
      split; [exact Hwr|]. split; discriminate.
    + exists (record (EvPrint (Colors.RED ++ Colors.CROSS ++ Colors.END
                               ++ lit " Failed to send command")) s2),
             Continue.
      eexists. split; [reflexivity|].
      split.
      { eapply grows_trans;
          [eapply grows_trans; [apply grows_record | exact Hg]
          | apply grows_record]. }
      split; [|split; discriminate].
      intros data Hin. apply Hwr. rewrite writes_app in Hin.
      cbn [writes flat_map app] in Hin. now rewrite app_nil_r in Hin.
  - do 3 eexists. split; [reflexivity|].
    split; [apply grows_say_all|].
    rewrite writes_prints. split; [intros ? []|]. split; discriminate.
Qed.

End ControlLoopFacts.

Section OutcomeFacts.
Import Trace.
Context {World Desc : Type} {P : Platform World} {B : PyBuiltins}.
Variable valid : list byte -> Prop.

Local Abbreviation Sess := (Session World Desc).

Lemma outcome_returns {A} (s s' : Sess) (evs : list Event) (a : A) :
  grows s s' evs -> Forall valid (writes evs) ->
  prompt_outcome valid s s' (inr a).
Proof. intros [H1 H2] Hw. exists evs. now repeat split. Qed.

Lemma outcome_raises {A} (s s' : Sess) (evs : list Event) (e : exn) :
  grows s s' evs -> Forall valid (writes evs) ->
  prompt_outcome valid s s' (inl (Uncaught e) : Unwind + A).
Proof. intros [H1 H2] Hw. exists evs. now repeat split. Qed.

Lemma outcome_after {A} (s s1 s' : Sess) (evs : list Event)
    (r : Unwind + A) :
  grows s s1 evs -> Forall valid (writes evs) ->
  prompt_outcome valid s1 s' r -> prompt_outcome valid s s' r.
Proof.
  intros [H1 H2] Hw (evs' & Hlog & Hr).
  exists (evs ++ evs'). split; [now rewrite Hlog, H2, app_assoc|].
  rewrite writes_app.
  destruct r as [[e|status]|a].
  - destruct Hr as [Hself Hv]. split; [congruence|].
    now apply Forall_app.
  - destruct Hr as (Hst & Hself & ws & Hws & Hv).
    split; [exact Hst|]. rewrite <- H1. split; [exact Hself|].
    exists (writes evs ++ ws). split.
    + now rewrite Hws, app_assoc.
    + now apply Forall_app.
  - destruct Hr as [Hself Hv]. split; [congruence|].
    now apply Forall_app.
Qed.

(** What [disconnect] does to the controller and writes to the socket. *)
Lemma disconnect_trace (notice : str) (s : Sess) :
  exists s' evs,
    Engine.disconnect notice s = (s', inr tt)
    /\ self s' = shut_down (self s)
    /\ log s' = log s ++ evs
    /\ writes evs = farewell (self s).
Proof.
  unfold shut_down, farewell.
  destruct (Engine.has_connection (self s)) eqn:H.
  - destruct (sock_send Engine.quit_line (world s)) as [[e|[]] w1] eqn:Hs.
    + exists (Engine.unclosed_state notice w1 s).
      exists [EvSend Engine.quit_line; EvPrint notice].
      split; [exact (disconnect_send_fails notice s H Hs)|].
      split; [reflexivity|]. split; [|reflexivity].
      unfold Engine.unclosed_state. cbn [log record with_self with_world].
      now rewrite <- app_assoc.
    + destruct (sock_close w1) as [r w2] eqn:Hc.
      exists (Engine.closed_state notice w1 w2 s).
      exists [EvSend Engine.quit_line; EvClose; EvPrint notice].
      split; [exact (disconnect_sent notice s H Hs Hc)|].
      split; [reflexivity|]. split; [|reflexivity].
      unfold Engine.closed_state. cbn [log record with_self with_world].
      now rewrite <- !app_assoc.
  - exists s, []. split; [now apply disconnect_idle|].
    split; [reflexivity|]. split; [now rewrite app_nil_r | reflexivity].
Qed.

End OutcomeFacts.

Section SignalFacts.
Import Trace.
Context {World : Type} {P : Platform World} {B : PyBuiltins}.

Lemma control_signal (s : Session World CmdInfo) :
  exists s' evs,
    Control.signal_handler s = (s', inr 0%Z)
    /\ self s' = shut_down (self s)
    /\ log s' = log s ++ evs
    /\ writes evs = farewell (self s).
Proof.
  unfold Control.signal_handler, chain, say, Control.disconnect.
  set (s1 := record _ s).
  destruct (disconnect_trace Control.disconnected_notice s1)
    as (s' & evs & Hd & Hself & Hlog & Hw).
  rewrite Hd. exists s'. eexists. split; [reflexivity|].
  split; [exact Hself|]. split.
  - rewrite Hlog. subst s1. cbn [log record]. now rewrite <- app_assoc.
  - rewrite writes_app. exact Hw.
Qed.

Lemma plain_signal (s : Session World str) :
  exists s' evs,
    Plain.signal_handler s = (s', inr 0%Z)
    /\ self s' = shut_down (self s)
    /\ log s' = log s ++ evs
    /\ writes evs = farewell (self s).
Proof.
  unfold Plain.signal_handler, chain, say, Plain.disconnect.
  set (s1 := record _ s).
  destruct (disconnect_trace Plain.disconnected_notice s1)
    as (s' & evs & Hd & Hself & Hlog & Hw).
  rewrite Hd. exists s'. eexists. split; [reflexivity|].
  split; [exact Hself|]. split.
  - rewrite Hlog. subst s1. cbn [log record]. now rewrite <- app_assoc.
  - rewrite writes_app. exact Hw.
Qed.

End SignalFacts.

Section ControlModeFacts.
Import Trace.
Context {World : Type} {P : Platform World} {B : PyBuiltins}.

Local Abbreviation Sess := (Session World CmdInfo).

Lemma control_command_writes (command : str) (s : Sess) :
  exists s' flow evs,
    Control.interactive_command command s = (s', inr flow)
    /\ grows s s' evs
    /\ (forall data, In data (writes evs) -> control_write (self s) data).
Proof.
  destruct (control_command_cases command s)
    as (s' & flow & evs & Hrun & Hg & Hw & _).
  exists s', flow, evs. split; [exact Hrun|]. split; [exact Hg|].
  intros data Hin. destruct (Hw data Hin) as (He & Hs & Hc).
  destruct (single_command_known _ _ Hs) as [Hlen Hk].
  now exists command.
Qed.

Lemma control_pass_outcome (s : Sess) :
  exists s' r,
    Control.interactive_pass s = (s', r)
    /\ prompt_outcome (control_write (self s)) s s' r
    /\ raised_by_input Control.prompt r.
Proof.
  unfold Control.interactive_pass, read_input.
  destruct (console_input Control.prompt (world s)) as [[text| | |e|] w] eqn:Hin;
    set (s1 := with_world w (record (EvInput Control.prompt) s));
    assert (H1 : grows s s1 [EvInput Control.prompt])
      by apply grows_world, grows_record.
  - destruct (control_command_writes (strip text) s1)
      as (s' & flow & evs & Hrun & Hg & Hw).
    rewrite Hrun. exists s', (inr flow). split; [reflexivity|].
    split; [|exact I].
    eapply outcome_returns; [exact (grows_trans H1 Hg)|].
    rewrite writes_app. apply Forall_forall. exact Hw.
  - do 2 eexists. split; [reflexivity|]. split; [|exact I].
    eapply outcome_returns;
      [exact (grows_trans H1 (grows_record s1 _)) | constructor].
  - exists s1, (inr Break). split; [reflexivity|]. split; [|exact I].
    eapply outcome_returns; [exact H1 | constructor].
  - exists s1, (inl (Uncaught e)). split; [reflexivity|].
    split; [|now exists (world s), w].
    eapply outcome_raises; [exact H1 | constructor].
  - destruct (control_signal s1) as (s' & evs & Hsig & Hself & Hlog & Hw).
    unfold Control.interrupted. rewrite Hsig.
    exists s', (inl (SystemExit 0)). split; [reflexivity|].
    split; [|exact I].
    eapply outcome_after; [exact H1 | constructor |].
    exists evs. split; [exact Hlog|]. split; [reflexivity|].
    split; [exact Hself|]. exists []. split; [exact Hw | constructor].
Qed.

Lemma control_loop_outcome (fuel : nat) :
  forall s : Sess,
    exists s' r,
      Control.interactive_loop fuel s = (s', r)
      /\ prompt_outcome (control_write (self s)) s s' r
      /\ raised_by_input Control.prompt r.
Proof.
  induction fuel as [|fuel IH]; intros s.
  - exists s, (inr Unfinished). split; [reflexivity|]. split; [|exact I].
    eapply outcome_returns; [apply grows_refl | constructor].
  - cbn [Control.interactive_loop].
    destruct (connected (self s) && running (self s)).
    2:{ exists s, (inr Finished). split; [reflexivity|]. split; [|exact I].
        eapply outcome_returns; [apply grows_refl | constructor]. }
    destruct (control_pass_outcome s) as (s1 & r1 & Hp & Ho & Hf).
    rewrite Hp. destruct r1 as [u|[|]].
    + exists s1, (inl u). split; [reflexivity|].
      split; [destruct u; exact Ho | exact Hf].
    + destruct (IH s1) as (s2 & r & Hl & Ho2 & Hf2).
      exists s2, r. split; [exact Hl|]. split; [|exact Hf2].
      destruct Ho as (evs1 & Hlog1 & Hself1 & Hw1).
      rewrite Hself1 in Ho2.
      eapply outcome_after; [exact (conj Hself1 Hlog1) | exact Hw1 |].
      exact Ho2.
    + exists s1, (inr Finished). split; [reflexivity|].
      split; [exact Ho | exact I].
Qed.

Lemma control_mode_outcome (fuel : nat) (s : Sess) :
  exists s' r,
    Control.interactive_mode fuel s = (s', r)
    /\ prompt_outcome (control_write (self s)) s s' r
    /\ raised_by_input Control.prompt r.
Proof.
  unfold Control.interactive_mode.
  pose proof (grows_say_all s Control.greeting) as Hg.
  destruct (control_loop_outcome fuel (say_all Control.greeting s))
    as (s' & r & Hl & Ho & Hf).
  exists s', r. split; [exact Hl|]. split; [|exact Hf].
  rewrite (proj1 Hg) in Ho. eapply outcome_after; [exact Hg | | exact Ho].
  rewrite writes_prints. constructor.
Qed.

End ControlModeFacts.


(** X5. The interactive loop of [control.py] as a whole, for every bound on
    its passes and every behaviour of console and socket. It ends in one of
    three ways: it returns (or is still running when the bound is reached);
    an exception of [input] other than KeyboardInterrupt and EOFError
    leaves it; or SIGINT arrives at the prompt and [SystemExit] leaves it.
    In the first two cases the attributes of the controller are as they
    were (so a failed send does not end the loop) and every write to the
    socket is the encoding of a one-character key of the mapping, other
    than the console words (q and h among them), followed by a newline. In
    the third the exit status is 0, [signal_handler] has run [disconnect]:
    the controller is marked as not connected if it had a connection, and
    the quit line is the one write after those of the typed commands.
    An exception that leaves the loop is one that a call of [input]
    raised. *)
Theorem interactive_mode_writes_only_commands :
  forall (World : Type) (P : Platform World) (B : PyBuiltins)
         (fuel : nat) (s : Session World CmdInfo),
    exists s' r evs,
      Control.interactive_mode fuel s = (s', r)
      /\ log s' = log s ++ evs
      /\ match r with
         | inl (SystemExit status) =>
             status = 0%Z
             /\ self s' = Trace.shut_down (self s)
             /\ exists ws,
                  Trace.writes evs = ws ++ Trace.farewell (self s)
                  /\ Forall (Trace.control_write (self s)) ws
         | _ =>
             self s' = self s
             /\ Forall (Trace.control_write (self s)) (Trace.writes evs)
         end
      /\ Trace.raised_by_input Control.prompt r.
Proof.
  intros.
  destruct (control_mode_outcome fuel s) as (s' & r & H & (evs & Ho) & Hf).
  exists s', r, evs. split; [exact H|]. split; [exact (proj1 Ho)|].
  split; [exact (proj2 Ho) | exact Hf].
Qed.

Section PlainModeFacts.
Import Trace.
Context {World : Type} {P : Platform World} {B : PyBuiltins}.

Local Abbreviation Sess := (Session World str).

Lemma plain_command_writes (command : str) (s : Sess) :
  exists s' flow evs,
    Plain.interactive_command command s = (s', inr flow)
    /\ grows s s' evs
    /\ (forall data,
           In data (writes evs) ->
           utf8_encode (command ++ [NL]) = Some data
           /\ known command (commands (self s)) = true
           /\ command <> lit "q" /\ command <> lit "h")
    /\ (flow = Break <-> command = lit "q").
Proof.
  unfold Plain.interactive_command.
  destruct command as [|c0 cs]; cbn [truthy negb].
  { exists s, Continue, []. split; [reflexivity|].
    split; [apply grows_refl|]. split; [intros ? []|].
    split; discriminate. }
  set (command := c0 :: cs).
  destruct (PyStr.eqb command (lit "q")) eqn:Hq.
  { apply eqb_eq in Hq. exists s, Break, []. split; [reflexivity|].
    split; [apply grows_refl|]. split; [intros ? []|]. now split. }
  assert (Hnq : command <> lit "q").
  { intros E. apply eqb_eq in E. congruence. }
  destruct (PyStr.eqb command (lit "h")) eqn:Hh.
  { do 3 eexists. split; [reflexivity|]. split; [apply grows_say_all|].
    rewrite writes_prints. split; [intros ? []|].
    split; [discriminate | intros E; now destruct Hnq]. }
  assert (Hnh : command <> lit "h").
  { intros E. apply eqb_eq in E. congruence. }
  unfold chain at 1. unfold get_self.
  match goal with
  | |- context [match ?l with Some _ => _ | None => _ end] =>
      destruct l as [desc|] eqn:Hs
  end.
  - assert (Hk : known command (commands (self s)) = true).
    { apply lookup_known. intros E.
      assert (Hsn : Some desc = None) by exact (eq_trans (eq_sym Hs) E).
      discriminate Hsn. }
    destruct (plain_send_cases command s)
      as (s2 & b & evs & Hsend & Hg & Hw & _).
    unfold chain at 1. rewrite Hsend.
    assert (Hwr : forall data,
               In data (writes evs) ->
               utf8_encode (command ++ [NL]) = Some data
               /\ known command (commands (self s)) = true
               /\ command <> lit "q" /\ command <> lit "h").
    { intros data Hin.
      destruct Hw as [Hw|(d & He & Hw)]; rewrite Hw in Hin.
      - destruct Hin.
      - destruct Hin as [<-|[]]. now repeat split. }
    destruct b.
    + exists (record (EvPrint (lit "[SENT] Command: " ++ desc)) s2), Continue.
      eexists. split; [reflexivity|].
      split; [eapply grows_trans; [exact Hg | apply grows_record]|].
      split; [|split; [discriminate | intros E; now destruct Hnq]].
      intros data Hin. apply Hwr. rewrite writes_app in Hin.
      cbn [writes flat_map app] in Hin. now rewrite app_nil_r in Hin.
    + exists s2, Continue, evs. split; [reflexivity|].
      split; [exact Hg|]. split; [exact Hwr|].
      split; [discriminate | intros E; now destruct Hnq].
  - do 3 eexists. split; [reflexivity|].
    split; [apply grows_record|]. split; [intros ? []|].
    split; [discriminate | intros E; now destruct Hnq].
Qed.

Lemma plain_pass_outcome (s : Sess) :
  exists s' r,
    Plain.interactive_pass s = (s', r)
    /\ prompt_outcome (plain_write (self s)) s s' r
    /\ raised_by_input Plain.prompt r.
Proof.
  unfold Plain.interactive_pass, read_input.
  destruct (console_input Plain.prompt (world s)) as [[text| | |e|] w] eqn:Hin;
    set (s1 := with_world w (record (EvInput Plain.prompt) s));
    assert (H1 : grows s s1 [EvInput Plain.prompt])
      by apply grows_world, grows_record.
  - destruct (plain_command_writes (str_lower (strip text)) s1)
      as (s' & flow & evs & Hrun & Hg & Hw & _).
    rewrite Hrun. exists s', (inr flow). split; [reflexivity|].
    split; [|exact I].
    eapply outcome_returns; [exact (grows_trans H1 Hg)|].
    rewrite writes_app. apply Forall_forall. intros data Hd.
    destruct (Hw data Hd) as (He & Hk & Hq & Hh).
    now exists (str_lower (strip text)).
  - exists s1, (inr Break). split; [reflexivity|]. split; [|exact I].
    eapply outcome_returns; [exact H1 | constructor].
  - exists s1, (inr Break). split; [reflexivity|]. split; [|exact I].
    eapply outcome_returns; [exact H1 | constructor].
  - exists s1, (inl (Uncaught e)). split; [reflexivity|].
    split; [|now exists (world s), w].
    eapply outcome_raises; [exact H1 | constructor].
  - destruct (plain_signal s1) as (s' & evs & Hsig & Hself & Hlog & Hw).
    unfold Plain.interrupted. rewrite Hsig.
    exists s', (inl (SystemExit 0)). split; [reflexivity|].
    split; [|exact I].
    eapply outcome_after; [exact H1 | constructor |].
    exists evs. split; [exact Hlog|]. split; [reflexivity|].
    split; [exact Hself|]. exists []. split; [exact Hw | constructor].
Qed.

Lemma plain_loop_outcome (fuel : nat) :
  forall s : Sess,
    exists s' r,
      Plain.interactive_loop fuel s = (s', r)
      /\ prompt_outcome (plain_write (self s)) s s' r
      /\ raised_by_input Plain.prompt r.
Proof.
  induction fuel as [|fuel IH]; intros s.
  - exists s, (inr Unfinished). split; [reflexivity|]. split; [|exact I].
    eapply outcome_returns; [apply grows_refl | constructor].
  - cbn [Plain.interactive_loop].
    destruct (connected (self s) && running (self s)).
    2:{ exists s, (inr Finished). split; [reflexivity|]. split; [|exact I].
        eapply outcome_returns; [apply grows_refl | constructor]. }
    destruct (plain_pass_outcome s) as (s1 & r1 & Hp & Ho & Hf).
    rewrite Hp. destruct r1 as [u|[|]].
    + exists s1, (inl u). split; [reflexivity|].
      split; [destruct u; exact Ho | exact Hf].
    + destruct (IH s1) as (s2 & r & Hl & Ho2 & Hf2).
      exists s2, r. split; [exact Hl|]. split; [|exact Hf2].
      destruct Ho as (evs1 & Hlog1 & Hself1 & Hw1).
      rewrite Hself1 in Ho2.
      eapply outcome_after; [exact (conj Hself1 Hlog1) | exact Hw1 |].
      exact Ho2.
    + exists s1, (inr Finished). split; [reflexivity|].
      split; [exact Ho | exact I].
Qed.

Lemma plain_mode_outcome (fuel : nat) (s : Sess) :
  exists s' r,
    Plain.interactive_mode fuel s = (s', r)
    /\ prompt_outcome (plain_write (self s)) s s' r
    /\ raised_by_input Plain.prompt r.
Proof.
  unfold Plain.interactive_mode.
  pose proof (grows_say_all s Plain.greeting) as Hg.
  destruct (plain_loop_outcome fuel (say_all Plain.greeting s))
    as (s' & r & Hl & Ho & Hf).
  exists s', r. split; [exact Hl|]. split; [|exact Hf].
  rewrite (proj1 Hg) in Ho. eapply outcome_after; [exact Hg | | exact Ho].
  rewrite writes_prints. constructor.
Qed.

End PlainModeFacts.

(** X6. The interactive loop of [drone_controller.py], for every bound on
    its passes and every behaviour of console and socket. It returns (or is
    still running when the bound is reached), or an exception of [input]
    other than KeyboardInterrupt and EOFError leaves it, or SIGINT arrives
    at the prompt and [SystemExit] leaves it. In the first two cases the
    attributes of the controller are as they were and every write to the
    socket is the encoding of a key of the mapping other than q and h (the
    typed text, stripped and lower-cased) followed by a newline. In the
    third the exit status is 0, [signal_handler] has run [disconnect]: the
    controller is marked as not connected if it had a connection, and the
    quit line is the one write after those of the typed commands. An
    exception that leaves the loop is one that a call of [input] raised. *)
Theorem plain_mode_writes_only_commands :
  forall (World : Type) (P : Platform World) (B : PyBuiltins)
         (fuel : nat) (s : Session World str),
    exists s' r evs,
      Plain.interactive_mode fuel s = (s', r)
      /\ log s' = log s ++ evs
      /\ match r with
         | inl (SystemExit status) =>
             status = 0%Z
             /\ self s' = Trace.shut_down (self s)
             /\ exists ws,
                  Trace.writes evs = ws ++ Trace.farewell (self s)
                  /\ Forall (Trace.plain_write (self s)) ws
         | _ =>
             self s' = self s
             /\ Forall (Trace.plain_write (self s)) (Trace.writes evs)
         end
      /\ Trace.raised_by_input Plain.prompt r.
Proof.
  intros.
  destruct (plain_mode_outcome fuel s) as (s' & r & H & (evs & Ho) & Hf).
  exists s', r, evs. split; [exact H|]. split; [exact (proj1 Ho)|].
  split; [exact (proj2 Ho) | exact Hf].
Qed.

(** ** The receive loop: what it leaves alone *)

Section ReceiveInvariant.
Import Trace.
Context {World Desc : Type} {P : Platform World} {B : PyBuiltins}.
Variable h : Controller Desc -> str -> Out unit.
Variable notice : exn -> str.

Local Abbreviation Sess := (Session World Desc).

Lemma quiet_refl (s : Sess) : quiet_step s s.
Proof. exists []. split; [apply grows_refl | reflexivity]. Qed.

Lemma quiet_trans (s1 s2 s3 : Sess) :
  quiet_step s1 s2 -> quiet_step s2 s3 -> quiet_step s1 s3.
Proof.
  intros (a & Ha & Hpa) (b & Hb & Hpb). exists (a ++ b).
  split; [eapply grows_trans; eassumption|].
  now rewrite forallb_app, Hpa, Hpb.
Qed.

Lemma quiet_say_all (s : Sess) (lines : list str) :
  quiet_step s (say_all lines s).
Proof.
  exists (map EvPrint lines). split; [apply grows_say_all|].
  induction lines as [|l lines IH]; [reflexivity | exact IH].
Qed.

Lemma drain_quiet (fuel : nat) :
  forall (buffer : str) (s : Sess),
    quiet_step s (fst (fst (Engine.drain h fuel buffer s))).
Proof.
  induction fuel as [|fuel IH]; intros buffer s; [apply quiet_refl|].
  cbn [Engine.drain].
  destruct (partition_nl buffer) as [[line rest]|]; [|apply quiet_refl].
  destruct (truthy (strip line)); [|apply IH].
  unfold emit.
  destruct (h (self s) (strip line)) as [o [e|u]]; cbn [fst snd].
  - apply quiet_say_all.
  - eapply quiet_trans; [apply quiet_say_all | apply IH].
Qed.

Lemma receive_try_quiet (buffer : str) (s : Sess) :
  quiet_step s (fst (Engine.receive_try h buffer s)).
Proof.
  unfold Engine.receive_try, chain, socket_recv, on_socket, external, decode.
  destruct (socket (self s)); [|apply quiet_refl].
  destruct (sock_recv 1024 (world s)) as [[e|raw] w].
  - exists [EvRecv 1024]. split; [|reflexivity].
    apply grows_world, grows_record.
  - assert (Hr : quiet_step s (with_world w (record (EvRecv 1024) s))).
    { exists [EvRecv 1024]. split; [|reflexivity].
      apply grows_world, grows_record. }
    destruct (utf8_decode raw) as [data|]; [|exact Hr].
    unfold Engine.feed. destruct (negb (truthy data)); [exact Hr|].
    pose proof (drain_quiet (length (buffer ++ data)) (buffer ++ data)
                  (with_world w (record (EvRecv 1024) s))) as Hd.
    destruct (Engine.drain h _ _ _) as [[s' r] b]. cbn [fst] in Hd.
    destruct r; cbn [fst]; eapply quiet_trans; eassumption.
Qed.

Lemma receive_loop_quiet (fuel : nat) :
  forall (buffer : str) (s : Sess),
    quiet_step s (fst (Engine.receive_loop h notice fuel buffer s)).
Proof.
  induction fuel as [|fuel IH]; intros buffer s; [apply quiet_refl|].
  cbn [Engine.receive_loop].
  destruct (connected (self s) && running (self s)); [|apply quiet_refl].
  pose proof (receive_try_quiet buffer s) as Ht.
  destruct (Engine.receive_try h buffer s) as [s1 [b| |e b]]; cbn [fst] in Ht.
  - eapply quiet_trans; [exact Ht | apply IH].
  - exact Ht.
  - unfold Engine.receive_except.
    destruct (is_class SocketTimeout e).
    + eapply quiet_trans; [exact Ht | apply IH].
    + cbn [fst]. eapply quiet_trans; [exact Ht|].
      destruct (connected (self s1)); [|apply quiet_refl].
      exists [EvPrint (notice e)]. split; [apply grows_record | reflexivity].
Qed.

End ReceiveInvariant.

(** X7. The receive loop, in both clients, only reads and prints: for every
    handler, every bound on its passes, every buffer and every behaviour of
    the socket, it leaves the attributes of the controller as they were (it
    never marks the controller as disconnected and never replaces the
    socket), and the events it adds to the log are reads and printed lines:
    it never writes to the socket and never closes it. *)
Theorem receive_loop_only_reads_and_prints :
  forall (World Desc : Type) (P : Platform World) (B : PyBuiltins)
         (h : Controller Desc -> str -> Out unit) (notice : exn -> str)
         (fuel : nat) (buffer : str) (s : Session World Desc),
    exists evs,
      Trace.grows s (fst (Engine.receive_loop h notice fuel buffer s)) evs
      /\ forallb Trace.passive evs = true.
Proof. intros. apply receive_loop_quiet. Qed.

(** X8. Teardown stops the receive loop at its next check: once
    [disconnect] has run on a controller that had a connection, a pass of
    the receive loop returns at once, without reading from the socket and
    without any other effect, in both clients. *)
Theorem receive_loop_stops_after_disconnect :
  forall (World : Type) (P : Platform World) (B : PyBuiltins)
         (fuel : nat) (buffer : str)
         (s : Session World CmdInfo) (t : Session World str),
    Engine.has_connection (self s) = true ->
    Engine.has_connection (self t) = true ->
    (let s1 := fst (Control.disconnect s) in
     Engine.receive_loop Control.handle_server_message
       Control.receive_error_notice (S fuel) buffer s1 = (s1, Returned))
    /\ (let t1 := fst (Plain.disconnect t) in
        Engine.receive_loop Plain.handle_server_message
          Plain.receive_error_notice (S fuel) buffer t1 = (t1, Returned)).
Proof.
  intros World P B fuel buffer s t Hs Ht.
  assert (Hgen : forall (Desc : Type) (h : Controller Desc -> str -> Out unit)
                        (n : exn -> str) (text : str) (u : Session World Desc),
             Engine.has_connection (self u) = true ->
             let u1 := fst (Engine.disconnect text u) in
             Engine.receive_loop h n (S fuel) buffer u1 = (u1, Returned)).
  { intros Desc h n text u Hu u1.
    assert (Hc : connected (self u1) = false).
    { subst u1.
      destruct (sock_send Engine.quit_line (world u)) as [[e|[]] w1] eqn:Hw.
      - now rewrite (disconnect_send_fails text u Hu Hw).
      - destruct (sock_close w1) as [r w2] eqn:Hcl.
        now rewrite (disconnect_sent text u Hu Hw Hcl). }
    cbn [Engine.receive_loop]. now rewrite Hc. }
  split; apply Hgen; assumption.
Qed.

Lemma receive_loop_stops_after_disconnect_witness :
  let B := Script.builtins [] in
  let s := Script.session true (Some SocketObject) Script.quiet in
  let t := Script.plain_session true (Some SocketObject) Script.write_fails in
  Engine.has_connection (self s) = true
  /\ Engine.has_connection (self t) = true
  /\ (let s1 := fst (Control.disconnect s) in
      Engine.receive_loop Control.handle_server_message
        Control.receive_error_notice 3 [] s1 = (s1, Returned))
  /\ (let t1 := fst (Plain.disconnect t) in
      Engine.receive_loop Plain.handle_server_message
        Plain.receive_error_notice 3 [] t1 = (t1, Returned)).
Proof.
  intros B s t.
  assert (H1 : Engine.has_connection (self s) = true) by reflexivity.
  assert (H2 : Engine.has_connection (self t) = true) by reflexivity.
  split; [exact H1|]. split; [exact H2|].
  exact (@receive_loop_stops_after_disconnect Script.World Script.platform B
           2 [] s t H1 H2).
Defined.

(** ** The receive loop on a stream of bytes *)

Section StreamFacts.
Import Framing.
Context {Desc : Type} {B : PyBuiltins}.
Variable h : Controller Desc -> str -> Out unit.
Variable notice : exn -> str.
Hypothesis h_returns : forall c m, snd (h c m) = inr tt.

Local Abbreviation Sess := (Session Script.World Desc).

Lemma script_recv (w : Script.World) (r : exn + list byte)
    (rest : list (exn + list byte)) (n : nat) :
  Script.recvs w = r :: rest ->
  exists w', sock_recv n w = (r, w') /\ Script.recvs w' = rest.
Proof.
  intros H. destruct w as [cs ss cl rs ins]. cbn [Script.recvs] in H.
  subst rs. eexists. split; reflexivity.
Qed.

Lemma stream_is_framed (raws : list (list byte)) (chunks : list str) :
  Forall2 (fun raw c => utf8_decode raw = Some c) raws chunks ->
  Forall (fun c => c <> []) chunks ->
  forall (buffer : str) (s : Sess),
    newline_free buffer ->
    connected (self s) && running (self s) = true ->
    socket (self s) = Some SocketObject ->
    Script.recvs (world s) = map inr raws ->
    exists s',
      Engine.receive_loop h notice (length raws) buffer s
      = (s', Polling (snd (split_lines (buffer ++ concat chunks))))
      /\ printed_lines (log s')
         = printed_lines (log s)
           ++ outputs h (self s)
                (deliveries (fst (split_lines (buffer ++ concat chunks))))
      /\ self s' = self s
      /\ Script.recvs (world s') = [].
Proof.
  induction 1 as [|raw c raws chunks Hd _ IH]; intros Hne buffer s Hb Hc Hk Hr.
  - exists s. cbn [length Engine.receive_loop concat].
    rewrite app_nil_r, (newline_free_split Hb). cbn [fst snd].
    unfold deliveries, outputs. cbn. rewrite app_nil_r. now repeat split.
  - inversion Hne as [|? ? Hc0 Hne']; subst.
    cbn [map] in Hr.
    destruct (script_recv _ 1024 Hr) as (w & Hrecv & Hw).
    cbn [length Engine.receive_loop]. rewrite Hc.
    unfold Engine.receive_try, chain.
    rewrite (recv_step s Hk Hrecv). unfold decode. rewrite Hd.
    unfold Engine.feed. destruct c as [|x c]; [congruence|].
    cbn [truthy negb].
    rewrite (@drain_outputs Script.World Desc h h_returns) by lia.
    set (s1 := with_world w (record (EvRecv 1024) s)).
    set (segs1 := fst (split_lines (buffer ++ x :: c))).
    set (rest1 := snd (split_lines (buffer ++ x :: c))).
    set (s2 := say_all (outputs h (self s1) (deliveries segs1)) s1).
    destruct (IH Hne' rest1 s2) as (s' & Hrun & Hp & Hself & Hrest).
    + apply split_lines_newline_free.
    + subst s2. now rewrite self_say_all.
    + subst s2. now rewrite self_say_all.
    + subst s2. now rewrite world_say_all.
    + exists s'. cbn [concat].
      rewrite (app_assoc buffer), (split_lines_app (buffer ++ x :: c)).
      cbn [fst snd]. fold segs1 rest1.
      split; [exact Hrun|]. split; [|split; [|exact Hrest]].
      * rewrite Hp. subst s2. rewrite log_say_all, printed_lines_app,
          printed_lines_prints, self_say_all.
        subst s1. cbn [log self record with_world].
        rewrite printed_lines_app. cbn [printed_lines flat_map].
        rewrite app_nil_r, deliveries_app. unfold outputs.
        rewrite flat_map_app. now rewrite <- app_assoc.
      * rewrite Hself. subst s2. now rewrite self_say_all.
Qed.

End StreamFacts.

(** X9. The receive loop on a stream of bytes. When the socket delivers a
    sequence of non-empty chunks each of which is valid UTF-8, then, however
    the stream is cut into chunks, after as many passes as there are chunks
    the loop is still running, the handler has been called, in order, on
    the stripped non-blank lines of the decoded stream, and the buffer holds
    the text after the last newline. (The handler is any handler that
    returns, as both clients' handlers do.) *)
Theorem byte_stream_is_framed :
  forall (Desc : Type) (B : PyBuiltins)
         (h : Controller Desc -> str -> Out unit) (notice : exn -> str)
         (raws : list (list byte)) (chunks : list str)
         (s : Session Script.World Desc),
    (forall c m, snd (h c m) = inr tt) ->
    Forall2 (fun raw c => utf8_decode raw = Some c) raws chunks ->
    Forall (fun c => c <> []) chunks ->
    connected (self s) && running (self s) = true ->
    socket (self s) = Some SocketObject ->
    Script.recvs (world s) = map inr raws ->
    exists (text : str) (s' : Session Script.World Desc),
      utf8_decode (concat raws) = Some text
      /\ Engine.receive_loop h notice (length raws) [] s
         = (s', Polling (snd (Framing.split_lines text)))
      /\ Framing.printed_lines (log s')
         = Framing.printed_lines (log s)
           ++ Framing.outputs h (self s)
                (Framing.deliveries (fst (Framing.split_lines text)))
      /\ self s' = self s.
Proof.
  intros Desc B h notice raws chunks s Hh Hd Hne Hc Hk Hr.
  assert (Hnil : Framing.newline_free []) by (intros []).
  destruct (@stream_is_framed Desc B h notice Hh raws chunks Hd Hne [] s
              Hnil Hc Hk Hr) as (s' & Hrun & Hp & Hself & _).
  exists (concat chunks), s'.
  split; [now apply chunks_decode_to_input|]. now repeat split.
Qed.

Lemma byte_stream_is_framed_witness :
  let B := Script.builtins [] in
  let h := Plain.handle_server_message in
  let raws := [ [xc3; xa9; x20]; [x6f; x6b; x0a; x78] ] in
  let chunks := [ [233%N; 32%N]; [111%N; 107%N; 10%N; 120%N] ] in
  let w := {| Script.connects := []; Script.sends := []; Script.closes := [];
              Script.recvs := map inr raws; Script.inputs := [] |} in
  let s := Script.plain_session true (Some SocketObject) w in
  (forall c m, snd (h c m) = inr tt)
  /\ Forall2 (fun raw c => utf8_decode raw = Some c) raws chunks
  /\ Forall (fun c : str => c <> []) chunks
  /\ connected (self s) && running (self s) = true
  /\ socket (self s) = Some SocketObject
  /\ Script.recvs (world s) = map inr raws
  /\ exists (text : str) (s' : Session Script.World str),
      utf8_decode (concat raws) = Some text
      /\ Engine.receive_loop h Plain.receive_error_notice (length raws) [] s
         = (s', Polling (snd (Framing.split_lines text)))
      /\ Framing.printed_lines (log s')
         = Framing.printed_lines (log s)
           ++ Framing.outputs h (self s)
                (Framing.deliveries (fst (Framing.split_lines text)))
      /\ self s' = self s.
Proof.
  intros B h raws chunks w s.
  assert (H1 : forall c m, snd (h c m) = inr tt)
    by exact (proj2 handlers_return).
  assert (H2 : Forall2 (fun raw c => utf8_decode raw = Some c) raws chunks)
    by (repeat constructor).
  assert (H3 : Forall (fun c : str => c <> []) chunks)
    by (repeat constructor; discriminate).
  assert (H4 : connected (self s) && running (self s) = true) by reflexivity.
  assert (H5 : socket (self s) = Some SocketObject) by reflexivity.
  assert (H6 : Script.recvs (world s) = map inr raws) by reflexivity.
  split; [exact H1|]. split; [exact H2|]. split; [exact H3|].
  split; [exact H4|]. split; [exact H5|]. split; [exact H6|].
  exact (@byte_stream_is_framed str B h Plain.receive_error_notice raws
           chunks s H1 H2 H3 H4 H5 H6).
Defined.

(** ** A chunk without a newline *)

Lemma newline_free_partition (s : str) :
  Framing.newline_free s -> partition_nl s = None.
Proof.
  intros H. destruct (partition_nl s) as [[line rest]|] eqn:Hp;
    [|reflexivity].
  destruct (partition_nl_some _ Hp) as (_ & E & _).
  exfalso. apply H. rewrite E. apply in_or_app. right. now left.
Qed.

(** X10. A chunk that does not complete a line is only stored: when the
    buffer followed by the chunk holds no newline, the pass of the receive
    loop calls no handler, prints nothing and leaves the session as it is,
    and the buffer becomes the old buffer followed by the chunk, whatever
    its length and whatever the handler. *)
Theorem partial_line_is_buffered :
  forall (World Desc : Type) (h : Controller Desc -> str -> Out unit)
         (buffer data : str) (s : Session World Desc),
    data <> [] ->
    Framing.newline_free (buffer ++ data) ->
    Engine.feed h buffer data s = (s, Completed (buffer ++ data)).
Proof.
  intros World Desc h buffer data s Hd Hn. unfold Engine.feed.
  destruct data as [|x data]; [congruence|]. cbn [truthy negb].
  destruct (length (buffer ++ x :: data)); cbn [Engine.drain];
    [reflexivity|].
  now rewrite (newline_free_partition Hn).
Qed.

Lemma partial_line_is_buffered_witness :
  let s := Script.plain_session true (Some SocketObject) Script.quiet in
  lit "us" <> []
  /\ Framing.newline_free (lit "stat" ++ lit "us")
  /\ Engine.feed Plain.handle_server_message (lit "stat") (lit "us") s
     = (s, Completed (lit "stat" ++ lit "us")).
Proof.
  intros s.
  assert (H1 : lit "us" <> []) by discriminate.
  assert (H2 : Framing.newline_free (lit "stat" ++ lit "us")).
  { intros H. vm_compute in H.
    repeat (destruct H as [H|H]; [discriminate H|]). exact H. }
  split; [exact H1|]. split; [exact H2|].
  exact (@partial_line_is_buffered Script.World str
           Plain.handle_server_message (lit "stat") (lit "us") s H1 H2).
Defined.

(** ** Connecting and running *)

Section ConnectFacts.
Import Trace.
Context {World : Type} {P : Platform World} {B : PyBuiltins}.

Lemma control_connect_fails (s : Session World CmdInfo) (e : exn) (w : World) :
  sock_connect (host (self s)) (port (self s)) (world s) = (inl e, w) ->
  Control.connect s
  = (record (EvPrint (Colors.RED ++ Colors.CROSS ++ Colors.END
                      ++ lit " Failed to connect: " ++ exn_text e))
       (with_world w
          (record (EvConnect (host (self s)) (port (self s)))
             (with_self (set_socket (Some SocketObject) (self s)) s))),
     inr false).
Proof.
  intros H. unfold Control.connect, catch, chain, update_self, get_self,
    external. cbn [self with_self set_socket host port world].
  now rewrite H.
Qed.

Lemma plain_connect_fails (s : Session World str) (e : exn) (w : World) :
  sock_connect (host (self s)) (port (self s)) (world s) = (inl e, w) ->
  Plain.connect s
  = (record (EvPrint (lit "[ERROR] Failed to connect: " ++ exn_text e))
       (with_world w
          (record (EvConnect (host (self s)) (port (self s)))
             (with_self (set_socket (Some SocketObject) (self s)) s))),
     inr false).
Proof.
  intros H. unfold Plain.connect, catch, chain, update_self, get_self,
    external. cbn [self with_self set_socket host port world].
  now rewrite H.
Qed.

Lemma control_connect_succeeds (s : Session World CmdInfo) (w w' : World) :
  sock_connect (host (self s)) (port (self s)) (world s) = (inr tt, w) ->
  thread_start w = (inr tt, w') ->
  exists s', Control.connect s = (s', inr true)
             /\ connected (self s') = true
             /\ socket (self s') = Some SocketObject.
Proof.
  intros H H'. unfold Control.connect, catch, chain, update_self, get_self,
    external. cbn [self with_self set_socket host port world].
  rewrite H. cbn [self with_self with_world record world]. rewrite H'.
  eexists. split; [reflexivity|]. split; reflexivity.
Qed.

Lemma plain_connect_succeeds (s : Session World str) (w w' : World) :
  sock_connect (host (self s)) (port (self s)) (world s) = (inr tt, w) ->
  thread_start w = (inr tt, w') ->
  exists s', Plain.connect s = (s', inr true)
             /\ connected (self s') = true
             /\ socket (self s') = Some SocketObject.
Proof.
  intros H H'. unfold Plain.connect, catch, chain, update_self, get_self,
    external. cbn [self with_self set_socket host port world].
  rewrite H. cbn [self with_self with_world record world]. rewrite H'.
  eexists. split; [reflexivity|]. split; reflexivity.
Qed.

(** [connect] when the socket is connected (leaving the world in [w]) and
    the receive thread cannot be started (leaving it in [w']). *)
Lemma control_connect_unthreaded (s : Session World CmdInfo) (e : exn)
    (w w' : World) :
  sock_connect (host (self s)) (port (self s)) (world s) = (inr tt, w) ->
  thread_start w = (inl e, w') ->
  Control.connect s
  = (record (EvPrint (Colors.RED ++ Colors.CROSS ++ Colors.END
                      ++ lit " Failed to connect: " ++ exn_text e))
       (with_world w'
          (record EvSpawn
             (with_self
                (set_connected true
                   (set_socket (Some SocketObject) (self s)))
                (with_world w
                   (record (EvConnect (host (self s)) (port (self s)))
                      s))))),
     inr false).
Proof.
  intros H H'. unfold Control.connect, catch, chain, update_self, get_self,
    external. cbn [self with_self set_socket host port world].
  rewrite H. cbn [self with_self with_world record world]. rewrite H'.
  reflexivity.
Qed.

Lemma plain_connect_unthreaded (s : Session World str) (e : exn)
    (w w' : World) :
  sock_connect (host (self s)) (port (self s)) (world s) = (inr tt, w) ->
  thread_start w = (inl e, w') ->
  Plain.connect s
  = (record (EvPrint (lit "[ERROR] Failed to connect: " ++ exn_text e))
       (with_world w'
          (record EvSpawn
             (with_self
                (set_connected true
                   (set_socket (Some SocketObject) (self s)))
                (with_world w
                   (record (EvConnect (host (self s)) (port (self s)))
                      s))))),
     inr false).
Proof.
  intros H H'. unfold Plain.connect, catch, chain, update_self, get_self,
    external. cbn [self with_self set_socket host port world].
  rewrite H. cbn [self with_self with_world record world]. rewrite H'.
  reflexivity.
Qed.

End ConnectFacts.

(** X11. A failed connection attempt leaves a socket behind that is never
    closed, in both clients: when connecting fails on a controller that is
    not connected, [connect] returns [False] without raising, the socket
    attribute holds the socket that was created while the controller still
    counts as not connected, and a following [disconnect] therefore does
    nothing at all (no close is attempted). *)
Theorem failed_connect_leaves_socket_unclosed :
  forall (World : Type) (P : Platform World) (B : PyBuiltins)
         (s : Session World CmdInfo) (t : Session World str)
         (es et : exn) (ws wt : World),
    connected (self s) = false ->
    connected (self t) = false ->
    sock_connect (host (self s)) (port (self s)) (world s) = (inl es, ws) ->
    sock_connect (host (self t)) (port (self t)) (world t) = (inl et, wt) ->
    (exists s', Control.connect s = (s', inr false)
                /\ socket (self s') = Some SocketObject
                /\ connected (self s') = false
                /\ Trace.writes (log s') = Trace.writes (log s)
                /\ Control.disconnect s' = (s', inr tt))
    /\ (exists t', Plain.connect t = (t', inr false)
                   /\ socket (self t') = Some SocketObject
                   /\ connected (self t') = false
                   /\ Trace.writes (log t') = Trace.writes (log t)
                   /\ Plain.disconnect t' = (t', inr tt)).
Proof.
  intros World P B s t es et ws wt Hs Ht Hcs Hct. split.
  - eexists. split; [apply (control_connect_fails s Hcs)|].
    split; [reflexivity|]. split; [exact Hs|]. split.
    + cbn [log record with_world with_self]. rewrite !writes_app.
      cbn. now rewrite !app_nil_r.
    + apply disconnect_idle. unfold Engine.has_connection.
      cbn [self record with_world with_self set_socket connected].
      now rewrite Hs.
  - eexists. split; [apply (plain_connect_fails t Hct)|].
    split; [reflexivity|]. split; [exact Ht|]. split.
    + cbn [log record with_world with_self]. rewrite !writes_app.
      cbn. now rewrite !app_nil_r.
    + apply disconnect_idle. unfold Engine.has_connection.
      cbn [self record with_world with_self set_socket connected].
      now rewrite Ht.
Qed.

Lemma failed_connect_leaves_socket_unclosed_witness :
  let B := Script.builtins [] in
  let refused := Exn OSError (lit "[Errno 111] Connection refused") in
  let w := {| Script.connects := [inl refused]; Script.sends := [];
              Script.closes := []; Script.recvs := [];
              Script.inputs := [] |} in
  let s := Script.session false None w in
  let t := Script.plain_session false None w in
  connected (self s) = false
  /\ connected (self t) = false
  /\ sock_connect (host (self s)) (port (self s)) (world s)
     = (inl refused, Script.quiet)
  /\ sock_connect (host (self t)) (port (self t)) (world t)
     = (inl refused, Script.quiet)
  /\ (exists s', Control.connect s = (s', inr false)
                 /\ socket (self s') = Some SocketObject
                 /\ connected (self s') = false
                 /\ Trace.writes (log s') = Trace.writes (log s)
                 /\ Control.disconnect s' = (s', inr tt))
  /\ (exists t', Plain.connect t = (t', inr false)
                 /\ socket (self t') = Some SocketObject
                 /\ connected (self t') = false
                 /\ Trace.writes (log t') = Trace.writes (log t)
                 /\ Plain.disconnect t' = (t', inr tt)).
Proof.
  intros B refused w s t.
  assert (H1 : connected (self s) = false) by reflexivity.
  assert (H2 : connected (self t) = false) by reflexivity.
  assert (H3 : sock_connect (host (self s)) (port (self s)) (world s)
               = (inl refused, Script.quiet)) by reflexivity.
  assert (H4 : sock_connect (host (self t)) (port (self t)) (world t)
               = (inl refused, Script.quiet)) by reflexivity.
  split; [exact H1|]. split; [exact H2|]. split; [exact H3|].
  split; [exact H4|].
  exact (@failed_connect_leaves_socket_unclosed Script.World Script.platform
           B s t refused refused Script.quiet Script.quiet H1 H2 H3 H4).
Defined.

Section RunFacts.
Import Trace.
Context {World : Type} {P : Platform World} {B : PyBuiltins}.

Lemma disconnect_marks (Desc : Type) (text : str) (u : Session World Desc) :
  Engine.has_connection (self u) = true ->
  exists u', Engine.disconnect text u = (u', inr tt)
             /\ connected (self u') = false.
Proof.
  intros Hu.
  destruct (sock_send Engine.quit_line (world u)) as [[e|[]] w1] eqn:Hw.
  - eexists. split; [apply (disconnect_send_fails text u Hu Hw)|].
    reflexivity.
  - destruct (sock_close w1) as [r w2] eqn:Hcl.
    eexists. split; [apply (disconnect_sent text u Hu Hw Hcl)|].
    reflexivity.
Qed.

Lemma shut_down_connected (Desc : Type) (c : Controller Desc) :
  Engine.has_connection c = true ->
  connected (shut_down c) = false
  /\ Engine.has_connection (shut_down c) = false.
Proof. intros H. unfold shut_down. rewrite H. split; reflexivity. Qed.

(** The [finally] clause of [run] after the interactive loop has ended with
    [r] in the session [s2], having started in [s1] with a connection. *)
Lemma teardown_after_loop (Desc : Type) (text : str)
    (valid : list byte -> Prop) (s1 s2 : Session World Desc)
    (r : Unwind + Progress) :
  Engine.has_connection (self s1) = true ->
  prompt_outcome valid s1 s2 r ->
  r <> inr Unfinished ->
  exists s3, Engine.disconnect text s2 = (s3, inr tt)
             /\ connected (self s3) = false.
Proof.
  intros H1 (evs & Hlog & Hr) Hn.
  destruct r as [[e|status]|p].
  - destruct Hr as [Hself _]. apply disconnect_marks. now rewrite Hself.
  - destruct Hr as (_ & Hself & _).
    destruct (shut_down_connected _ H1) as [Hc Hh].
    exists s2. split.
    + apply disconnect_idle. now rewrite Hself.
    + now rewrite Hself.
  - destruct Hr as [Hself _]. apply disconnect_marks. now rewrite Hself.
Qed.

Lemma control_run_ends (fuel : nat) (s : Session World CmdInfo) :
  connected (self s) = false ->
  (forall w,
      sock_connect (host (self s)) (port (self s)) (world s) = (inr tt, w) ->
      exists w', thread_start w = (inr tt, w')) ->
  exists s' r,
    Control.run fuel s = (s', r)
    /\ (r = inr Unfinished -> connected (self s') = true)
    /\ (r <> inr Unfinished -> connected (self s') = false).
Proof.
  intros Hs Hth. unfold Control.run.
  set (s0 := say_all Control.title s).
  assert (H0 : self s0 = self s /\ world s0 = world s) by (split; reflexivity).
  destruct H0 as [Hself0 Hworld0].
  destruct (sock_connect (host (self s0)) (port (self s0)) (world s0))
    as [[e|[]] w] eqn:Hc.
  - rewrite (control_connect_fails s0 Hc).
    eexists. exists (inr Finished). split; [reflexivity|].
    split; [discriminate | intros _; exact Hs].
  - destruct (Hth w Hc) as [w' Hw'].
    destruct (control_connect_succeeds s0 Hc Hw') as (s1 & H1 & Hc1 & Hk1).
    rewrite H1.
    assert (Hh1 : Engine.has_connection (self s1) = true)
      by (unfold Engine.has_connection; now rewrite Hc1, Hk1).
    destruct (control_mode_outcome fuel s1) as (s2 & r & Hm & Ho & _).
    rewrite Hm.
    assert (Hdone : r <> inr Unfinished ->
                    exists s3, Control.disconnect s2 = (s3, inr tt)
                               /\ connected (self s3) = false)
      by (intros Hn; exact (teardown_after_loop _ Hh1 Ho Hn)).
    destruct r as [u|[|]].
    + destruct Hdone as (s3 & Hd & Hc3); [discriminate|].
      rewrite Hd. exists s3, (inl u). split; [reflexivity|].
      split; [discriminate | intros _; exact Hc3].
    + destruct Hdone as (s3 & Hd & Hc3); [discriminate|].
      rewrite Hd. exists s3, (inr Finished). split; [reflexivity|].
      split; [discriminate | intros _; exact Hc3].
    + exists s2, (inr Unfinished). split; [reflexivity|].
      destruct Ho as (evs & _ & Hself2 & _).
      split; [intros _; now rewrite Hself2 | intros Hn; now destruct Hn].
Qed.

Lemma plain_run_ends (fuel : nat) (s : Session World str) :
  connected (self s) = false ->
  (forall w,
      sock_connect (host (self s)) (port (self s)) (world s) = (inr tt, w) ->
      exists w', thread_start w = (inr tt, w')) ->
  exists s' r,
    Plain.run fuel s = (s', r)
    /\ (r = inr Unfinished -> connected (self s') = true)
    /\ (r <> inr Unfinished -> connected (self s') = false).
Proof.
  intros Hs Hth. unfold Plain.run.
  set (s0 := say_all Plain.title s).
  assert (H0 : self s0 = self s /\ world s0 = world s) by (split; reflexivity).
  destruct H0 as [Hself0 Hworld0].
  destruct (sock_connect (host (self s0)) (port (self s0)) (world s0))
    as [[e|[]] w] eqn:Hc.
  - rewrite (plain_connect_fails s0 Hc).
    eexists. exists (inr Finished). split; [reflexivity|].
    split; [discriminate | intros _; exact Hs].
  - destruct (Hth w Hc) as [w' Hw'].
    destruct (plain_connect_succeeds s0 Hc Hw') as (s1 & H1 & Hc1 & Hk1).
    rewrite H1.
    assert (Hh1 : Engine.has_connection (self s1) = true)
      by (unfold Engine.has_connection; now rewrite Hc1, Hk1).
    destruct (plain_mode_outcome fuel s1) as (s2 & r & Hm & Ho & _).
    rewrite Hm.
    assert (Hdone : r <> inr Unfinished ->
                    exists s3, Plain.disconnect s2 = (s3, inr tt)
                               /\ connected (self s3) = false)
      by (intros Hn; exact (teardown_after_loop _ Hh1 Ho Hn)).
    destruct r as [u|[|]].
    + destruct Hdone as (s3 & Hd & Hc3); [discriminate|].
      rewrite Hd. exists s3, (inl u). split; [reflexivity|].
      split; [discriminate | intros _; exact Hc3].
    + destruct Hdone as (s3 & Hd & Hc3); [discriminate|].
      rewrite Hd. exists s3, (inr Finished). split; [reflexivity|].
      split; [discriminate | intros _; exact Hc3].
    + exists s2, (inr Unfinished). split; [reflexivity|].
      destruct Ho as (evs & _ & Hself2 & _).
      split; [intros _; now rewrite Hself2 | intros Hn; now destruct Hn].
Qed.

(** [run] when the receive thread cannot be started. *)
Lemma control_run_unthreaded (fuel : nat) (s : Session World CmdInfo)
    (e : exn) (w w' : World) :
  sock_connect (host (self s)) (port (self s)) (world s) = (inr tt, w) ->
  thread_start w = (inl e, w') ->
  exists s',
    Control.run fuel s = (s', inr Finished)
    /\ connected (self s') = true
    /\ socket (self s') = Some SocketObject
    /\ log s'
       = log s
         ++ map EvPrint Control.title
         ++ [ EvConnect (host (self s)) (port (self s)); EvSpawn;
              EvPrint (Colors.RED ++ Colors.CROSS ++ Colors.END
                       ++ lit " Failed to connect: " ++ exn_text e) ].
Proof.
  intros Hc Hw. unfold Control.run.
  set (s0 := say_all Control.title s).
  rewrite (control_connect_unthreaded s0 Hc Hw).
  eexists. split; [reflexivity|]. split; [reflexivity|].
  split; [reflexivity|].
  cbn [log record with_world with_self]. subst s0.
  rewrite log_say_all. now rewrite <- !app_assoc.
Qed.

Lemma plain_run_unthreaded (fuel : nat) (s : Session World str)
    (e : exn) (w w' : World) :
  sock_connect (host (self s)) (port (self s)) (world s) = (inr tt, w) ->
  thread_start w = (inl e, w') ->
  exists s',
    Plain.run fuel s = (s', inr Finished)
    /\ connected (self s') = true
    /\ socket (self s') = Some SocketObject
    /\ log s'
       = log s
         ++ map EvPrint Plain.title
         ++ [ EvConnect (host (self s)) (port (self s)); EvSpawn;
              EvPrint (lit "[ERROR] Failed to connect: " ++ exn_text e) ].
Proof.
  intros Hc Hw. unfold Plain.run.
  set (s0 := say_all Plain.title s).
  rewrite (plain_connect_unthreaded s0 Hc Hw).
  eexists. split; [reflexivity|]. split; [reflexivity|].
  split; [reflexivity|].
  cbn [log record with_world with_self]. subst s0.
  rewrite log_say_all. now rewrite <- !app_assoc.
Qed.

End RunFacts.

(** X12. [run] ends with the controller marked as disconnected, in both
    clients, whenever the receive thread could be started. Started on a
    controller that is not connected, for every behaviour of socket and
    console and every bound on the passes of the interactive loop: as long
    as the interactive loop is still running the controller counts as
    connected; and however [run] has come to its end (it returned, an
    exception of [input] left it, or [SystemExit] did after SIGINT at the
    prompt) the controller counts as not connected: after a failed
    connection attempt it never was, otherwise [signal_handler] or the
    [finally] clause has run [disconnect]. *)
Theorem run_ends_disconnected :
  forall (World : Type) (P : Platform World) (B : PyBuiltins) (fuel : nat)
         (s : Session World CmdInfo) (t : Session World str),
    connected (self s) = false ->
    connected (self t) = false ->
    (forall w,
        sock_connect (host (self s)) (port (self s)) (world s) = (inr tt, w) ->
        exists w', thread_start w = (inr tt, w')) ->
    (forall w,
        sock_connect (host (self t)) (port (self t)) (world t) = (inr tt, w) ->
        exists w', thread_start w = (inr tt, w')) ->
    (exists s' r,
        Control.run fuel s = (s', r)
        /\ (r = inr Unfinished -> connected (self s') = true)
        /\ (r <> inr Unfinished -> connected (self s') = false))
    /\ (exists t' r,
           Plain.run fuel t = (t', r)
           /\ (r = inr Unfinished -> connected (self t') = true)
           /\ (r <> inr Unfinished -> connected (self t') = false)).
Proof.
  intros World P B fuel s t Hs Ht Hths Htht. split.
  - now apply control_run_ends.
  - now apply plain_run_ends.
Qed.

Lemma run_ends_disconnected_witness :
  let B := Script.builtins [] in
  let w := {| Script.connects := []; Script.sends := []; Script.closes := [];
              Script.recvs := [];
              Script.inputs := [InputLine (lit "t"); InputSignal] |} in
  let s := Script.session false None w in
  let t := Script.plain_session false None w in
  connected (self s) = false
  /\ connected (self t) = false
  /\ (exists s' r,
         Control.run 5 s = (s', r)
         /\ (r = inr Unfinished -> connected (self s') = true)
         /\ (r <> inr Unfinished -> connected (self s') = false))
  /\ (exists t' r,
         Plain.run 5 t = (t', r)
         /\ (r = inr Unfinished -> connected (self t') = true)
         /\ (r <> inr Unfinished -> connected (self t') = false)).
Proof.
  intros B w s t.
  assert (H1 : connected (self s) = false) by reflexivity.
  assert (H2 : connected (self t) = false) by reflexivity.
  assert (H3 : forall w0,
             sock_connect (host (self s)) (port (self s)) (world s)
             = (inr tt, w0) ->
             exists w', thread_start w0 = (inr tt, w'))
    by (intros w0 _; now exists w0).
  assert (H4 : forall w0,
             sock_connect (host (self t)) (port (self t)) (world t)
             = (inr tt, w0) ->
             exists w', thread_start w0 = (inr tt, w'))
    by (intros w0 _; now exists w0).
  split; [exact H1|]. split; [exact H2|].
  exact (@run_ends_disconnected Script.World Script.platform B 5 s t
           H1 H2 H3 H4).
Defined.

(** X23. When the socket is connected but the receive thread cannot be
    started, [run] leaves a connection behind, in both clients. [start]
    raises inside the [try] block of [connect] after the controller has
    been marked as connected; [connect] reports the failure and returns
    [False], and [run] returns at once: the controller still counts as
    connected and holds the socket, and after the connection attempt the
    log shows the failed start and the line that reports it, and neither a
    write nor a close. *)
Theorem failed_thread_start_leaves_connected :
  forall (World : Type) (P : Platform World) (B : PyBuiltins) (fuel : nat)
         (s : Session World CmdInfo) (t : Session World str)
         (es et : exn) (ws ws' wt wt' : World),
    sock_connect (host (self s)) (port (self s)) (world s) = (inr tt, ws) ->
    thread_start ws = (inl es, ws') ->
    sock_connect (host (self t)) (port (self t)) (world t) = (inr tt, wt) ->
    thread_start wt = (inl et, wt') ->
    (exists s',
        Control.run fuel s = (s', inr Finished)
        /\ connected (self s') = true
        /\ socket (self s') = Some SocketObject
        /\ log s'
           = log s
             ++ map EvPrint Control.title
             ++ [ EvConnect (host (self s)) (port (self s)); EvSpawn;
                  EvPrint (Colors.RED ++ Colors.CROSS ++ Colors.END
                           ++ lit " Failed to connect: " ++ exn_text es) ])
    /\ (exists t',
           Plain.run fuel t = (t', inr Finished)
           /\ connected (self t') = true
           /\ socket (self t') = Some SocketObject
           /\ log t'
              = log t
                ++ map EvPrint Plain.title
                ++ [ EvConnect (host (self t)) (port (self t)); EvSpawn;
                     EvPrint (lit "[ERROR] Failed to connect: "
                              ++ exn_text et) ]).
Proof.
  intros World P B fuel s t es et ws ws' wt wt' H1 H2 H3 H4. split.
  - exact (control_run_unthreaded fuel s H1 H2).
  - exact (plain_run_unthreaded fuel t H3 H4).
Qed.

Lemma failed_thread_start_leaves_connected_witness :
  let B := Script.builtins [] in
  let w := {| Script.base := Script.quiet |} in
  let s := {| self := Control.init (lit "localhost") 8888; world := w;
              log := [] |} in
  let t := {| self := Plain.init (lit "localhost") 8888; world := w;
              log := [] |} in
  sock_connect (host (self s)) (port (self s)) (world s) = (inr tt, w)
  /\ thread_start w = (inl Script.cannot_start, w)
  /\ (exists s',
         Control.run 5 s = (s', inr Finished)
         /\ connected (self s') = true
         /\ socket (self s') = Some SocketObject
         /\ log s'
            = log s
              ++ map EvPrint Control.title
              ++ [ EvConnect (host (self s)) (port (self s)); EvSpawn;
                   EvPrint (Colors.RED ++ Colors.CROSS ++ Colors.END
                            ++ lit " Failed to connect: "
                            ++ exn_text Script.cannot_start) ])
  /\ (exists t',
         Plain.run 5 t = (t', inr Finished)
         /\ connected (self t') = true
         /\ socket (self t') = Some SocketObject
         /\ log t'
            = log t
              ++ map EvPrint Plain.title
              ++ [ EvConnect (host (self t)) (port (self t)); EvSpawn;
                   EvPrint (lit "[ERROR] Failed to connect: "
                            ++ exn_text Script.cannot_start) ]).
Proof.
  intros B w s t.
  assert (H1 : sock_connect (host (self s)) (port (self s)) (world s)
               = (inr tt, w)) by reflexivity.
  assert (H2 : thread_start w = (inl Script.cannot_start, w)) by reflexivity.
  split; [exact H1|]. split; [exact H2|].
  exact (@failed_thread_start_leaves_connected Script.Exhausted
           Script.exhausted B 5 s t Script.cannot_start Script.cannot_start
           w w w w H1 H2 H1 H2).
Defined.

(** ** Rendering in [control.py] *)

Section RenderFacts.
Import Colors Control.
Context {B : PyBuiltins}.
Variable self : DroneController.
Local Open Scope out_scope.

Lemma assoc_lookup (k : str) (d : list (str * json)) :
  Py.assoc k d = lookup k d.
Proof.
  induction d as [|[k' v] d IH]; [reflexivity|]. simpl. now rewrite IH.
Qed.

(** The lines [print_commands] prints for one key. *)
Lemma entry_depends_on_key (item : str * json) :
  print_command_entry self item
  = (fst (print_command_entry self (fst item, JNull)), inr tt).
Proof.
  unfold print_command_entry. cbn [fst].
  now destruct (lookup (fst item) (commands self)).
Qed.

Lemma entry_length (item : str * json) :
  length (fst (print_command_entry self item))
  = if known (fst item) (commands self) then 2 else 0.
Proof.
  unfold print_command_entry.
  destruct (lookup (fst item) (commands self)) as [info|] eqn:Hl.
  - assert (Hk : known (fst item) (commands self) = true)
      by (apply lookup_known; congruence).
    now rewrite Hk.
  - destruct (known (fst item) (commands self)) eqn:Hk; [|reflexivity].
    apply lookup_known in Hk. congruence.
Qed.

Lemma entries_run (its : list (str * json)) :
  for_each (print_command_entry self) its
  = (flat_map (fun cmd => fst (print_command_entry self (cmd, JNull)))
       (map fst its), inr tt).
Proof.
  induction its as [|it its IH]; [reflexivity|].
  cbn [for_each map flat_map]. rewrite IH, entry_depends_on_key.
  reflexivity.
Qed.

Lemma entries_length (its : list (str * json)) :
  length (flat_map (fun cmd => fst (print_command_entry self (cmd, JNull)))
            (map fst its))
  = 2 * length (filter (fun kv => known (fst kv) (commands self)) its).
Proof.
  induction its as [|it its IH]; [reflexivity|].
  cbn [map flat_map filter]. rewrite length_app, IH.
  rewrite (entry_length (fst it, JNull)). cbn [fst].
  destruct (known (fst it) (commands self)); simpl; lia.
Qed.

Lemma print_commands_object (d : list (str * json)) :
  print_commands self (JDict d)
  = (([NL] ++ BOLD ++ lit "Available Commands:" ++ END)
     :: times 61 50
     :: flat_map (fun cmd => fst (print_command_entry self (cmd, JNull)))
          (map fst d)
     ++ [times 61 50], inr tt).
Proof.
  unfold print_commands, Py.items. rewrite bind_lift_inr, entries_run.
  reflexivity.
Qed.

End RenderFacts.

(** X13. [print_commands] renders the keys of the server's command list and
    nothing else of it. For an object it returns normally and prints the
    two header lines, two lines for each key that is in the client's own
    mapping (keys the client does not know are skipped) and the closing
    rule; the values the server attached to the keys play no part: two
    objects with the same keys in the same order print the same. For a
    value that is not an object it prints the two header lines and raises
    AttributeError. *)
Theorem print_commands_uses_keys_only :
  forall (B : PyBuiltins) (self : Control.DroneController),
    (forall d : list (str * json),
        snd (Control.print_commands self (JDict d)) = inr tt
        /\ length (fst (Control.print_commands self (JDict d)))
           = 3 + 2 * length (filter (fun kv => known (fst kv) (commands self))
                               d))
    /\ (forall d d' : list (str * json),
           map fst d = map fst d' ->
           Control.print_commands self (JDict d)
           = Control.print_commands self (JDict d'))
    /\ (forall v : json,
           Trace.not_object v ->
           Control.print_commands self v
           = ([ [NL] ++ Colors.BOLD ++ lit "Available Commands:"
                ++ Colors.END;
                times 61 50 ],
              inl (Exn AttributeError (wording AttributeError)))).
Proof.
  intros B self. split; [|split].
  - intros d. rewrite print_commands_object. split; [reflexivity|].
    cbn [fst length]. rewrite length_app, entries_length. simpl. lia.
  - intros d d' E. rewrite !print_commands_object. now rewrite E.
  - intros v Hv. destruct v; try destruct Hv; reflexivity.
Qed.

Section DebugFacts.
Import Colors Control.
Context {B : PyBuiltins}.
Local Open Scope out_scope.

(** A coordinate that is missing reads as the text N/A, which the
    fixed-point format refuses. *)
Lemma print_fixed_missing (label : string) (obj : list (str * json))
    (key : string) (prec : nat) (unit_text : str) :
  Py.assoc (lit key) obj = None ->
  print_fixed label (JDict obj) key prec unit_text
  = ([], inl (Exn ValueError (wording ValueError))).
Proof.
  intros H. unfold print_fixed, Py.get. rewrite H, bind_lift_inr.
  reflexivity.
Qed.

Lemma if_present_absent (k : string) (d : list (str * json))
    (body : json -> Out unit) :
  Py.assoc (lit k) d = None -> if_present k (JDict d) body = ret tt.
Proof. intros H. now rewrite if_present_dict, H. Qed.

Lemma bind_ret_tt (m : Out unit) : (ret tt ;; m) = m.
Proof. unfold OutMonad.bind, ret. now destruct m. Qed.

Lemma debug_without_sections (dd : list (str * json)) :
  Trace.lacks dd Trace.debug_sections = true ->
  print_debug_data (JDict dd) = ret tt.
Proof.
  unfold Trace.lacks, Trace.debug_sections. cbn [forallb].
  rewrite <- !assoc_lookup. intros H.
  repeat match type of H with
         | (_ && _) = true => apply andb_true_iff in H;
                              let H1 := fresh "Hk" in destruct H as [H1 H]
         end.
  repeat match goal with
         | Hk : match Py.assoc ?k dd with Some _ => false | None => true end
                = true |- _ =>
             let E := fresh "E" in
             destruct (Py.assoc k dd) eqn:E; [discriminate Hk|]; clear Hk
         end.
  unfold print_debug_data.
  rewrite !if_present_absent by assumption.
  now rewrite !bind_ret_tt.
Qed.

End DebugFacts.

(** X14. A debug message with a missing coordinate is reported as a parse
    failure. When a decoded object whose echo can be printed has type debug
    and its [data] holds a [world_position] object without the key [x], the
    handler prints the decoded object, the debug line and the heading of
    the section, and then,
    because the stand-in text N/A cannot be formatted as a fixed-point
    number (ValueError), the failure line and the raw message; none of the
    coordinates is printed, and the handler returns normally. *)
Theorem debug_missing_coordinate_is_parse_failure :
  forall (B : PyBuiltins) (self : Control.DroneController) (line : str)
         (d dd pos : list (str * json)),
    json_loads line = inr (JDict d) ->
    Control.echo_printable (JDict d) ->
    Control.field d "type" (JStr (lit "unknown")) = JStr (lit "debug") ->
    Control.field d "data" (JDict []) = JDict dd ->
    Py.assoc (lit "world_position") dd = Some (JDict pos) ->
    Py.assoc (lit "x") pos = None ->
    Control.handle_server_message self line
    = (Control.echo (JDict d)
       ++ [ Colors.MAGENTA ++ Colors.INFO ++ Colors.END
            ++ lit " Debug info: " ++ Colors.BOLD
            ++ Py.text (Control.field d "message" (JStr [])) ++ Colors.END;
            lit "  " ++ Colors.BOLD ++ lit "World Position:" ++ Colors.END;
            Colors.RED ++ Colors.CROSS ++ Colors.END
            ++ lit " Failed to parse message: " ++ wording ValueError;
            lit "Raw message: " ++ line ],
       inr tt).
Proof.
  intros B self line d dd pos H Hp Ht Hd Hw Hx.
  assert (Hmore : Control.print_debug_data (JDict dd)
                  = ([ lit "  " ++ Colors.BOLD ++ lit "World Position:"
                       ++ Colors.END ],
                     inl (Exn ValueError (wording ValueError)))).
  { unfold Control.print_debug_data. rewrite if_present_dict, Hw.
    unfold Control.print_xyz. rewrite print_fixed_missing by exact Hx.
    reflexivity. }
  rewrite (@handle_branch B self line d _
             (Control.print_debug_data (JDict dd)) H Hp)
    by (rewrite Ht, Hd; reflexivity).
  unfold Control.guarded. rewrite Hmore. reflexivity.
Qed.

Lemma debug_missing_coordinate_is_parse_failure_witness :
  let pos := [ (lit "y", JInt 2); (lit "z", JInt 3) ] in
  let dd := [ (lit "world_position", JDict pos) ] in
  let d := [ (lit "type", JStr (lit "debug")); (lit "data", JDict dd) ] in
  let line := lit "debug message" in
  let B := Script.builtins [ (line, JDict d) ] in
  let self := Control.init (lit "localhost") 8888 in
  json_loads line = inr (JDict d)
  /\ Control.echo_printable (JDict d)
  /\ Control.field d "type" (JStr (lit "unknown")) = JStr (lit "debug")
  /\ Control.field d "data" (JDict []) = JDict dd
  /\ Py.assoc (lit "world_position") dd = Some (JDict pos)
  /\ Py.assoc (lit "x") pos = None
  /\ Control.handle_server_message self line
     = (Control.echo (JDict d)
        ++ [ Colors.MAGENTA ++ Colors.INFO ++ Colors.END
             ++ lit " Debug info: " ++ Colors.BOLD
             ++ Py.text (Control.field d "message" (JStr [])) ++ Colors.END;
             lit "  " ++ Colors.BOLD ++ lit "World Position:" ++ Colors.END;
             Colors.RED ++ Colors.CROSS ++ Colors.END
             ++ lit " Failed to parse message: " ++ wording ValueError;
             lit "Raw message: " ++ line ],
        inr tt).
Proof.
  intros pos dd d line B self.
  assert (H1 : json_loads line = inr (JDict d)) by reflexivity.
  assert (H2 : Control.field d "type" (JStr (lit "unknown"))
               = JStr (lit "debug")) by reflexivity.
  assert (H3 : Control.field d "data" (JDict []) = JDict dd) by reflexivity.
  assert (H4 : Py.assoc (lit "world_position") dd = Some (JDict pos))
    by reflexivity.
  assert (H5 : Py.assoc (lit "x") pos = None) by reflexivity.
  assert (Hp : Control.echo_printable (JDict d))
    by (vm_compute; discriminate).
  split; [exact H1|]. split; [exact Hp|]. split; [exact H2|].
  split; [exact H3|]. split; [exact H4|]. split; [exact H5|].
  exact (@debug_missing_coordinate_is_parse_failure B self line d dd pos
           H1 Hp H2 H3 H4 H5).
Defined.

(** X15. A debug message whose echo can be printed and that has none of the
    sections [print_debug_data] knows (world_position, orientation,
    velocity, imu, gnss, topics), in particular one without [data], prints
    the decoded object and the debug line only, and the handler returns
    normally. *)
Theorem debug_without_sections_prints_banner :
  forall (B : PyBuiltins) (self : Control.DroneController) (line : str)
         (d dd : list (str * json)),
    json_loads line = inr (JDict d) ->
    Control.echo_printable (JDict d) ->
    Control.field d "type" (JStr (lit "unknown")) = JStr (lit "debug") ->
    Control.field d "data" (JDict []) = JDict dd ->
    Trace.lacks dd Trace.debug_sections = true ->
    Control.handle_server_message self line
    = (Control.echo (JDict d)
       ++ [ Colors.MAGENTA ++ Colors.INFO ++ Colors.END
            ++ lit " Debug info: " ++ Colors.BOLD
            ++ Py.text (Control.field d "message" (JStr [])) ++ Colors.END ],
       inr tt).
Proof.
  intros B self line d dd H Hp Ht Hd Hl.
  rewrite (@handle_branch B self line d _
             (Control.print_debug_data (JDict dd)) H Hp)
    by (rewrite Ht, Hd; reflexivity).
  unfold Control.guarded. rewrite debug_without_sections by exact Hl.
  reflexivity.
Qed.

Lemma debug_without_sections_prints_banner_witness :
  let d := [ (lit "type", JStr (lit "debug"));
             (lit "message", JStr (lit "idle")) ] in
  let line := lit "debug message" in
  let B := Script.builtins [ (line, JDict d) ] in
  let self := Control.init (lit "localhost") 8888 in
  json_loads line = inr (JDict d)
  /\ Control.echo_printable (JDict d)
  /\ Control.field d "type" (JStr (lit "unknown")) = JStr (lit "debug")
  /\ Control.field d "data" (JDict []) = JDict []
  /\ Trace.lacks [] Trace.debug_sections = true
  /\ Control.handle_server_message self line
     = (Control.echo (JDict d)
        ++ [ Colors.MAGENTA ++ Colors.INFO ++ Colors.END
             ++ lit " Debug info: " ++ Colors.BOLD
             ++ Py.text (Control.field d "message" (JStr []))
             ++ Colors.END ],
        inr tt).
Proof.
  intros d line B self.
  assert (H1 : json_loads line = inr (JDict d)) by reflexivity.
  assert (H2 : Control.field d "type" (JStr (lit "unknown"))
               = JStr (lit "debug")) by reflexivity.
  assert (H3 : Control.field d "data" (JDict []) = JDict []) by reflexivity.
  assert (H4 : Trace.lacks [] Trace.debug_sections = true) by reflexivity.
  assert (Hp : Control.echo_printable (JDict d))
    by (vm_compute; discriminate).
  split; [exact H1|]. split; [exact Hp|]. split; [exact H2|].
  split; [exact H3|]. split; [exact H4|].
  exact (@debug_without_sections_prints_banner B self line d [] H1 Hp H2 H3
           H4).
Defined.

(** X16. A line that is valid JSON but not an object (a list, a number, a
    string, a boolean, null) is reported as a parse failure: the handler
    prints the failure line for the AttributeError that [data.get] raises
    and the raw message, prints no decoded object, and returns normally. *)
Theorem non_object_json_is_parse_failure :
  forall (B : PyBuiltins) (self : Control.DroneController) (line : str)
         (v : json),
    json_loads line = inr v ->
    Trace.not_object v ->
    Control.handle_server_message self line
    = ([ Colors.RED ++ Colors.CROSS ++ Colors.END
         ++ lit " Failed to parse message: " ++ wording AttributeError;
         lit "Raw message: " ++ line ],
       inr tt).
Proof.
  intros B self line v H Hv.
  unfold Control.handle_server_message, Control.handle_body.
  rewrite H, bind_lift_inr.
  destruct v; try destruct Hv; reflexivity.
Qed.

Lemma non_object_json_is_parse_failure_witness :
  let line := lit "[1, 2]" in
  let v := JList [JInt 1; JInt 2] in
  let B := Script.builtins [ (line, v) ] in
  let self := Control.init (lit "localhost") 8888 in
  json_loads line = inr v
  /\ Trace.not_object v
  /\ Control.handle_server_message self line
     = ([ Colors.RED ++ Colors.CROSS ++ Colors.END
          ++ lit " Failed to parse message: " ++ wording AttributeError;
          lit "Raw message: " ++ line ],
        inr tt).
Proof.
  intros line v B self.
  assert (H1 : json_loads line = inr v) by reflexivity.
  assert (H2 : Trace.not_object v) by exact I.
  split; [exact H1|]. split; [exact H2|].
  exact (@non_object_json_is_parse_failure B self line v H1 H2).
Defined.

(** ** The handler of [drone_controller.py] *)

Lemma startswith_split (p s : str) :
  startswith p s = true -> s = p ++ skipn (length p) s.
Proof.
  revert s. induction p as [|a p IH]; intros s H; [reflexivity|].
  destruct s as [|b s]; [discriminate|]. cbn [startswith] in H.
  apply andb_true_iff in H. destruct H as [Hab Hp].
  apply N.eqb_eq in Hab. subst b. cbn [length skipn app].
  now rewrite <- (IH s Hp).
Qed.

(** X17. The handler of [drone_controller.py] prints exactly one line for
    every message and returns normally, and the line is fixed by the prefix
    of the message alone, whatever the order of the tests: a message that
    starts with STATUS: is printed after the tag [STATUS] without these
    seven characters; a message that starts with the greeting of the
    server, with Command: or with Commands: is printed whole after the tag
    [SERVER], [CMD] or [HELP]; and a message with none of the four prefixes
    is printed whole after the tag [MSG]. *)
Theorem plain_handler_prints_one_line :
  forall (c : Plain.DroneController) (m rest : str),
    let prints (tag body : str) :=
      Plain.handle_server_message c m = ([tag ++ body], inr tt) in
    (m = lit "STATUS:" ++ rest -> prints (lit "[STATUS] ") rest)
    /\ (m = lit "FCU Command Server Connected!" ++ rest ->
        prints (lit "[SERVER] ") m)
    /\ (m = lit "Command:" ++ rest -> prints (lit "[CMD] ") m)
    /\ (m = lit "Commands:" ++ rest -> prints (lit "[HELP] ") m)
    /\ (forallb (fun p => negb (startswith (lit p) m)) Trace.plain_prefixes
        = true ->
        prints (lit "[MSG] ") m).
Proof.
  intros c m rest prints. unfold prints.
  split; [|split; [|split; [|split]]]; intros H.
  - subst m. vm_compute. reflexivity.
  - subst m. vm_compute. reflexivity.
  - subst m. vm_compute. reflexivity.
  - subst m. vm_compute. reflexivity.
  - unfold Trace.plain_prefixes in H. cbn [forallb] in H.
    rewrite !andb_true_iff, !negb_true_iff in H.
    destruct H as (H1 & H2 & H3 & H4 & _).
    unfold Plain.handle_server_message. now rewrite H1, H2, H3, H4.
Qed.

Lemma plain_handler_prints_one_line_witness :
  let c := Plain.init (lit "localhost") 8888 in
  let m := lit "STATUS:armed" in
  m = lit "STATUS:" ++ lit "armed"
  /\ Plain.handle_server_message c m = ([lit "[STATUS] armed"], inr tt).
Proof.
  intros c m.
  assert (H : m = lit "STATUS:" ++ lit "armed") by reflexivity.
  split; [exact H|].
  exact (proj1 (@plain_handler_prints_one_line c m (lit "armed")) H).
Defined.

(** ** Teardown when the close fails *)

(** X18. A failing [close] is swallowed: on a controller with a connection,
    when the quit line is written and [close] then returns or raises,
    [disconnect] returns normally all the same, with the write of the quit
    line, the call of [close] and the notice in the log and the controller
    marked as disconnected, in both clients. *)
Theorem close_failure_is_swallowed :
  forall (World : Type) (P : Platform World) (B : PyBuiltins)
         (s : Session World CmdInfo) (t : Session World str)
         (rs rt : exn + unit) (ws1 ws2 wt1 wt2 : World),
    Engine.has_connection (self s) = true ->
    Engine.has_connection (self t) = true ->
    sock_send Engine.quit_line (world s) = (inr tt, ws1) ->
    sock_close ws1 = (rs, ws2) ->
    sock_send Engine.quit_line (world t) = (inr tt, wt1) ->
    sock_close wt1 = (rt, wt2) ->
    (exists s', Control.disconnect s = (s', inr tt)
                /\ connected (self s') = false
                /\ world s' = ws2
                /\ log s' = log s ++ [ EvSend Engine.quit_line; EvClose;
                                       EvPrint Control.disconnected_notice ])
    /\ (exists t', Plain.disconnect t = (t', inr tt)
                   /\ connected (self t') = false
                   /\ world t' = wt2
                   /\ log t' = log t ++ [ EvSend Engine.quit_line; EvClose;
                                          EvPrint Plain.disconnected_notice ]).
Proof.
  intros World P B s t rs rt ws1 ws2 wt1 wt2 Hs Ht Hss Hcs Hst Hct. split.
  - eexists. split; [apply (disconnect_sent _ s Hs Hss Hcs)|].
    split; [reflexivity|]. split; [reflexivity|].
    cbn [Engine.closed_state log record with_world with_self].
    now rewrite <- !app_assoc.
  - eexists. split; [apply (disconnect_sent _ t Ht Hst Hct)|].
    split; [reflexivity|]. split; [reflexivity|].
    cbn [Engine.closed_state log record with_world with_self].
    now rewrite <- !app_assoc.
Qed.

Lemma close_failure_is_swallowed_witness :
  let B := Script.builtins [] in
  let bad := Exn OSError (lit "[Errno 9] Bad file descriptor") in
  let w := {| Script.connects := []; Script.sends := [];
              Script.closes := [inl bad]; Script.recvs := [];
              Script.inputs := [] |} in
  let s := Script.session true (Some SocketObject) w in
  let t := Script.plain_session true (Some SocketObject) w in
  Engine.has_connection (self s) = true
  /\ Engine.has_connection (self t) = true
  /\ sock_send Engine.quit_line (world s) = (inr tt, w)
  /\ sock_close w = (inl bad, Script.quiet)
  /\ (exists s', Control.disconnect s = (s', inr tt)
                 /\ connected (self s') = false
                 /\ world s' = Script.quiet
                 /\ log s' = log s ++ [ EvSend Engine.quit_line; EvClose;
                                        EvPrint Control.disconnected_notice ])
  /\ (exists t', Plain.disconnect t = (t', inr tt)
                 /\ connected (self t') = false
                 /\ world t' = Script.quiet
                 /\ log t' = log t ++ [ EvSend Engine.quit_line; EvClose;
                                        EvPrint Plain.disconnected_notice ]).
Proof.
  intros B bad w s t.
  assert (H1 : Engine.has_connection (self s) = true) by reflexivity.
  assert (H2 : Engine.has_connection (self t) = true) by reflexivity.
  assert (H3 : sock_send Engine.quit_line (world s) = (inr tt, w))
    by reflexivity.
  assert (H4 : sock_close w = (inl bad, Script.quiet)) by reflexivity.
  split; [exact H1|]. split; [exact H2|]. split; [exact H3|].
  split; [exact H4|].
  exact (@close_failure_is_swallowed Script.World Script.platform B s t
           (inl bad) (inl bad) w Script.quiet w Script.quiet
           H1 H2 H3 H4 H3 H4).
Defined.

(** ** SIGINT at the prompt *)

Section PromptFacts.
Import Trace.
Context {World Desc : Type} {P : Platform World} {B : PyBuiltins}.

(** [disconnect] after a line has been printed, as [signal_handler] calls
    it: what it leaves, writes and prints, and that a second call finds
    nothing to do. *)
Lemma shutdown_trace (notice banner : str) (s : Session World Desc) :
  exists s' evs,
    Engine.disconnect notice (record (EvPrint banner) s) = (s', inr tt)
    /\ self s' = shut_down (self s)
    /\ log s' = log s ++ EvPrint banner :: evs
    /\ writes evs = farewell (self s)
    /\ Framing.printed_lines evs
       = (if Engine.has_connection (self s) then [notice] else [])
    /\ Engine.disconnect notice s' = (s', inr tt).
Proof.
  set (s1 := record (EvPrint banner) s).
  unfold shut_down, farewell.
  change (self s) with (self s1).
  destruct (Engine.has_connection (self s1)) eqn:H.
  - destruct (sock_send Engine.quit_line (world s1)) as [[e|[]] w1] eqn:Hs.
    + exists (Engine.unclosed_state notice w1 s1).
      exists [EvSend Engine.quit_line; EvPrint notice].
      split; [exact (disconnect_send_fails notice s1 H Hs)|].
      split; [reflexivity|]. split.
      { unfold Engine.unclosed_state, s1.
        cbn [log record with_self with_world].
        now rewrite <- !app_assoc. }
      split; [reflexivity|]. split; [reflexivity|].
      apply disconnect_idle. reflexivity.
    + destruct (sock_close w1) as [r w2] eqn:Hc.
      exists (Engine.closed_state notice w1 w2 s1).
      exists [EvSend Engine.quit_line; EvClose; EvPrint notice].
      split; [exact (disconnect_sent notice s1 H Hs Hc)|].
      split; [reflexivity|]. split.
      { unfold Engine.closed_state, s1.
        cbn [log record with_self with_world].
        now rewrite <- !app_assoc. }
      split; [reflexivity|]. split; [reflexivity|].
      apply disconnect_idle. reflexivity.
  - exists s1, []. split; [now apply disconnect_idle|].
    split; [reflexivity|]. split; [reflexivity|].
    split; [reflexivity|]. split; [reflexivity|].
    now apply disconnect_idle.
Qed.

End PromptFacts.

(** X19. SIGINT at the prompt ends the interactive loop of either client by
    [SystemExit], not by its KeyboardInterrupt clause. When the signal
    arrives while [input] waits, [signal_handler] prints its line and runs
    [disconnect], and the loop is left with exit status 0: the controller
    is marked as not connected if it had a connection; after the prompt
    and the line of the handler the log holds what [disconnect] did (the
    quit line as the only write, its notice as the only printed line, both
    only if there was a connection), so the hint of [control.py] is not
    printed; and the [disconnect] of the [finally] clause of [run] finds
    nothing left to do. *)
Theorem interrupt_at_prompt :
  forall (World : Type) (P : Platform World) (B : PyBuiltins) (n : nat)
         (s : Session World CmdInfo) (t : Session World str)
         (ws wt : World),
    connected (self s) && running (self s) = true ->
    console_input Control.prompt (world s) = (InputSignal, ws) ->
    connected (self t) && running (self t) = true ->
    console_input Plain.prompt (world t) = (InputSignal, wt) ->
    (exists s' evs,
        Control.interactive_loop (S n) s = (s', inl (SystemExit 0))
        /\ self s' = Trace.shut_down (self s)
        /\ log s'
           = log s
             ++ EvInput Control.prompt
             :: EvPrint ([NL] ++ Colors.YELLOW ++ lit "Shutting down..."
                         ++ Colors.END)
             :: evs
        /\ Trace.writes evs = Trace.farewell (self s)
        /\ Framing.printed_lines evs
           = (if Engine.has_connection (self s)
              then [Control.disconnected_notice] else [])
        /\ Control.disconnect s' = (s', inr tt))
    /\ (exists t' evs,
           Plain.interactive_loop (S n) t = (t', inl (SystemExit 0))
           /\ self t' = Trace.shut_down (self t)
           /\ log t'
              = log t
                ++ EvInput Plain.prompt
                :: EvPrint ([NL] ++ lit "Shutting down...")
                :: evs
           /\ Trace.writes evs = Trace.farewell (self t)
           /\ Framing.printed_lines evs
              = (if Engine.has_connection (self t)
                 then [Plain.disconnected_notice] else [])
           /\ Plain.disconnect t' = (t', inr tt)).
Proof.
  intros World P B n s t ws wt Hcs His Hct Hit. split.
  - cbn [Control.interactive_loop]. rewrite Hcs.
    unfold Control.interactive_pass, read_input. rewrite His.
    unfold Control.interrupted, Control.signal_handler, chain, say,
      Control.disconnect.
    set (s1 := with_world ws (record (EvInput Control.prompt) s)).
    destruct (shutdown_trace Control.disconnected_notice
                ([NL] ++ Colors.YELLOW ++ lit "Shutting down..."
                 ++ Colors.END) s1)
      as (s' & evs & Hd & Hself & Hlog & Hw & Hp & Hd2).
    rewrite Hd. exists s', evs. split; [reflexivity|].
    split; [exact Hself|]. split.
    { rewrite Hlog. subst s1. cbn [log record with_world].
      now rewrite <- app_assoc. }
    split; [exact Hw|]. split; [exact Hp | exact Hd2].
  - cbn [Plain.interactive_loop]. rewrite Hct.
    unfold Plain.interactive_pass, read_input. rewrite Hit.
    unfold Plain.interrupted, Plain.signal_handler, chain, say,
      Plain.disconnect.
    set (t1 := with_world wt (record (EvInput Plain.prompt) t)).
    destruct (shutdown_trace Plain.disconnected_notice
                ([NL] ++ lit "Shutting down...") t1)
      as (t' & evs & Hd & Hself & Hlog & Hw & Hp & Hd2).
    rewrite Hd. exists t', evs. split; [reflexivity|].
    split; [exact Hself|]. split.
    { rewrite Hlog. subst t1. cbn [log record with_world].
      now rewrite <- app_assoc. }
    split; [exact Hw|]. split; [exact Hp | exact Hd2].
Qed.

Lemma interrupt_at_prompt_witness :
  let B := Script.builtins [] in
  let w := {| Script.connects := []; Script.sends := []; Script.closes := [];
              Script.recvs := []; Script.inputs := [InputSignal] |} in
  let s := Script.session true (Some SocketObject) w in
  let t := Script.plain_session true (Some SocketObject) w in
  connected (self s) && running (self s) = true
  /\ console_input Control.prompt (world s) = (InputSignal, Script.quiet)
  /\ connected (self t) && running (self t) = true
  /\ console_input Plain.prompt (world t) = (InputSignal, Script.quiet)
  /\ (exists s' evs,
         Control.interactive_loop 3 s = (s', inl (SystemExit 0))
         /\ self s' = Trace.shut_down (self s)
         /\ log s'
            = log s
              ++ EvInput Control.prompt
              :: EvPrint ([NL] ++ Colors.YELLOW ++ lit "Shutting down..."
                          ++ Colors.END)
              :: evs
         /\ Trace.writes evs = Trace.farewell (self s)
         /\ Framing.printed_lines evs
            = (if Engine.has_connection (self s)
               then [Control.disconnected_notice] else [])
         /\ Control.disconnect s' = (s', inr tt))
  /\ (exists t' evs,
         Plain.interactive_loop 3 t = (t', inl (SystemExit 0))
         /\ self t' = Trace.shut_down (self t)
         /\ log t'
            = log t
              ++ EvInput Plain.prompt
              :: EvPrint ([NL] ++ lit "Shutting down...")
              :: evs
         /\ Trace.writes evs = Trace.farewell (self t)
         /\ Framing.printed_lines evs
            = (if Engine.has_connection (self t)
               then [Plain.disconnected_notice] else [])
         /\ Plain.disconnect t' = (t', inr tt)).
Proof.
  intros B w s t.
  assert (H1 : connected (self s) && running (self s) = true) by reflexivity.
  assert (H2 : console_input Control.prompt (world s)
               = (InputSignal, Script.quiet)) by reflexivity.
  assert (H3 : connected (self t) && running (self t) = true) by reflexivity.
  assert (H4 : console_input Plain.prompt (world t)
               = (InputSignal, Script.quiet)) by reflexivity.
  split; [exact H1|]. split; [exact H2|]. split; [exact H3|].
  split; [exact H4|].
  exact (@interrupt_at_prompt Script.World Script.platform B 2 s t
           Script.quiet Script.quiet H1 H2 H3 H4).
Defined.

(** ** Timeouts and undecodable chunks in the receive loop *)

Section PollingFacts.
Context {Desc : Type} {B : PyBuiltins}.
Variable h : Controller Desc -> str -> Out unit.
Variable notice : exn -> str.

Lemma read_timeout_is_benign_step (fuel : nat) (buffer : str)
    (s : Session Script.World Desc) (w : Script.World) :
  connected (self s) && running (self s) = true ->
  socket (self s) = Some SocketObject ->
  sock_recv 1024 (world s) = (inl Script.timeout, w) ->
  Engine.receive_loop h notice (S fuel) buffer s
  = Engine.receive_loop h notice fuel buffer
      (with_world w (record (EvRecv 1024) s))
  /\ log (with_world w (record (EvRecv 1024) s)) = log s ++ [EvRecv 1024].
Proof.
  intros Hc Hk Hr. split; [|reflexivity].
  cbn [Engine.receive_loop]. rewrite Hc.
  now rewrite (receive_try_raises h buffer s Hk Hr).
Qed.

Lemma timeouts_keep_polling (n : nat) :
  forall (rest : list (exn + list byte)) (buffer : str)
         (s : Session Script.World Desc),
    connected (self s) && running (self s) = true ->
    socket (self s) = Some SocketObject ->
    Script.recvs (world s) = repeat (inl Script.timeout) n ++ rest ->
    exists s',
      Engine.receive_loop h notice n buffer s = (s', Polling buffer)
      /\ self s' = self s
      /\ Script.recvs (world s') = rest
      /\ log s' = log s ++ repeat (EvRecv 1024) n.
Proof.
  induction n as [|n IH]; intros rest buffer s Hc Hk Hr.
  - exists s. cbn [repeat app] in *. rewrite app_nil_r. now repeat split.
  - cbn [repeat app] in Hr.
    destruct (script_recv _ 1024 Hr) as (w & Hrecv & Hw).
    destruct (@read_timeout_is_benign_step n buffer s w Hc Hk Hrecv)
      as [Hstep Hlog].
    set (s1 := with_world w (record (EvRecv 1024) s)) in *.
    destruct (IH rest buffer s1) as (s' & Hrun & Hself & Hrest & Hl);
      [exact Hc | exact Hk | exact Hw |].
    exists s'. rewrite Hstep. split; [exact Hrun|]. split; [exact Hself|].
    split; [exact Hrest|]. rewrite Hl, Hlog. cbn [repeat].
    rewrite <- app_assoc. reflexivity.
Qed.

End PollingFacts.

(** X20. Any number of read timeouts in a row leaves the receive loop
    running with its buffer intact: after as many passes as timeouts the
    loop is still polling, the partial line in the buffer is the one it
    had, the controller is unchanged, and the log has gained the reads and
    nothing else (no printed line), for every handler. *)
Theorem timeouts_keep_the_buffer :
  forall (Desc : Type) (B : PyBuiltins)
         (h : Controller Desc -> str -> Out unit) (notice : exn -> str)
         (n : nat) (rest : list (exn + list byte)) (buffer : str)
         (s : Session Script.World Desc),
    connected (self s) && running (self s) = true ->
    socket (self s) = Some SocketObject ->
    Script.recvs (world s) = repeat (inl Script.timeout) n ++ rest ->
    exists s',
      Engine.receive_loop h notice n buffer s = (s', Polling buffer)
      /\ self s' = self s
      /\ Script.recvs (world s') = rest
      /\ log s' = log s ++ repeat (EvRecv 1024) n.
Proof. intros. now apply timeouts_keep_polling. Qed.

Lemma timeouts_keep_the_buffer_witness :
  let B := Script.builtins [] in
  let rest := [inr [x6f; x6b; x0a]] in
  let w := {| Script.connects := []; Script.sends := []; Script.closes := [];
              Script.recvs := repeat (inl Script.timeout) 4 ++ rest;
              Script.inputs := [] |} in
  let s := Script.session true (Some SocketObject) w in
  connected (self s) && running (self s) = true
  /\ socket (self s) = Some SocketObject
  /\ Script.recvs (world s) = repeat (inl Script.timeout) 4 ++ rest
  /\ exists s',
      Engine.receive_loop Control.handle_server_message
        Control.receive_error_notice 4 (lit "part") s
      = (s', Polling (lit "part"))
      /\ self s' = self s
      /\ Script.recvs (world s') = rest
      /\ log s' = log s ++ repeat (EvRecv 1024) 4.
Proof.
  intros B rest w s.
  assert (H1 : connected (self s) && running (self s) = true) by reflexivity.
  assert (H2 : socket (self s) = Some SocketObject) by reflexivity.
  assert (H3 : Script.recvs (world s)
               = repeat (inl Script.timeout) 4 ++ rest) by reflexivity.
  split; [exact H1|]. split; [exact H2|]. split; [exact H3|].
  exact (@timeouts_keep_the_buffer CmdInfo B Control.handle_server_message
           Control.receive_error_notice 4 rest (lit "part") s H1 H2 H3).
Defined.

(** X21. A chunk that is not valid UTF-8 on its own ends the receive loop.
    Each chunk is decoded by itself, so when the bytes of one read do not
    decode (as when a read ends inside a multi-byte character), the loop
    prints a receive-error line and returns; the text in the buffer is
    dropped without reaching the handler, and the controller is left as it
    was, still counting as connected. This is the loop of both clients. *)
Theorem undecodable_chunk_ends_loop :
  forall (World Desc : Type) (P : Platform World) (B : PyBuiltins)
         (h : Controller Desc -> str -> Out unit) (notice : exn -> str)
         (fuel : nat) (buffer : str) (s : Session World Desc)
         (raw : list byte) (w : World),
    connected (self s) && running (self s) = true ->
    socket (self s) = Some SocketObject ->
    sock_recv 1024 (world s) = (inr raw, w) ->
    utf8_decode raw = None ->
    Engine.receive_loop h notice (S fuel) buffer s
    = (record (EvPrint (notice (Exn UnicodeError (wording UnicodeError))))
         (with_world w (record (EvRecv 1024) s)),
       Returned).
Proof.
  intros World Desc P B h notice fuel buffer s raw w Hc Hk Hr Hd.
  assert (Hconn : connected (self s) = true)
    by (now destruct (connected (self s))).
  cbn [Engine.receive_loop]. rewrite Hc.
  unfold Engine.receive_try, chain. rewrite (recv_step s Hk Hr).
  unfold decode. rewrite Hd. unfold Py.error, Engine.receive_except.
  cbn [is_class exn_class self with_world record]. now rewrite Hconn.
Qed.

Lemma undecodable_chunk_ends_loop_witness :
  let B := Script.builtins [] in
  let w := {| Script.connects := []; Script.sends := []; Script.closes := [];
              Script.recvs := [inr [xc3]; inr [xa9; x0a]];
              Script.inputs := [] |} in
  let w' := {| Script.connects := []; Script.sends := []; Script.closes := [];
               Script.recvs := [inr [xa9; x0a]]; Script.inputs := [] |} in
  let s := Script.session true (Some SocketObject) w in
  connected (self s) && running (self s) = true
  /\ socket (self s) = Some SocketObject
  /\ sock_recv 1024 (world s) = (inr [xc3], w')
  /\ utf8_decode [xc3] = None
  /\ Engine.receive_loop Control.handle_server_message
       Control.receive_error_notice 2 (lit "caf") s
     = (record (EvPrint (Control.receive_error_notice
                           (Exn UnicodeError (wording UnicodeError))))
          (with_world w' (record (EvRecv 1024) s)),
        Returned).
Proof.
  intros B w w' s.
  assert (H1 : connected (self s) && running (self s) = true) by reflexivity.
  assert (H2 : socket (self s) = Some SocketObject) by reflexivity.
  assert (H3 : sock_recv 1024 (world s) = (inr [xc3], w')) by reflexivity.
  assert (H4 : utf8_decode [xc3] = None) by reflexivity.
  split; [exact H1|]. split; [exact H2|]. split; [exact H3|].
  split; [exact H4|].
  exact (@undecodable_chunk_ends_loop Script.World CmdInfo Script.platform B
           Control.handle_server_message Control.receive_error_notice
           1 (lit "caf") s [xc3] w' H1 H2 H3 H4).
Defined.

(** X22. How a command acknowledgement is rendered depends on its [data].
    For a decoded object of type command whose echo can be printed, after
    the decoded object and the line for the executed command: when [data] is an object with the key
    [command_id] one more line shows its value; when [data] is an object
    without that key, or is missing, nothing more is printed; when [data]
    is a number, a boolean or null, the membership test raises TypeError
    and the failure line and the raw message follow. In every case the
    handler returns normally. *)
Theorem command_ack_rendering :
  forall (B : PyBuiltins) (self : Control.DroneController) (line : str)
         (d : list (str * json)),
    json_loads line = inr (JDict d) ->
    Control.echo_printable (JDict d) ->
    Control.field d "type" (JStr (lit "unknown")) = JStr (lit "command") ->
    let banner :=
      Colors.GREEN ++ Colors.CHECK ++ Colors.END ++ lit " Command executed: "
      ++ Colors.BOLD ++ Py.text (Control.field d "message" (JStr []))
      ++ Colors.END in
    let out := Control.handle_server_message self line in
    (forall (dd : list (str * json)) (v : json),
        Control.field d "data" (JDict []) = JDict dd ->
        Py.assoc (lit "command_id") dd = Some v ->
        out = (Control.echo (JDict d)
               ++ [ banner;
                    lit "  Command ID: " ++ Colors.CYAN ++ Py.text v
                    ++ Colors.END ], inr tt))
    /\ (forall dd : list (str * json),
           Control.field d "data" (JDict []) = JDict dd ->
           Py.assoc (lit "command_id") dd = None ->
           out = (Control.echo (JDict d) ++ [banner], inr tt))
    /\ (forall v : json,
           Control.field d "data" (JDict []) = v ->
           match v with
           | JNull | JBool _ | JInt _ | JFloat _ => True
           | _ => False
           end ->
           out = (Control.echo (JDict d)
                  ++ [ banner;
                       Colors.RED ++ Colors.CROSS ++ Colors.END
                       ++ lit " Failed to parse message: "
                       ++ wording TypeError;
                       lit "Raw message: " ++ line ], inr tt)).
Proof.
  intros B self line d H Hp Ht banner out. subst out banner.
  assert (Hb : forall more : Out unit,
             Control.dispatch self (JDict d)
               (Control.field d "type" (JStr (lit "unknown")))
               (Control.field d "message" (JStr []))
               (Control.field d "data" (JDict []))
             = OutMonad.bind
                 (print (Colors.GREEN ++ Colors.CHECK ++ Colors.END
                         ++ lit " Command executed: " ++ Colors.BOLD
                         ++ Py.text (Control.field d "message" (JStr []))
                         ++ Colors.END))
                 (fun _ => more) ->
             Control.handle_server_message self line
             = (Control.echo (JDict d)
                ++ (Colors.GREEN ++ Colors.CHECK ++ Colors.END
                    ++ lit " Command executed: " ++ Colors.BOLD
                    ++ Py.text (Control.field d "message" (JStr []))
                    ++ Colors.END)
                :: Control.guarded line more,
                snd (try_except more (Control.handle_except line)))).
  { intros more E. exact (@handle_branch B self line d _ more H Hp E). }
  split; [|split].
  - intros dd v Hd Hv.
    rewrite (Hb _ ltac:(rewrite Ht, Hd; reflexivity)).
    unfold Control.guarded. rewrite if_present_dict, Hv. reflexivity.
  - intros dd Hd Hv.
    rewrite (Hb _ ltac:(rewrite Ht, Hd; reflexivity)).
    unfold Control.guarded. rewrite if_present_dict, Hv. reflexivity.
  - intros v Hd Hv.
    rewrite (Hb _ ltac:(rewrite Ht, Hd; reflexivity)).
    unfold Control.guarded.
    destruct v; try destruct Hv; reflexivity.
Qed.

Lemma command_ack_rendering_witness :
  let dd := [ (lit "command_id", JInt 7) ] in
  let d := [ (lit "type", JStr (lit "command"));
             (lit "message", JStr (lit "Takeoff"));
             (lit "data", JDict dd) ] in
  let line := lit "ack" in
  let B := Script.builtins [ (line, JDict d) ] in
  let self := Control.init (lit "localhost") 8888 in
  json_loads line = inr (JDict d)
  /\ Control.echo_printable (JDict d)
  /\ Control.field d "type" (JStr (lit "unknown")) = JStr (lit "command")
  /\ Control.field d "data" (JDict []) = JDict dd
  /\ Py.assoc (lit "command_id") dd = Some (JInt 7)
  /\ Control.handle_server_message self line
     = (Control.echo (JDict d)
        ++ [ Colors.GREEN ++ Colors.CHECK ++ Colors.END
             ++ lit " Command executed: " ++ Colors.BOLD ++ lit "Takeoff"
             ++ Colors.END;
             lit "  Command ID: " ++ Colors.CYAN ++ Py.text (JInt 7)
             ++ Colors.END ], inr tt).
Proof.
  intros dd d line B self.
  assert (H1 : json_loads line = inr (JDict d)) by reflexivity.
  assert (H2 : Control.field d "type" (JStr (lit "unknown"))
               = JStr (lit "command")) by reflexivity.
  assert (H3 : Control.field d "data" (JDict []) = JDict dd) by reflexivity.
  assert (H4 : Py.assoc (lit "command_id") dd = Some (JInt 7))
    by reflexivity.
  assert (Hp : Control.echo_printable (JDict d))
    by (vm_compute; discriminate).
  split; [exact H1|]. split; [exact Hp|]. split; [exact H2|].
  split; [exact H3|]. split; [exact H4|].
  exact (proj1 (@command_ack_rendering B self line d H1 Hp H2) dd (JInt 7)
               H3 H4).
Defined.

(** ** The echo of the decoded object and the dispatch after it *)

(** X24. For a line that decodes to a JSON object whose echo can be
    printed, the handler prints the decoded object and then takes the
    branch that belongs to the value of [type]: each of welcome, command, status, debug, help, error and goodbye
    has its own first line, which carries the text of [message] unchanged,
    and the branches that render more pass on the value of [data] (for
    welcome: the value under the key [data], whatever it is) unchanged.
    Every other [type], and a missing one, which reads as unknown, takes
    the generic branch. A missing [message] reads as the empty string, a
    string [message] is printed as it is, and [data] is the value found
    under that key. *)
Theorem decoded_object_dispatch :
  forall (B : PyBuiltins) (self : Control.DroneController) (line : str)
         (d : list (str * json)),
    json_loads line = inr (JDict d) ->
    Control.echo_printable (JDict d) ->
    let data := JDict d in
    let msg_type := Control.field d "type" (JStr (lit "unknown")) in
    let msg := Py.text (Control.field d "message" (JStr [])) in
    let msg_data := Control.field d "data" (JDict []) in
    let out := Control.handle_server_message self line in
    let is_type (t : string) := msg_type = JStr (lit t) in
    let generic :=
      (Control.echo data
       ++ [ Colors.WHITE ++ Colors.INFO ++ Colors.END ++ lit " " ++ msg ],
       inr tt) in
    (is_type "welcome"%string ->
       fst out
       = Control.echo data
         ++ (Colors.GREEN ++ Colors.CHECK ++ Colors.END ++ lit " "
             ++ Colors.BOLD ++ msg ++ Colors.END)
         :: match Py.assoc (lit "data") d with
            | Some v => Control.guarded line (Control.print_commands self v)
            | None => []
            end)
    /\ (is_type "command"%string ->
          fst out
          = Control.echo data
            ++ (Colors.GREEN ++ Colors.CHECK ++ Colors.END
                ++ lit " Command executed: " ++ Colors.BOLD ++ msg
                ++ Colors.END)
            :: Control.guarded line
                 (Control.if_present "command_id" msg_data
                    (fun command_id =>
                       print (lit "  Command ID: " ++ Colors.CYAN
                              ++ Py.text command_id ++ Colors.END))))
    /\ (is_type "status"%string ->
          out = (Control.echo data
                 ++ [ Colors.YELLOW ++ Colors.INFO ++ Colors.END
                      ++ lit " Status: " ++ msg ], inr tt))
    /\ (is_type "debug"%string ->
          fst out
          = Control.echo data
            ++ (Colors.MAGENTA ++ Colors.INFO ++ Colors.END
                ++ lit " Debug info: " ++ Colors.BOLD ++ msg ++ Colors.END)
            :: Control.guarded line (Control.print_debug_data msg_data))
    /\ (is_type "help"%string ->
          fst out
          = Control.echo data
            ++ (Colors.CYAN ++ Colors.INFO ++ Colors.END ++ lit " Help: "
                ++ Colors.BOLD ++ msg ++ Colors.END)
            :: Control.guarded line
                 (Control.if_present "commands" msg_data
                    (Control.print_commands self)))
    /\ (is_type "error"%string ->
          out = (Control.echo data
                 ++ [ Colors.RED ++ Colors.CROSS ++ Colors.END
                      ++ lit " Error: " ++ msg ], inr tt))
    /\ (is_type "goodbye"%string ->
          out = (Control.echo data
                 ++ [ Colors.YELLOW ++ Colors.INFO ++ Colors.END ++ lit " "
                      ++ msg ], inr tt))
    /\ (forallb (fun t => negb (Py.eq_str msg_type (lit t)))
                Control.recognized = true ->
          out = generic)
    /\ (Py.assoc (lit "type") d = None -> out = generic)
    /\ (Py.assoc (lit "message") d = None -> msg = [])
    /\ (forall m : str, Py.assoc (lit "message") d = Some (JStr m) -> msg = m)
    /\ (forall v : json, Py.assoc (lit "data") d = Some v -> msg_data = v).
Proof.
  intros B self line d H Hp data msg_type msg msg_data out is_type generic.
  unfold is_type, out, generic, msg, msg_data, msg_type, data.
  repeat match goal with |- _ /\ _ => split end.
  - intros E.
    rewrite (@handle_branch B self line d _
               (Control.if_present "data" (JDict d)
                  (Control.print_commands self)) H Hp)
      by (now rewrite E).
    cbn [fst]. rewrite if_present_dict.
    now destruct (Py.assoc (lit "data") d).
  - intros E.
    now rewrite (@handle_branch B self line d _ _ H Hp) by (now rewrite E).
  - intros E. apply (handle_leaf self _ H Hp). now rewrite E.
  - intros E.
    now rewrite (@handle_branch B self line d _ _ H Hp) by (now rewrite E).
  - intros E.
    now rewrite (@handle_branch B self line d _ _ H Hp) by (now rewrite E).
  - intros E. apply (handle_leaf self _ H Hp). now rewrite E.
  - intros E. apply (handle_leaf self _ H Hp). now rewrite E.
  - intros E. apply (handle_leaf self _ H Hp). now apply dispatch_generic.
  - intros E. apply (handle_leaf self _ H Hp). apply dispatch_generic.
    unfold Control.field. rewrite E. reflexivity.
  - intros E. unfold Control.field. now rewrite E.
  - intros m E. unfold Control.field. now rewrite E.
  - intros v E. unfold Control.field. now rewrite E.
Qed.

Lemma decoded_object_dispatch_witness :
  let B := Script.builtins [ (Script.welcome_line, Script.welcome_value) ] in
  let self := Control.init (lit "localhost") 8888 in
  json_loads Script.welcome_line = inr Script.welcome_value
  /\ Control.echo_printable Script.welcome_value
  /\ fst (Control.handle_server_message self Script.welcome_line)
     = Control.echo Script.welcome_value
       ++ (Colors.GREEN ++ Colors.CHECK ++ Colors.END ++ lit " "
           ++ Colors.BOLD ++ lit "hi" ++ Colors.END)
       :: Control.guarded Script.welcome_line
            (Control.print_commands self
               (JDict [ (lit "a", JStr (lit "Unlock")) ])).
Proof.
  intros B self.
  assert (H : json_loads Script.welcome_line = inr Script.welcome_value)
    by reflexivity.
  assert (Hp : Control.echo_printable Script.welcome_value)
    by (vm_compute; discriminate).
  split; [exact H|]. split; [exact Hp|].
  exact (proj1 (@decoded_object_dispatch B self Script.welcome_line _ H Hp)
               eq_refl).
Defined.

(** X25. A decoded object whose echo cannot be printed is reported as a
    parse failure, whatever its type: [print] raises inside the [try]
    block before the branch of the type is reached, so the handler prints
    the heading of the echo, the failure line with the wording of the
    encoding error and the raw message, and returns normally. *)
Theorem unprintable_echo_is_parse_failure :
  forall (B : PyBuiltins) (self : Control.DroneController) (line : str)
         (d : list (str * json)),
    json_loads line = inr (JDict d) ->
    ~ Control.echo_printable (JDict d) ->
    Control.handle_server_message self line
    = ([ Colors.WHITE ++ lit "JSON Response:" ++ Colors.END;
         Colors.RED ++ Colors.CROSS ++ Colors.END
         ++ lit " Failed to parse message: " ++ wording UnicodeError;
         lit "Raw message: " ++ line ], inr tt).
Proof. intros B self line d H Hp. exact (handle_unprintable self _ H Hp). Qed.

Lemma unprintable_echo_is_parse_failure_witness :
  let B := Script.surrogate_builtins in
  let self := Control.init (lit "localhost") 8888 in
  let line := Script.surrogate_line in
  let d := [ (lit "type", JStr (lit "status"));
             (lit "message", JStr [55296%N]) ] in
  json_loads line = inr (JDict d)
  /\ ~ Control.echo_printable (JDict d)
  /\ Control.handle_server_message self line
     = ([ Colors.WHITE ++ lit "JSON Response:" ++ Colors.END;
          Colors.RED ++ Colors.CROSS ++ Colors.END
          ++ lit " Failed to parse message: " ++ wording UnicodeError;
          lit "Raw message: " ++ line ], inr tt).
Proof.
  intros B self line d.
  assert (H1 : json_loads line = inr (JDict d)) by reflexivity.
  assert (H2 : ~ Control.echo_printable (JDict d))
    by (intros Hp; apply Hp; vm_compute; reflexivity).
  split; [exact H1|]. split; [exact H2|].
  exact (@unprintable_echo_is_parse_failure B self line d H1 H2).
Defined.
